(** * EcostressCloudAPI (src/api.py): a shallow embedding and its properties

    The development follows the class [EcostressCloudAPI]: the filename
    pattern and [_parse_datetime_from_file_name], [_create_day_urls],
    [_parse_bbox_from_xml], [_overlaps_bbox], [_download] and the public
    [download].

    Conventions of the model.
    - A Python [str] or [bytes] value is a [string] of 8-bit characters: the
      names, paths and URLs of the archive are ASCII. Among these characters
      the class [\d] of [re] is exactly the ten ASCII digits. The filename
      parser is also given on every [str], as a list of code points, in the
      module [Unicode], where [\d] and [int] take the decimal digits of
      every script.
    - The file system is the map from the paths that exist to their
      contents; the directories the program writes into are taken to exist.
    - A possibly-[None] Python value is an [option].
    - A call that may raise returns a [result]; code with effects on the
      file system, the network or standard output lives in the monad [M].
    - What the interpreter, the operating system and the remote archive
      provide (listing pages, response bodies, the XML parser, [float]) is
      gathered in the record [World]. *)

From Stdlib Require Import ZArith QArith Bool List String Ascii Lia.
From stdpp Require Import gmap strings.

Import ListNotations.
Local Open Scope string_scope.
Local Open Scope Z_scope.

(** ** Exceptions and results *)

Inductive exn : Type :=
| TypeError
| ValueError
| OverflowError
| AttributeError
| IndexError
| FileNotFoundError
| KeyError
| RecursionError
| LoopBudgetExhausted
| LibraryError (what : string).

Inductive result (A : Type) : Type :=
| Ok (a : A)
| Raise (e : exn).

Arguments Ok {A} a.
Arguments Raise {A} e.

Definition result_bind {A B} (r : result A) (k : A -> result B) : result B :=
  match r with
  | Ok a => k a
  | Raise e => Raise e
  end.

Notation "'let?' x ':=' r 'in' k" := (result_bind r (fun x => k))
  (at level 10, x name, r at level 100, k at level 200).

(** ** [datetime]: naive datetimes, their constructor, order and day step *)

Module Datetime.

Record datetime : Type := mk {
    year : Z; month : Z; day : Z;
    hour : Z; minute : Z; second : Z; microsecond : Z
  }.

Definition MINYEAR : Z := 1.
Definition MAXYEAR : Z := 9999.

Definition is_leap (y : Z) : bool :=
    (y mod 4 =? 0) && (negb (y mod 100 =? 0) || (y mod 400 =? 0)).

Definition days_in_month (y m : Z) : Z :=
    if m =? 2 then (if is_leap y then 29 else 28)
    else if (m =? 4) || (m =? 6) || (m =? 9) || (m =? 11) then 30
    else 31.

Definition between (lo x hi : Z) : bool := (lo <=? x) && (x <=? hi).

Definition check_date_fields (y m d : Z) : bool :=
    between MINYEAR y MAXYEAR && between 1 m 12 && between 1 d (days_in_month y m).

Definition check_time_fields (h mi s us : Z) : bool :=
    between 0 h 23 && between 0 mi 59 && between 0 s 59 && between 0 us 999999.

  (** The invariant every [datetime] object satisfies. *)
Definition valid (t : datetime) : bool :=
    check_date_fields (year t) (month t) (day t)
    && check_time_fields (hour t) (minute t) (second t) (microsecond t).

  (** [datetime(y, m, d, h, mi, s)]: [ValueError] on a field out of range. *)
Definition datetime_new (y m d h mi s : Z) : result datetime :=
    if check_date_fields y m d && check_time_fields h mi s 0
    then Ok (mk y m d h mi s 0)
    else Raise ValueError.

  (** Comparison is that of the tuples (year, ..., microsecond). *)
Definition key (t : datetime) : list Z :=
    [year t; month t; day t; hour t; minute t; second t; microsecond t].

Fixpoint lex_compare (a b : list Z) : comparison :=
    match a, b with
    | [], [] => Eq
    | [], _ :: _ => Lt
    | _ :: _, [] => Gt
    | x :: a', y :: b' =>
        match x ?= y with
        | Eq => lex_compare a' b'
        | c => c
        end
    end.

Definition le (a b : datetime) : bool :=
    match lex_compare (key a) (key b) with
    | Gt => false
    | _ => true
    end.

  (** [t + timedelta(days=1)]: the next calendar date, the time of day kept;
      [OverflowError] past 9999-12-31. *)
Definition add_one_day (t : datetime) : result datetime :=
    let with_date y m d :=
      mk y m d (hour t) (minute t) (second t) (microsecond t) in
    if day t <? days_in_month (year t) (month t)
    then Ok (with_date (year t) (month t) (day t + 1))
    else if month t <? 12 then Ok (with_date (year t) (month t + 1) 1)
    else if year t <? MAXYEAR then Ok (with_date (year t + 1) 1 1)
    else Raise OverflowError.

  (** Decimal rendering with a fixed number of digits. *)
Definition digit_char (n : Z) : ascii :=
    ascii_of_nat (48 + Z.to_nat (n mod 10)).

Fixpoint zero_padded (width : nat) (n : Z) : string :=
    match width with
    | O => ""
    | S w => zero_padded w (n / 10) +:+ String (digit_char n) ""
    end.

  (** Leading zeros dropped, the last digit kept. *)
Fixpoint strip_zeros (s : string) : string :=
    match s with
    | String c (String _ _ as s') =>
        if Ascii.eqb c "0" then strip_zeros s' else s
    | _ => s
    end.

  (** [t.strftime('%Y.%m.%d')]. The month and the day are on two digits; the
      year is printed as the C library of Linux prints [%Y], without padding:
      four digits from the year 1000 on, fewer before ([999.01.05]). *)
Definition strftime_Y_m_d (t : datetime) : string :=
    strip_zeros (zero_padded 4 (year t)) +:+ "." +:+ zero_padded 2 (month t)
    +:+ "." +:+ zero_padded 2 (day t).

End Datetime.
Export Datetime(datetime).

(** ** [re]: the fragment of regular expressions the filename pattern uses *)

Module Re.

  (** Literal characters, [\d], concatenation, [r{n}], [(?P<name>r)] and [$].
      The fragment has no alternation and no variable repetition, so a match
      attempt never backtracks. *)
Inductive regex : Type :=
  | Chr (c : ascii)
  | Digit
  | Cat (r1 r2 : regex)
  | Repeat (n : nat) (r : regex)
  | Named (name : string) (r : regex)
  | Dollar
  | Empty.

Definition groupdict : Type := list (string * string).

  (** [\d] on an 8-bit character: the ASCII digits, the only decimal digits
      below U+0100. *)
Definition is_digit (c : ascii) : bool :=
    let n := nat_of_ascii c in (48 <=? n)%nat && (n <=? 57)%nat.

Definition newline : string := String (ascii_of_nat 10) "".

  (** One step of matching: the text matched, the text left and the groups. *)
Definition matcher : Type :=
    string -> groupdict -> option (string * string * groupdict).

Fixpoint repeat_match (n : nat) (m : matcher) : matcher :=
    fun s g =>
      match n with
      | O => Some ("", s, g)
      | S n' =>
          match m s g with
          | Some (t1, s1, g1) =>
              match repeat_match n' m s1 g1 with
              | Some (t2, s2, g2) => Some (t1 +:+ t2, s2, g2)
              | None => None
              end
          | None => None
          end
      end.

Fixpoint match_here (r : regex) : matcher :=
    fun s g =>
      match r with
      | Chr c =>
          match s with
          | String x s' => if Ascii.eqb x c then Some (String x "", s', g) else None
          | EmptyString => None
          end
      | Digit =>
          match s with
          | String x s' => if is_digit x then Some (String x "", s', g) else None
          | EmptyString => None
          end
      | Cat r1 r2 =>
          match match_here r1 s g with
          | Some (t1, s1, g1) =>
              match match_here r2 s1 g1 with
              | Some (t2, s2, g2) => Some (t1 +:+ t2, s2, g2)
              | None => None
              end
          | None => None
          end
      | Repeat n r' => repeat_match n (match_here r') s g
      | Named name r' =>
          match match_here r' s g with
          | Some (t, s', g') => Some (t, s', (g' ++ [(name, t)])%list)
          | None => None
          end
      | Dollar =>
          (* the end of the string, or just before a newline that ends it *)
          if String.eqb s "" || String.eqb s newline then Some ("", s, g) else None
      | Empty => Some ("", s, g)
      end.

  (** [re.match(pattern, string)]: a match anchored at the start; [TypeError]
      when [string] is [None]. *)
Definition re_match (pattern : regex) (s : option string)
    : result (option groupdict) :=
    match s with
    | None => Raise TypeError
    | Some s =>
        Ok (match match_here pattern s [] with
            | Some (_, _, g) => Some g
            | None => None
            end)
    end.

Fixpoint getitem (g : groupdict) (name : string) : result string :=
    match g with
    | [] => Raise KeyError
    | (k, v) :: g' => if String.eqb k name then Ok v else getitem g' name
    end.

Definition literal (s : string) : regex :=
    fold_right (fun c r => Cat (Chr c) r) Empty (list_ascii_of_string s).

Definition seq (rs : list regex) : regex := fold_right Cat Empty rs.

  (** [int(s)] on a string of decimal digits. *)
Definition digit_value (c : ascii) : Z := Z.of_nat (nat_of_ascii c) - 48.

Fixpoint int_acc (acc : Z) (s : string) : Z :=
    match s with
    | EmptyString => acc
    | String c s' => int_acc (10 * acc + digit_value c) s'
    end.

Definition int (s : string) : Z := int_acc 0 s.

End Re.

(** ** The filename pattern and [_parse_datetime_from_file_name] *)

Import Re.

Definition _file_re : regex :=
  seq [ literal "ECOSTRESS_L2_CLOUD_";
        Named "orbit" (Repeat 5 Digit); Chr "_";
        Named "scene_id" (Repeat 3 Digit); Chr "_";
        Named "year" (Repeat 4 Digit);
        Named "month" (Repeat 2 Digit);
        Named "day" (Repeat 2 Digit);
        Chr "T";
        Named "hour" (Repeat 2 Digit);
        Named "minute" (Repeat 2 Digit);
        Named "second" (Repeat 2 Digit); Chr "_";
        Named "build_id" (Repeat 4 Digit); Chr "_";
        Named "version" (Repeat 2 Digit);
        literal ".h5"; Dollar ].

(** The parser on the strings of 8-bit characters, the ones [download] hands
    to it in this model. *)
Definition _parse_datetime_from_file_name (file_name : option string)
  : result (option datetime) :=
  let? m := re_match _file_re file_name in
  match m with
  | Some group_dict =>
      let? y := getitem group_dict "year" in
      let? mo := getitem group_dict "month" in
      let? d := getitem group_dict "day" in
      let? h := getitem group_dict "hour" in
      let? mi := getitem group_dict "minute" in
      let? sec := getitem group_dict "second" in
      let? t := Datetime.datetime_new (int y) (int mo) (int d)
                                      (int h) (int mi) (int sec) in
      Ok (Some t)
  | None => Ok None
  end.

(** ** The parser on every [str]

    A Python [str] is a sequence of Unicode code points, and both [\d], in
    a pattern that is itself a [str], and [int] know the decimal digits of
    every script, not only the ten ASCII ones. The module below is
    [_parse_datetime_from_file_name] on such strings. Among the 8-bit
    characters the only decimal digits are the ASCII ones, and there the
    parser is the one above. *)

Module Unicode.

(** A [str]: its code points. *)
Definition str : Type := list N.

(** The strings of 8-bit characters, as [str]. *)
Definition of_string (s : string) : str :=
  map N_of_ascii (list_ascii_of_string s).

Definition newline : str := [10%N].

Definition groupdict : Type := list (string * str).

Definition matcher : Type :=
  str -> groupdict -> option (str * str * groupdict).

Fixpoint repeat_match (n : nat) (m : matcher) : matcher :=
  fun s g =>
    match n with
    | O => Some ([], s, g)
    | S n' =>
        match m s g with
        | Some (t1, s1, g1) =>
            match repeat_match n' m s1 g1 with
            | Some (t2, s2, g2) => Some ((t1 ++ t2)%list, s2, g2)
            | None => None
            end
        | None => None
        end
    end.

Fixpoint getitem (g : groupdict) (name : string) : result str :=
  match g with
  | [] => Raise KeyError
  | (k, v) :: g' => if String.eqb k name then Ok v else getitem g' name
  end.

Section Parser.

  (** The decimal digits of the interpreter's Unicode database: [decimal c]
      is the digit value of the code point [c] when [c] is of the general
      category Nd, the characters that [\d] matches and [int] reads, and
      [None] for every other code point. *)
  Variable decimal : N -> option Z.

Definition is_decimal (c : N) : bool :=
  match decimal c with
  | Some _ => true
  | None => false
  end.

Fixpoint match_here (r : regex) : matcher :=
  fun s g =>
    match r with
    | Chr c =>
        match s with
        | x :: s' => if N.eqb x (N_of_ascii c) then Some ([x], s', g) else None
        | [] => None
        end
    | Digit =>
        match s with
        | x :: s' => if is_decimal x then Some ([x], s', g) else None
        | [] => None
        end
    | Cat r1 r2 =>
        match match_here r1 s g with
        | Some (t1, s1, g1) =>
            match match_here r2 s1 g1 with
            | Some (t2, s2, g2) => Some ((t1 ++ t2)%list, s2, g2)
            | None => None
            end
        | None => None
        end
    | Repeat n r' => repeat_match n (match_here r') s g
    | Named name r' =>
        match match_here r' s g with
        | Some (t, s', g') => Some (t, s', (g' ++ [(name, t)])%list)
        | None => None
        end
    | Dollar =>
        (* the end of the string, or just before a newline that ends it *)
        match s with
        | [] => Some ([], s, g)
        | [c] => if N.eqb c 10 then Some ([], s, g) else None
        | _ => None
        end
    | Empty => Some ([], s, g)
    end.

Definition re_match (pattern : regex) (s : option str)
  : result (option groupdict) :=
  match s with
  | None => Raise TypeError
  | Some s =>
      Ok (match match_here pattern s [] with
          | Some (_, _, g) => Some g
          | None => None
          end)
  end.

  (** [int(s)] on a string of decimal digits. *)
Definition digit_value (c : N) : Z :=
  match decimal c with
  | Some v => v
  | None => 0
  end.

Fixpoint int_acc (acc : Z) (s : str) : Z :=
  match s with
  | [] => acc
  | c :: s' => int_acc (10 * acc + digit_value c) s'
  end.

Definition int (s : str) : Z := int_acc 0 s.

Definition _parse_datetime_from_file_name (file_name : option str)
  : result (option datetime) :=
  let? m := re_match _file_re file_name in
  match m with
  | Some group_dict =>
      let? y := getitem group_dict "year" in
      let? mo := getitem group_dict "month" in
      let? d := getitem group_dict "day" in
      let? h := getitem group_dict "hour" in
      let? mi := getitem group_dict "minute" in
      let? sec := getitem group_dict "second" in
      let? t := Datetime.datetime_new (int y) (int mo) (int d)
                                      (int h) (int mi) (int sec) in
      Ok (Some t)
  | None => Ok None
  end.

End Parser.

End Unicode.

(** ** Paths and URLs *)

Module Path.

Fixpoint basename_from (s acc : string) : string :=
    match s with
    | EmptyString => acc
    | String c s' =>
        if Ascii.eqb c "/" then basename_from s' ""
        else basename_from s' (acc +:+ String c "")
    end.

  (** [os.path.basename]: what follows the last slash. *)
Definition basename (p : string) : string := basename_from p "".

Fixpoint ends_with_slash (s : string) : bool :=
    match s with
    | EmptyString => false
    | String c EmptyString => Ascii.eqb c "/"
    | String _ s' => ends_with_slash s'
    end.

Definition starts_with_slash (s : string) : bool :=
    match s with
    | String c _ => Ascii.eqb c "/"
    | EmptyString => false
    end.

  (** [os.path.join(a, b)] (POSIX). *)
Definition join (a b : string) : string :=
    if starts_with_slash b then b
    else if String.eqb a "" || ends_with_slash a then a +:+ b
    else a +:+ "/" +:+ b.

End Path.

Module Url.

Definition is_alnum (c : ascii) : bool :=
    let n := nat_of_ascii c in
    ((48 <=? n) && (n <=? 57) || (65 <=? n) && (n <=? 90)
     || (97 <=? n) && (n <=? 122))%nat.

Definition is_name_char (c : ascii) : bool :=
    is_alnum c || Ascii.eqb c "_" || Ascii.eqb c ".".

  (** A path segment that is neither empty nor a dot segment and has no
      delimiter of a URL: it starts with a letter or digit and continues
      with letters, digits, underscores and dots. *)
Definition plain_segment (s : string) : bool :=
    match s with
    | String c s' => is_alnum c && forallb is_name_char (list_ascii_of_string s')
    | EmptyString => false
    end.

Fixpoint split_slash_from (s cur : string) : list string :=
    match s with
    | EmptyString => [cur]
    | String c s' =>
        if Ascii.eqb c "/" then cur :: split_slash_from s' ""
        else split_slash_from s' (cur +:+ String c "")
    end.

Definition split_slash (s : string) : list string := split_slash_from s "".

  (** A relative reference made of one plain segment, with or without a
      closing slash. *)
Definition plain_reference (u : string) : bool :=
    match split_slash u with
    | [seg] => plain_segment seg
    | [seg; EmptyString] => plain_segment seg
    | _ => false
    end.

Fixpoint strip_prefix (p s : string) : option string :=
    match p, s with
    | EmptyString, _ => Some s
    | String a p', String b s' => if Ascii.eqb a b then strip_prefix p' s' else None
    | String _ _, EmptyString => None
    end.

  (** An https URL [https://host/seg/.../seg/] of plain segments that ends
      with a slash. *)
Definition directory_base (b : string) : bool :=
    match strip_prefix "https://" b with
    | Some rest =>
        match rev (split_slash rest) with
        | EmptyString :: (_ :: _) as segs => forallb plain_segment segs
        | _ => false
        end
    | None => false
    end.

End Url.

(** ** XML element trees ([xml.etree.ElementTree]) *)

#[warnings="-register-all"]
Inductive Element : Type :=
| Elem (tag : string) (text : option string) (children : list Element).

Module ET.

Definition tag (e : Element) : string := let 'Elem t _ _ := e in t.
Definition text (e : Element) : option string := let 'Elem _ x _ := e in x.
Definition children (e : Element) : list Element := let 'Elem _ _ c := e in c.

  (** [e.find(name)]: the first child of [e] with that tag. *)
Definition find_child (name : string) (e : Element) : option Element :=
    List.find (fun c => String.eqb (tag c) name) (children e).

  (** [e.find('.//' + name)]: the first element with that tag at any depth
      below [e], in document order. *)
Fixpoint find_descendant (name : string) (e : Element) : option Element :=
    let fix first_in (cs : list Element) : option Element :=
      match cs with
      | [] => None
      | c :: cs' =>
          if String.eqb (tag c) name then Some c
          else match find_descendant name c with
               | Some d => Some d
               | None => first_in cs'
               end
      end in
    first_in (children e).

End ET.

(** ** Polygons ([shapely.geometry.Polygon]) *)

Record Polygon : Type := mkPolygon { shell : list (Q * Q) }.

Module Shapely.

Definition Qmin_b (a b : Q) : Q := if Qle_bool a b then a else b.
Definition Qmax_b (a b : Q) : Q := if Qle_bool a b then b else a.

  (** The extent (minx, maxx, miny, maxy) of a ring; [None] without points. *)
Fixpoint extent (pts : list (Q * Q)) : option (Q * Q * Q * Q) :=
    match pts with
    | [] => None
    | (x, y) :: pts' =>
        match extent pts' with
        | None => Some (x, x, y, y)
        | Some (x0, x1, y0, y1) =>
            Some (Qmin_b x x0, Qmax_b x x1, Qmin_b y y0, Qmax_b y y1)
        end
    end.

  (** Modelled from the spec: [Polygon.intersects] is shapely's and is not
      under src/. The spec (4.2) has it turn each box into a closed
      rectangular region and report whether the two regions share any
      point, touching edges included. The program only ever builds the
      four-corner rings of axis-aligned rectangles, whose closed region is
      the extent of the ring; two such regions share a point exactly when
      their extents overlap on both axes. *)
Definition intersects (a b : Polygon) : bool :=
    match extent (shell a), extent (shell b) with
    | Some (ax0, ax1, ay0, ay1), Some (bx0, bx1, by0, by1) =>
        Qle_bool ax0 bx1 && Qle_bool bx0 ax1
        && Qle_bool ay0 by1 && Qle_bool by0 ay1
    | _, _ => false
    end.

  (** The closed region of a ring: the points within its extent. *)
Definition in_region (p : Polygon) (x y : Q) : Prop :=
    match extent (shell p) with
    | Some (x0, x1, y0, y1) => (x0 <= x /\ x <= x1 /\ y0 <= y /\ y <= y1)%Q
    | None => False
    end.

End Shapely.

(** ** The environment, the observable state and the monad of effects *)

(** What the program takes from outside itself. *)
Record World : Type := mkWorld {
  (** [os.path.dirname(os.path.dirname(__file__))] *)
  PROJ_DIR : string;
  (** [requests.get(url)] followed by the [href] of every anchor of the page,
      in document order ([None] for an anchor without one) *)
  page_links : string -> result (list (option string));
  (** [urllib.request.urlopen(Request(link))]: the values its successive
      [read()] calls return; after the last of them [read()] returns [b''] *)
  response_reads : string -> result (list string);
  (** [urllib.parse.urljoin] outside the plain case resolved in [urljoin] *)
  urljoin_general : string -> string -> result string;
  (** [ET.fromstring] *)
  ET_fromstring : string -> result Element;
  (** [float] on a string *)
  float : string -> result Q
}.

Inductive request : Type :=
| HttpGet (url : string)     (* requests.get *)
| UrlOpen (url : string).    (* urllib.request.urlopen *)

Record state : Type := mkState {
  files : gmap string string;     (* the paths that exist, with their content *)
  network : list request;         (* the requests sent so far, oldest first *)
  stdout : list string            (* the lines printed so far *)
}.

Definition M (A : Type) : Type := state -> result A * state.

Definition ret {A} (a : A) : M A := fun st => (Ok a, st).

Definition raise {A} (e : exn) : M A := fun st => (Raise e, st).

Definition bind {A B} (m : M A) (k : A -> M B) : M B :=
  fun st =>
    match m st with
    | (Ok a, st') => k a st'
    | (Raise e, st') => (Raise e, st')
    end.

Definition lift {A} (r : result A) : M A := fun st => (r, st).

Notation "'let*' x ':=' m 'in' k" := (bind m (fun x => k))
  (at level 10, x name, m at level 100, k at level 200).

Notation "m ';;' k" := (bind m (fun _ => k))
  (at level 100, k at level 200, right associativity).

Definition os_path_exists (path : string) : M bool :=
  fun st => (Ok (bool_decide (is_Some (files st !! path))), st).

Definition print (line : string) : M unit :=
  fun st => (Ok tt, mkState (files st) (network st) (stdout st ++ [line])).

Definition send (r : request) : M unit :=
  fun st => (Ok tt, mkState (files st) (network st ++ [r]) (stdout st)).

(** [open(path, 'wb')]: the file is created, or emptied. The directory of
    [path] is taken to exist, so the call returns; where the directory is
    missing the interpreter raises [FileNotFoundError] here instead. *)
Definition open_wb (path : string) : M unit :=
  fun st => (Ok tt, mkState (<[path := ""]> (files st)) (network st) (stdout st)).

(** [fd.write(chunk)] on a file opened by [open_wb]. *)
Definition fd_write (path chunk : string) : M unit :=
  fun st =>
    let old := default "" (files st !! path) in
    (Ok tt, mkState (<[path := old +:+ chunk]> (files st)) (network st) (stdout st)).

(** [open(path, 'rb').read()] *)
Definition read_rb (path : string) : M string :=
  fun st =>
    match files st !! path with
    | Some content => (Ok content, st)
    | None => (Raise FileNotFoundError, st)
    end.

(** ** Values and the binding of call arguments *)

#[warnings="-register-all"]
Inductive pyobj : Type :=
| PyStr (s : string)
| PyTuple (items : list pyobj)
| PyDatetime (t : datetime)
| PyNumbers (xs : list Q).

(** The parameters of [download] after [self]; none has a default. *)
Definition download_params : list string :=
  ["start_date"; "end_date"; "bbox"; "output_dir"].

(** A call with positional arguments only, against required parameters:
    [TypeError] unless there is one argument per parameter. *)
Definition bind_positional (params : list string) (args : list pyobj)
  : result (list (string * pyobj)) :=
  if (length args =? length params)%nat then Ok (combine params args)
  else Raise TypeError.

(** ** The methods of [EcostressCloudAPI] *)

Definition _BASE_CLOUD_URL : string :=
  "https://e4ftl01.cr.usgs.gov/ECOSTRESS/ECO2CLD.001/".

Section Methods.

  Variable W : World.

  (** What [self.download] runs once its arguments are bound: the methods
      below reach [download] through [self], so they are written over it and
      [download] closes the loop after the section. *)
  Variable self_download : list (string * pyobj) -> M unit.

Definition _XML_DIR : string := Path.join (PROJ_DIR W) "xml_files".

  (** [urllib.parse.urljoin(base, url)]. An empty or [None] reference gives
      the base; a plain reference under a directory base is appended to it;
      everything else is the library's general resolution. *)
Definition urljoin (base : string) (url : option string) : result string :=
    match url with
    | None => Ok base
    | Some u =>
        if String.eqb u "" then Ok base
        else if Url.plain_reference u && Url.directory_base base
             then Ok (base +:+ u)
             else urljoin_general W base u
    end.

Definition retrieve_links (url : string) : M (list (option string)) :=
    send (HttpGet url);;
    lift (page_links W url).

  (** The loop of [_download]: read a chunk, stop when it is empty, else
      write it and go on. *)
Fixpoint read_loop (dest : string) (reads : list string) : M unit :=
    match reads with
    | [] => ret tt
    | chunk :: reads' =>
        if String.eqb chunk "" then ret tt
        else fd_write dest chunk;; read_loop dest reads'
    end.

  (** The password manager, cookie jar and opener set up before the request
      have no effect on the files, the requests or the output. *)
Definition _download (query : string * string) : M unit :=
    let link := fst query in
    let dest := snd query in
    let* present := os_path_exists dest in
    if present then print ("Skipping " +:+ dest)
    else
      send (UrlOpen link);;
      let* reads := lift (response_reads W link) in
      open_wb dest;;
      read_loop dest reads.

Definition float_of_text (parent : option Element) (name : string) : result Q :=
    match parent with
    | None => Raise AttributeError        (* None.find *)
    | Some rect =>
        match ET.find_child name rect with
        | None => Raise AttributeError    (* None.text *)
        | Some c =>
            match ET.text c with
            | None => Raise TypeError     (* float(None) *)
            | Some txt => float W txt
            end
        end
    end.

  (** Lines 97 to 103: from the parsed document to the polygon. *)
Definition bbox_of_root (root : Element) : result Polygon :=
    let bounding_rect := ET.find_descendant "BoundingRectangle" root in
    let? west := float_of_text bounding_rect "WestBoundingCoordinate" in
    let? north := float_of_text bounding_rect "NorthBoundingCoordinate" in
    let? east := float_of_text bounding_rect "EastBoundingCoordinate" in
    let? south := float_of_text bounding_rect "SouthBoundingCoordinate" in
    Ok (mkPolygon [(west, north); (east, north); (east, south); (west, south)]).

Definition _parse_bbox_from_xml (xml_url : string) : M Polygon :=
    let filename := Path.basename xml_url in
    let file_path := Path.join _XML_DIR filename in
    let* present := os_path_exists file_path in
    (if negb present
     then
       (* self.download((xml_url, file_path)): one positional argument *)
       let* frame := lift (bind_positional download_params
                             [PyTuple [PyStr xml_url; PyStr file_path]]) in
       self_download frame
     else ret tt);;
    let* content := read_rb file_path in
    let* root := lift (ET_fromstring W content) in
    lift (bbox_of_root root).

Definition getitem_bbox (target_bbox : list Q) (i : nat) : result Q :=
    match nth_error target_bbox i with
    | Some x => Ok x
    | None => Raise IndexError
    end.

Definition _overlaps_bbox (target_bbox : list Q) (xml_url : string) : M bool :=
    let* min_lon := lift (getitem_bbox target_bbox 0) in
    let* min_lat := lift (getitem_bbox target_bbox 1) in
    let* max_lon := lift (getitem_bbox target_bbox 2) in
    let* max_lat := lift (getitem_bbox target_bbox 3) in
    let target := mkPolygon [(min_lon, max_lat); (max_lon, max_lat);
                             (max_lon, min_lat); (min_lon, min_lat)] in
    let* file_bbox := _parse_bbox_from_xml xml_url in
    ret (Shapely.intersects file_bbox target).

  (** A count of days that grows with the date: a bound on the iterations of
      the loop of [_create_day_urls]. *)
Definition day_index (t : datetime) : Z :=
    372 * Datetime.year t + 31 * Datetime.month t + Datetime.day t.

Definition loop_budget (start_date end_date : datetime) : nat :=
    S (Z.to_nat (day_index end_date - day_index start_date + 1)).

  (** The [while] loop of [_create_day_urls]; [None] when the budget of
      iterations runs out before the loop ends. *)
Fixpoint day_urls_loop (budget : nat) (start_date end_date : datetime)
      (day_urls : list string) : option (result (list string)) :=
    match budget with
    | O => None
    | S budget' =>
        if Datetime.le start_date end_date then
          match urljoin _BASE_CLOUD_URL
                  (Some (Datetime.strftime_Y_m_d start_date +:+ "/")) with
          | Raise e => Some (Raise e)
          | Ok day_url =>
              match Datetime.add_one_day start_date with
              | Raise e => Some (Raise e)
              | Ok next => day_urls_loop budget' next end_date (day_urls ++ [day_url])
              end
          end
        else Some (Ok day_urls)
    end.

Definition _create_day_urls (start_date end_date : datetime)
    : result (list string) :=
    match day_urls_loop (loop_budget start_date end_date) start_date end_date [] with
    | Some r => r
    | None => Raise LoopBudgetExhausted
    end.

  (** The condition of line 142, evaluated left to right. *)
Definition keeps (start_date end_date : datetime) (bbox : list Q)
      (link : string) (file_date : option datetime) : M bool :=
    match file_date with
    | None => ret false
    | Some t =>
        if Datetime.le start_date t && Datetime.le t end_date
        then _overlaps_bbox bbox (link +:+ ".xml")
        else ret false
    end.

  (** The inner loop of [download], over the links of one day page. *)
Fixpoint select_files (start_date end_date : datetime) (bbox : list Q)
      (day_url : string) (file_urls : list (option string))
      (file_links : list string) : M (list string) :=
    match file_urls with
    | [] => ret file_links
    | file_url :: file_urls' =>
        let* link := lift (urljoin day_url file_url) in
        let* file_date := lift (_parse_datetime_from_file_name file_url) in
        let* keep := keeps start_date end_date bbox link file_date in
        select_files start_date end_date bbox day_url file_urls'
          (if keep then file_links ++ [link] else file_links)
    end.

  (** The outer loop of [download], over the day pages. *)
Fixpoint select_days (start_date end_date : datetime) (bbox : list Q)
      (day_urls : list string) (file_links : list string) : M (list string) :=
    match day_urls with
    | [] => ret file_links
    | day_url :: day_urls' =>
        let* file_urls := retrieve_links day_url in
        let* file_links' :=
          select_files start_date end_date bbox day_url file_urls file_links in
        select_days start_date end_date bbox day_urls' file_links'
    end.

Fixpoint download_all (file_requests : list (string * string)) : M unit :=
    match file_requests with
    | [] => ret tt
    | request :: file_requests' => _download request;; download_all file_requests'
    end.

Definition file_requests_of (output_dir : string) (file_links : list string)
    : list (string * string) :=
    map (fun link => (link, Path.join output_dir (Path.basename link))) file_links.

Definition download_method (start_date end_date : datetime) (bbox : list Q)
      (output_dir : string) : M unit :=
    let* day_urls := lift (_create_day_urls start_date end_date) in
    let* file_links := select_days start_date end_date bbox day_urls [] in
    download_all (file_requests_of output_dir file_links).

End Methods.

(** [self.download] with its arguments bound, at a given depth of the call
    stack: the interpreter stops a recursion that goes too deep. *)
Fixpoint download_frame (W : World) (depth : nat)
    (frame : list (string * pyobj)) : M unit :=
  match depth with
  | O => raise RecursionError
  | S depth' =>
      match frame with
      | [(_, PyDatetime start_date); (_, PyDatetime end_date);
         (_, PyNumbers bbox); (_, PyStr output_dir)] =>
          download_method W (download_frame W depth') start_date end_date bbox
            output_dir
      | _ => raise TypeError
      end
  end.

Definition recursion_limit : nat := 1000.

(** The public entry point. *)
Definition download (W : World) (start_date end_date : datetime)
    (bbox : list Q) (output_dir : string) : M unit :=
  download_method W (download_frame W recursion_limit) start_date end_date bbox
    output_dir.

(** * Statements: the vocabulary of the properties *)

(** The bytes a download leaves in its file. *)
Definition concat_chunks (chunks : list string) : string :=
  fold_right String.append "" chunks.

(** The ring of the rectangle with these sides, as lines 103 and 108 build it. *)
Definition rectangle (west north east south : Q) : Polygon :=
  mkPolygon [(west, north); (east, north); (east, south); (west, south)].

(** The order of tuples, field by field. *)
Fixpoint lex_le (a b : list Z) : Prop :=
  match a, b with
  | [], _ => True
  | _ :: _, [] => False
  | x :: a', y :: b' => x < y \/ (x = y /\ lex_le a' b')
  end.

(** [a <= b] on datetimes: every field counts, down to the microsecond. *)
Definition dt_le (a b : datetime) : Prop :=
  lex_le (Datetime.key a) (Datetime.key b).

(** Between [st] and [st'] nothing happened but the listing of [days]. *)
Definition listed (st : state) (days : list string) (st' : state) : Prop :=
  files st' = files st /\ stdout st' = stdout st
  /\ network st' = (network st ++ map HttpGet days)%list.

(** The text of the first child of [e] with that tag. *)
Definition child_text (e : Element) (name : string) : option string :=
  match ET.find_child name e with
  | Some c => ET.text c
  | None => None
  end.

(** ** The naming convention, as the specification words it *)

(** The ten digit fields of
    ECOSTRESS_L2_CLOUD_<orbit>_<scene>_<YYYYMMDD>T<HHMMSS>_<build>_<version>.h5 *)
Record FileNameFields : Type := mkFields {
  f_orbit : string; f_scene_id : string;
  f_year : string; f_month : string; f_day : string;
  f_hour : string; f_minute : string; f_second : string;
  f_build_id : string; f_version : string
}.

Definition digitsb (n : nat) (s : string) : bool :=
  (String.length s =? n)%nat && forallb is_digit (list_ascii_of_string s).

Definition well_formed (f : FileNameFields) : bool :=
  digitsb 5 (f_orbit f) && digitsb 3 (f_scene_id f)
  && digitsb 4 (f_year f) && digitsb 2 (f_month f) && digitsb 2 (f_day f)
  && digitsb 2 (f_hour f) && digitsb 2 (f_minute f) && digitsb 2 (f_second f)
  && digitsb 4 (f_build_id f) && digitsb 2 (f_version f).

Definition file_name_of (f : FileNameFields) : string :=
  "ECOSTRESS_L2_CLOUD_" +:+ f_orbit f +:+ "_" +:+ f_scene_id f +:+ "_"
  +:+ f_year f +:+ f_month f +:+ f_day f +:+ "T"
  +:+ f_hour f +:+ f_minute f +:+ f_second f +:+ "_"
  +:+ f_build_id f +:+ "_" +:+ f_version f +:+ ".h5".

(** The fields of a filename name a real date and time of day. *)
Definition names_a_datetime (f : FileNameFields) : bool :=
  Datetime.check_date_fields (int (f_year f)) (int (f_month f)) (int (f_day f))
  && Datetime.check_time_fields (int (f_hour f)) (int (f_minute f))
       (int (f_second f)) 0.

Definition encoded_datetime (f : FileNameFields) : datetime :=
  Datetime.mk (int (f_year f)) (int (f_month f)) (int (f_day f))
    (int (f_hour f)) (int (f_minute f)) (int (f_second f)) 0.

(** A string follows the convention when it is the filename of well-formed
    fields. *)
Definition follows_convention (s : string) : Prop :=
  exists f, well_formed f = true /\ s = file_name_of f.

(** The groups a match of the pattern captures, in the order it closes them. *)
Definition groups_of (f : FileNameFields) : groupdict :=
  [ ("orbit", f_orbit f); ("scene_id", f_scene_id f);
    ("year", f_year f); ("month", f_month f); ("day", f_day f);
    ("hour", f_hour f); ("minute", f_minute f); ("second", f_second f);
    ("build_id", f_build_id f); ("version", f_version f) ].

(** What the pattern accepts: a filename of the convention, alone or
    followed by one newline. *)
Definition accepted (s : string) : Prop :=
  exists f tail, well_formed f = true /\ (tail = "" \/ tail = newline)
                 /\ s = file_name_of f +:+ tail.

(** ** The naming convention on every [str] *)

Module UnicodeNames.

Import Unicode.

(** The ten digit fields of a filename. *)
Record Fields : Type := mkFields {
  orbit : str; scene_id : str;
  year : str; month : str; day : str;
  hour : str; minute : str; second : str;
  build_id : str; version : str
}.

(** [n] decimal digits, of any script. *)
Definition digitsb (decimal : N -> option Z) (n : nat) (s : str) : bool :=
  (length s =? n)%nat && forallb (is_decimal decimal) s.

Definition well_formed (decimal : N -> option Z) (f : Fields) : bool :=
  digitsb decimal 5 (orbit f) && digitsb decimal 3 (scene_id f)
  && digitsb decimal 4 (year f) && digitsb decimal 2 (month f)
  && digitsb decimal 2 (day f) && digitsb decimal 2 (hour f)
  && digitsb decimal 2 (minute f) && digitsb decimal 2 (second f)
  && digitsb decimal 4 (build_id f) && digitsb decimal 2 (version f).

Definition file_name_of (f : Fields) : str :=
  (of_string "ECOSTRESS_L2_CLOUD_" ++ orbit f ++ of_string "_" ++ scene_id f
   ++ of_string "_" ++ year f ++ month f ++ day f ++ of_string "T"
   ++ hour f ++ minute f ++ second f ++ of_string "_"
   ++ build_id f ++ of_string "_" ++ version f ++ of_string ".h5")%list.

(** The fields name a real date and time of day. *)
Definition names_a_datetime (decimal : N -> option Z) (f : Fields) : bool :=
  Datetime.check_date_fields (int decimal (year f)) (int decimal (month f))
    (int decimal (day f))
  && Datetime.check_time_fields (int decimal (hour f)) (int decimal (minute f))
       (int decimal (second f)) 0.

Definition encoded_datetime (decimal : N -> option Z) (f : Fields) : datetime :=
  Datetime.mk (int decimal (year f)) (int decimal (month f))
    (int decimal (day f)) (int decimal (hour f)) (int decimal (minute f))
    (int decimal (second f)) 0.

(** The groups a match of the pattern captures, in the order it closes them. *)
Definition groups_of (f : Fields) : groupdict :=
  [ ("orbit", orbit f); ("scene_id", scene_id f);
    ("year", year f); ("month", month f); ("day", day f);
    ("hour", hour f); ("minute", minute f); ("second", second f);
    ("build_id", build_id f); ("version", version f) ].

(** What the pattern accepts: a filename of the convention, alone or
    followed by one newline. *)
Definition accepted (decimal : N -> option Z) (s : str) : Prop :=
  exists f tail, well_formed decimal f = true
                 /\ (tail = [] \/ tail = newline)
                 /\ s = (file_name_of f ++ tail)%list.

(** The 8-bit strings seen as [str]: the groups of a match, and a table of
    digits that is right on the 8-bit characters, where the decimal digits
    are the ASCII ones. *)
Definition of_groups (g : Re.groupdict) : groupdict :=
  map (fun kv => (fst kv, of_string (snd kv))) g.

Definition ascii_digits_only (decimal : N -> option Z) : Prop :=
  forall c : ascii,
    decimal (N_of_ascii c)
    = if Re.is_digit c then Some (Re.digit_value c) else None.

(** A part of the table of decimal digits: the ASCII digits and the
    Arabic-Indic digits U+0660 to U+0669. *)
Definition two_scripts (c : N) : option Z :=
  if ((48 <=? c) && (c <=? 57))%N then Some (Z.of_N c - 48)
  else if ((1632 <=? c) && (c <=? 1641))%N then Some (Z.of_N c - 1632)
  else None.

End UnicodeNames.

(** * The data of tests/test_api.py *)

Module Fixtures.

  (** The metadata document of [test_parse_bbox_from_xml]. *)
Definition bounding_rectangle : Element :=
    Elem "BoundingRectangle" None
      [ Elem "WestBoundingCoordinate" (Some "-122.778572") [];
        Elem "NorthBoundingCoordinate" (Some "38.030651") [];
        Elem "EastBoundingCoordinate" (Some "-117.125183") [];
        Elem "SouthBoundingCoordinate" (Some "32.858040") [] ].

Definition granule : Element :=
    Elem "GranuleMetaDataFile" None
      [ Elem "GranuleURMetaData" None
          [ Elem "SpatialDomainContainer" None
              [ Elem "HorizontalSpatialDomainContainer" None
                  [ bounding_rectangle ] ] ] ].

Definition granule_xml : string :=
    "<GranuleMetaDataFile><GranuleURMetaData><SpatialDomainContainer>"
    +:+ "<HorizontalSpatialDomainContainer><BoundingRectangle>"
    +:+ "<WestBoundingCoordinate>-122.778572</WestBoundingCoordinate>"
    +:+ "<NorthBoundingCoordinate>38.030651</NorthBoundingCoordinate>"
    +:+ "<EastBoundingCoordinate>-117.125183</EastBoundingCoordinate>"
    +:+ "<SouthBoundingCoordinate>32.858040</SouthBoundingCoordinate>"
    +:+ "</BoundingRectangle></HorizontalSpatialDomainContainer>"
    +:+ "</SpatialDomainContainer></GranuleURMetaData></GranuleMetaDataFile>".

  (** [float] on the decimal literals of the metadata, an optional minus
      sign, digits and an optional fraction, read as the rational they
      write. The other forms [float] accepts (an exponent, blanks, [inf])
      do not occur in the data and are refused here. *)
Fixpoint split_dot (s acc : string) : string * option string :=
    match s with
    | EmptyString => (acc, None)
    | String c s' =>
        if Ascii.eqb c "." then (acc, Some s')
        else split_dot s' (acc +:+ String c "")
    end.

Definition decimal (s : string) : result Q :=
    let (negative, body) :=
      match s with
      | String "-" r => (true, r)
      | _ => (false, s)
      end in
    let (whole, rest) := split_dot body "" in
    let frac := default "" rest in
    if negb (String.eqb whole "")
       && forallb is_digit (list_ascii_of_string (whole +:+ frac))
    then
      let magnitude := int (whole +:+ frac) in
      Ok (Qmake (if negative then - magnitude else magnitude)
                (Z.to_pos (10 ^ Z.of_nat (String.length frac))))
    else Raise ValueError.

Definition day_2022_01_05 : string :=
    "https://e4ftl01.cr.usgs.gov/ECOSTRESS/ECO2CLD.001/2022.01.05/".
Definition day_2022_01_06 : string :=
    "https://e4ftl01.cr.usgs.gov/ECOSTRESS/ECO2CLD.001/2022.01.06/".

Definition file_19843 : string :=
    "ECOSTRESS_L2_CLOUD_19843_018_20220105T013409_0601_01.h5".
Definition file_19850 : string :=
    "ECOSTRESS_L2_CLOUD_19850_014_20220105T122719_0601_01.h5".
Definition file_19858 : string :=
    "ECOSTRESS_L2_CLOUD_19858_016_20220106T004717_0601_01.h5".
Definition file_19872 : string :=
    "ECOSTRESS_L2_CLOUD_19872_026_20220106T230842_0601_01.h5".

  (** A name of the pattern whose digits are no date: month 13. *)
Definition file_month_13 : string :=
    "ECOSTRESS_L2_CLOUD_19843_018_20221305T013409_0601_01.h5".

  (** The two day pages of [test_download]. *)
Definition pages (url : string) : result (list (option string)) :=
    if String.eqb url day_2022_01_05 then Ok [Some file_19843; Some file_19850]
    else if String.eqb url day_2022_01_06 then Ok [Some file_19858; Some file_19872]
    else Raise (LibraryError "ConnectionError").

  (** The archive of the tests: the chunks of [test_download], the document
      of [test_parse_bbox_from_xml]. *)
Definition world : World := {|
    PROJ_DIR := "/repo";
    page_links := pages;
    response_reads := fun _ => Ok ["data_chunk1"; "data_chunk2"; ""];
    urljoin_general := fun _ _ => Raise (LibraryError "urljoin");
    ET_fromstring := fun content =>
      if String.eqb content granule_xml then Ok granule
      else Raise (LibraryError "ParseError");
    float := decimal
  |}.

Definition xml_url : string := "https://example.com/xml_data.xml".
Definition xml_path : string := "/repo/xml_files/xml_data.xml".

Definition empty_disk : state := mkState ∅ [] [].
Definition cached_disk : state := mkState {[ xml_path := granule_xml ]} [] [].

Definition start_date : datetime := Datetime.mk 2022 1 5 10 0 0 0.
Definition end_date : datetime := Datetime.mk 2022 1 6 17 0 0 0.
Definition bbox : list Q := [-120; 35; -118; 36]%Q.

Definition fields_19843 : FileNameFields :=
    mkFields "19843" "018" "2022" "01" "05" "01" "34" "09" "0601" "01".

  (** The fields of the same name as a [str], the first digit of the year
      written as the Arabic-Indic digit two (U+0662); and those of a name
      with month 13. *)
Definition fields_two_scripts : UnicodeNames.Fields :=
    UnicodeNames.mkFields
      (Unicode.of_string "19843") (Unicode.of_string "018")
      (1634%N :: Unicode.of_string "022") (Unicode.of_string "01")
      (Unicode.of_string "05") (Unicode.of_string "01")
      (Unicode.of_string "34") (Unicode.of_string "09")
      (Unicode.of_string "0601") (Unicode.of_string "01").

Definition fields_month_13 : UnicodeNames.Fields :=
    UnicodeNames.mkFields
      (Unicode.of_string "19843") (Unicode.of_string "018")
      (Unicode.of_string "2022") (Unicode.of_string "13")
      (Unicode.of_string "05") (Unicode.of_string "01")
      (Unicode.of_string "34") (Unicode.of_string "09")
      (Unicode.of_string "0601") (Unicode.of_string "01").

End Fixtures.

(** ** [calendar.monthrange] and [_get_last_day_of_month] *)

Module Calendar.

(** [calendar.isleap] *)
Definition isleap (year : Z) : bool :=
  (year mod 4 =? 0) && (negb (year mod 100 =? 0) || (year mod 400 =? 0)).

(** [calendar.mdays]: the days of each month of a common year, from index 1. *)
Definition mdays : list Z := [0; 31; 28; 31; 30; 31; 30; 31; 31; 30; 31; 30; 31].

(** The second component of [calendar.monthrange(year, month)]:
    [IllegalMonthError], a [ValueError], unless [1 <= month <= 12]; the
    weekday it also computes is defined for every year and is dropped by
    the caller. *)
Definition monthrange_days (year month : Z) : result Z :=
  if (1 <=? month) && (month <=? 12)
  then Ok (nth (Z.to_nat month) mdays 0
           + (if (month =? 2) && isleap year then 1 else 0))
  else Raise ValueError.

End Calendar.

Definition _get_last_day_of_month (year month : Z) : result Z :=
  let? num_days := Calendar.monthrange_days year month in
  Ok num_days.

(** ** Vocabulary of the further properties *)

(** What the read loop of [_download] leaves in the file: the chunks read
    before the first empty one. *)
Fixpoint written (reads : list string) : string :=
  match reads with
  | [] => ""
  | chunk :: reads' =>
      if String.eqb chunk "" then "" else chunk +:+ written reads'
  end.

(** The state after [lines] were printed. *)
Definition printed (st : state) (lines : list string) : state :=
  mkState (files st) (network st) (stdout st ++ lines).

(** The state after [reqs] were sent. *)
Definition sent (st : state) (reqs : list request) : state :=
  mkState (files st) (network st ++ reqs) (stdout st).

(** The time of day of a datetime, as a tuple. *)
Definition time_key (t : datetime) : list Z :=
  [Datetime.hour t; Datetime.minute t; Datetime.second t; Datetime.microsecond t].

(** The calendar date of a datetime, as a tuple. *)
Definition date_key (t : datetime) : list Z :=
  [Datetime.year t; Datetime.month t; Datetime.day t].

(** The URL of the day page of a date. *)
Definition day_url_of_date (t : datetime) : string :=
  _BASE_CLOUD_URL +:+ Datetime.strftime_Y_m_d t +:+ "/".

(** [t] moved [k] days ahead ([None] past the last date). *)
Fixpoint days_later (k : nat) (t : datetime) : option datetime :=
  match k with
  | O => Some t
  | S k' =>
      match Datetime.add_one_day t with
      | Ok t' => days_later k' t'
      | Raise _ => None
      end
  end.

(** No slash in a string. *)
Definition slash_free (s : string) : bool :=
  forallb (fun c => negb (Ascii.eqb c "/")) (list_ascii_of_string s).

(** ** More data for the further properties *)

Module MoreFixtures.

Import Fixtures.

(** An archive that answers no request. *)
Definition offline : World := {|
  PROJ_DIR := "/repo";
  page_links := fun _ => Raise (LibraryError "ConnectionError");
  response_reads := fun _ => Raise (LibraryError "URLError");
  urljoin_general := fun _ _ => Raise (LibraryError "urljoin");
  ET_fromstring := fun _ => Raise (LibraryError "ParseError");
  float := decimal
|}.

Definition bare_document : Element := Elem "GranuleMetaDataFile" None [].

(** An archive whose first day page has an anchor without [href], and whose
    XML parser knows one document without a bounding rectangle. *)
Definition odd_archive : World := {|
  PROJ_DIR := "/repo";
  page_links := fun url =>
    if String.eqb url day_2022_01_05
    then Ok [Some file_19843; None; Some file_19850]
    else Ok [];
  response_reads := fun _ => Ok [""; "never read"];
  urljoin_general := fun _ _ => Raise (LibraryError "urljoin");
  ET_fromstring := fun content =>
    if String.eqb content "<GranuleMetaDataFile/>" then Ok bare_document
    else Raise (LibraryError "ParseError");
  float := decimal
|}.

(** An archive whose second day page has an anchor without [href], after a
    file later than the time window of the tests; the file of its first
    page is earlier than the window. *)
Definition late_anchor_archive : World := {|
  PROJ_DIR := "/repo";
  page_links := fun url =>
    if String.eqb url day_2022_01_05 then Ok [Some file_19843]
    else if String.eqb url day_2022_01_06
         then Ok [Some file_19872; None; Some file_19858]
         else Raise (LibraryError "ConnectionError");
  response_reads := fun _ => Ok [""];
  urljoin_general := fun _ _ => Raise (LibraryError "urljoin");
  ET_fromstring := fun _ => Raise (LibraryError "ParseError");
  float := decimal
|}.

Definition bare_disk : state :=
  mkState {[ xml_path := "<GranuleMetaDataFile/>" ]} [] [].

Definition garbled_disk : state := mkState {[ xml_path := "<Granule" ]} [] [].

(** The fields of a filename of the year 999. *)
Definition fields_year_999 : FileNameFields :=
  mkFields "19843" "018" "0999" "01" "05" "01" "34" "09" "0601" "01".

Definition two_files : state :=
  mkState {[ "/out/a.h5" := "A"; "/out/b.h5" := "B" ]} [] [].

(** The disk after a complete run over the two day pages of the tests: the
    metadata of the two files of the time window in the cache, and the two
    files in the output directory. *)
Definition complete_disk : state :=
  mkState {[ "/repo/xml_files/" +:+ file_19850 +:+ ".xml" := granule_xml;
             "/repo/xml_files/" +:+ file_19858 +:+ ".xml" := granule_xml;
             "/output/dir/" +:+ file_19850 := "data";
             "/output/dir/" +:+ file_19858 := "data" ]} [] [].

End MoreFixtures.

(** The first [n] days from [t] on, one per calendar day, at the time of day
    of [t] (fewer when the last date is passed). *)
Fixpoint day_sequence (n : nat) (t : datetime) : list datetime :=
  match n with
  | O => []
  | S n' =>
      t :: match Datetime.add_one_day t with
           | Ok t' => day_sequence n' t'
           | Raise _ => []
           end
  end.

(** 9999-12-31, the last date of [datetime]. *)
Definition is_last_date (t : datetime) : bool :=
  (Datetime.year t =? 9999) && (Datetime.month t =? 12) && (Datetime.day t =? 31).

(** * Properties *)
Lemma append_cons (x : ascii) (a b : string) :
  String x a +:+ b = String x (a +:+ b).
Proof. reflexivity. Qed.

Lemma append_assoc (a b c : string) : (a +:+ b) +:+ c = a +:+ (b +:+ c).
Proof.
  induction a as [|x a IH]; [reflexivity|].
  rewrite !append_cons. now rewrite IH.
Qed.

Lemma append_empty_r (a : string) : a +:+ "" = a.
Proof.
  induction a as [|x a IH]; [reflexivity|].
  rewrite append_cons. now rewrite IH.
Qed.

Section EffectLemmas.
  Variable W : World.
  Variable sd : list (string * pyobj) -> M unit.

Lemma read_loop_chunks dest chunks rest st acc :
  Forall (fun c => c <> "") chunks ->
  files st !! dest = Some acc ->
  read_loop dest (chunks ++ "" :: rest) st
  = (Ok tt, mkState (<[dest := acc +:+ concat_chunks chunks]> (files st))
              (network st) (stdout st)).
Proof.
  intros Hne. revert st acc.
  induction Hne as [|c chunks Hc _ IH]; intros st acc Hacc; simpl.
  - rewrite append_empty_r. unfold ret.
    rewrite insert_id by exact Hacc. now destruct st.
  - destruct (String.eqb_spec c "") as [->|_]; [congruence|].
    unfold bind at 1, fd_write at 1. rewrite Hacc. simpl.
    rewrite (IH _ (acc +:+ c)); simpl.
    + now rewrite insert_insert_eq, append_assoc.
    + apply lookup_insert_eq.
Qed.

(** C8. A task whose local path exists is skipped: [_download] returns
    normally, sends no request, leaves every file as it was and only prints
    the line that says so. *)
Theorem download_existing_path_is_skipped link dest st content :
  files st !! dest = Some content ->
  _download W (link, dest) st
  = (Ok tt, mkState (files st) (network st) (stdout st ++ ["Skipping " +:+ dest])).
Proof.
  intros H. unfold _download, bind, os_path_exists; simpl.
  rewrite H. rewrite bool_decide_eq_true_2 by eauto. reflexivity.
Qed.

(** C9. When the reads of the response give non-empty chunks and then an
    empty one, the loop stops at the empty read (whatever might follow it)
    and the file holds the chunks, concatenated in order. *)
Theorem download_writes_the_chunks_in_order link dest st chunks rest :
  files st !! dest = None ->
  Forall (fun c => c <> "") chunks ->
  response_reads W link = Ok (chunks ++ "" :: rest)%list ->
  _download W (link, dest) st
  = (Ok tt, mkState (<[dest := concat_chunks chunks]> (files st))
              (network st ++ [UrlOpen link]) (stdout st)).
Proof.
  intros Hnone Hne Hreads. unfold _download, bind, os_path_exists; simpl.
  rewrite Hnone. rewrite bool_decide_eq_false_2 by (intros [? ?]; discriminate).
  unfold lift. rewrite Hreads.
  rewrite (read_loop_chunks dest chunks rest _ "" Hne); simpl.
  - now rewrite insert_insert_eq.
  - apply lookup_insert_eq.
Qed.

Lemma parse_bbox_uncached xml_url st :
  files st !! Path.join (_XML_DIR W) (Path.basename xml_url) = None ->
  _parse_bbox_from_xml W sd xml_url st = (Raise TypeError, st).
Proof.
  intros H. unfold _parse_bbox_from_xml, bind, os_path_exists.
  rewrite H. rewrite bool_decide_eq_false_2 by (intros [? ?]; discriminate).
  reflexivity.
Qed.

(** C4, the code at an uncached document. The claim has the document
    downloaded into the cache and parsed; the code calls [self.download]
    with one argument where [_download] was meant, so it raises [TypeError]
    with nothing fetched and nothing written. *)
Theorem parse_bbox_uncached_raises xml_url st :
  files st !! Path.join (_XML_DIR W) (Path.basename xml_url) = None ->
  _parse_bbox_from_xml W sd xml_url st = (Raise TypeError, st).
Proof. apply parse_bbox_uncached. Qed.

(** With the document in the cache the network is left alone and the cached
    bytes are parsed. *)
Lemma parse_bbox_cached xml_url st content :
  files st !! Path.join (_XML_DIR W) (Path.basename xml_url) = Some content ->
  _parse_bbox_from_xml W sd xml_url st
  = (result_bind (ET_fromstring W content) (bbox_of_root W), st).
Proof.
  intros H. unfold _parse_bbox_from_xml, bind, os_path_exists.
  rewrite bool_decide_eq_true_2 by (rewrite H; eauto). simpl.
  unfold read_rb, lift. rewrite H.
  destruct (ET_fromstring W content); reflexivity.
Qed.

Lemma create_day_urls_empty start_date end_date :
  Datetime.le start_date end_date = false ->
  _create_day_urls W start_date end_date = Ok [].
Proof.
  intros H. unfold _create_day_urls, loop_budget.
  cbn [day_urls_loop]. now rewrite H.
Qed.

End EffectLemmas.

(** C10. With [start_date > end_date] no day URL is made, and [download]
    returns normally with the files, the requests and the output untouched. *)
Theorem download_of_empty_range W start_date end_date bbox output_dir st :
  Datetime.le start_date end_date = false ->
  _create_day_urls W start_date end_date = Ok []
  /\ download W start_date end_date bbox output_dir st = (Ok tt, st).
Proof.
  intros H. split; [now apply create_day_urls_empty|].
  unfold download, download_method, bind, lift.
  rewrite create_day_urls_empty by exact H. reflexivity.
Qed.

Module ShapelyFacts.
  Import Shapely.

Lemma Qle_bool_false (a b : Q) : Qle_bool a b = false -> (b <= a)%Q.
  Proof.
    intros H. apply Qlt_le_weak, Qnot_le_lt. intros Hle.
    apply Qle_bool_iff in Hle. congruence.
  Qed.

Lemma Qmin_b_spec (a b : Q) :
    (Qmin_b a b <= a /\ Qmin_b a b <= b)%Q /\ (Qmin_b a b = a \/ Qmin_b a b = b).
  Proof.
    unfold Qmin_b. destruct (Qle_bool a b) eqn:E.
    - apply Qle_bool_iff in E. repeat split; auto using Qle_refl.
    - apply Qle_bool_false in E. repeat split; auto using Qle_refl.
  Qed.

Lemma Qmax_b_spec (a b : Q) :
    (a <= Qmax_b a b /\ b <= Qmax_b a b)%Q /\ (Qmax_b a b = a \/ Qmax_b a b = b).
  Proof.
    unfold Qmax_b. destruct (Qle_bool a b) eqn:E.
    - apply Qle_bool_iff in E. repeat split; auto using Qle_refl.
    - apply Qle_bool_false in E. repeat split; auto using Qle_refl.
  Qed.

Lemma Qmin_b_glb (a b c : Q) : (c <= a)%Q -> (c <= b)%Q -> (c <= Qmin_b a b)%Q.
  Proof. intros. unfold Qmin_b. now destruct (Qle_bool a b). Qed.

Lemma Qmax_b_lub (a b c : Q) : (a <= c)%Q -> (b <= c)%Q -> (Qmax_b a b <= c)%Q.
  Proof. intros. unfold Qmax_b. now destruct (Qle_bool a b). Qed.

  (** Every point of the ring lies within the extent. *)
Lemma extent_bounds pts x0 x1 y0 y1 :
    extent pts = Some (x0, x1, y0, y1) ->
    forall x y, In (x, y) pts -> (x0 <= x /\ x <= x1 /\ y0 <= y /\ y <= y1)%Q.
  Proof.
    revert x0 x1 y0 y1.
    induction pts as [|[px py] pts IH]; intros x0 x1 y0 y1 He x y Hin; [destruct Hin|].
    simpl in He. destruct (extent pts) as [[[[a0 a1] b0] b1]|] eqn:E.
    - injection He as <- <- <- <-.
      destruct (Qmin_b_spec px a0) as [[? ?] _], (Qmax_b_spec px a1) as [[? ?] _],
               (Qmin_b_spec py b0) as [[? ?] _], (Qmax_b_spec py b1) as [[? ?] _].
      destruct Hin as [Heq|Hin].
      + injection Heq as <- <-. auto.
      + destruct (IH _ _ _ _ eq_refl x y Hin) as (? & ? & ? & ?).
        repeat split; eauto using Qle_trans.
    - injection He as <- <- <- <-.
      destruct Hin as [Heq|Hin].
      + injection Heq as <- <-. repeat split; apply Qle_refl.
      + destruct pts; [destruct Hin | simpl in E].
        destruct p. destruct (extent pts) as [[[[? ?] ?] ?]|]; discriminate.
  Qed.

Lemma extent_ordered pts x0 x1 y0 y1 :
    extent pts = Some (x0, x1, y0, y1) -> (x0 <= x1 /\ y0 <= y1)%Q.
  Proof.
    intros He. destruct pts as [|[px py] pts]; [discriminate|].
    destruct (extent_bounds _ _ _ _ _ He px py (or_introl eq_refl)) as (? & ? & ? & ?).
    split; eauto using Qle_trans.
  Qed.

Lemma intersects_sym (a b : Polygon) : intersects a b = intersects b a.
  Proof.
    unfold intersects.
    destruct (extent (shell a)) as [[[[ax0 ax1] ay0] ay1]|],
             (extent (shell b)) as [[[[bx0 bx1] by0] by1]|]; try reflexivity.
    destruct (Qle_bool ax0 bx1), (Qle_bool bx0 ax1), (Qle_bool ay0 by1),
             (Qle_bool by0 ay1); reflexivity.
  Qed.

Lemma intersects_of_shared_point (a b : Polygon) (x y : Q) :
    in_region a x y -> in_region b x y -> intersects a b = true.
  Proof.
    unfold in_region, intersects.
    destruct (extent (shell a)) as [[[[ax0 ax1] ay0] ay1]|]; [|contradiction].
    destruct (extent (shell b)) as [[[[bx0 bx1] by0] by1]|]; [|contradiction].
    intros (? & ? & ? & ?) (? & ? & ? & ?).
    rewrite !andb_true_iff. repeat split; apply Qle_bool_iff; eauto using Qle_trans.
  Qed.

Lemma shared_point_of_intersects (a b : Polygon) :
    intersects a b = true -> exists x y, in_region a x y /\ in_region b x y.
  Proof.
    unfold in_region, intersects.
    destruct (extent (shell a)) as [[[[ax0 ax1] ay0] ay1]|] eqn:Ea; [|discriminate].
    destruct (extent (shell b)) as [[[[bx0 bx1] by0] by1]|] eqn:Eb; [|discriminate].
    destruct (extent_ordered _ _ _ _ _ Ea) as [? ?].
    destruct (extent_ordered _ _ _ _ _ Eb) as [? ?].
    rewrite !andb_true_iff, !Qle_bool_iff. intros [[[? ?] ?] ?].
    exists (Qmax_b ax0 bx0), (Qmax_b ay0 by0).
    destruct (Qmax_b_spec ax0 bx0) as [[? ?] [Ex | Ex]],
             (Qmax_b_spec ay0 by0) as [[? ?] [Ey | Ey]];
      rewrite Ex, Ey in *; repeat split; auto using Qle_refl.
  Qed.

Lemma in_region_corner (w n e s : Q) : in_region (rectangle w n e s) w n.
  Proof.
    unfold in_region.
    destruct (extent (shell (rectangle w n e s))) as [[[[x0 x1] y0] y1]|] eqn:E.
    - apply (extent_bounds _ _ _ _ _ E). simpl. auto.
    - simpl in E. discriminate.
  Qed.

  (** For a box given with west <= east and south <= north the region is
      the closed rectangle between its corners. *)
Lemma in_region_rectangle (w n e s x y : Q) :
    (w <= e)%Q -> (s <= n)%Q ->
    in_region (rectangle w n e s) x y <-> (w <= x /\ x <= e /\ s <= y /\ y <= n)%Q.
  Proof.
    intros Hwe Hsn. unfold in_region.
    destruct (extent (shell (rectangle w n e s))) as [[[[x0 x1] y0] y1]|] eqn:E;
      [|simpl in E; discriminate].
    pose proof (extent_bounds _ _ _ _ _ E) as Hb.
    destruct (Hb w n) as (? & ? & ? & ?); [simpl; auto|].
    destruct (Hb e s) as (? & ? & ? & ?); [simpl; auto 6|].
    assert (Hx : (w <= x0 /\ x1 <= e /\ s <= y0 /\ y1 <= n)%Q).
    { simpl in E. injection E as <- <- <- <-.
      repeat split;
        repeat first [apply Qmin_b_glb | apply Qmax_b_lub];
        auto using Qle_refl. }
    destruct Hx as (? & ? & ? & ?).
    split; intros (? & ? & ? & ?); repeat split; eauto using Qle_trans.
  Qed.

End ShapelyFacts.

(** C6. On boxes [intersects] is symmetric; a box intersects itself; two
    boxes with any point in common, be it only a corner or an edge, are
    reported as intersecting; and so is a zero-area box at a point of the
    other box. *)
Theorem intersects_is_symmetric_reflexive_and_closed
    (w1 n1 e1 s1 w2 n2 e2 s2 : Q) :
  let a := rectangle w1 n1 e1 s1 in
  let b := rectangle w2 n2 e2 s2 in
  Shapely.intersects a b = Shapely.intersects b a
  /\ Shapely.intersects a a = true
  /\ (forall x y, Shapely.in_region a x y -> Shapely.in_region b x y ->
                  Shapely.intersects a b = true)
  /\ (forall x y, Shapely.in_region b x y ->
                  Shapely.intersects (rectangle x y x y) b = true).
Proof.
  intros a b. split; [apply ShapelyFacts.intersects_sym|].
  split; [|split].
  - apply (ShapelyFacts.intersects_of_shared_point a a w1 n1);
      apply ShapelyFacts.in_region_corner.
  - intros x y. apply ShapelyFacts.intersects_of_shared_point.
  - intros x y Hb.
    apply (ShapelyFacts.intersects_of_shared_point _ b x y); [|exact Hb].
    apply ShapelyFacts.in_region_corner.
Qed.

Lemma lex_compare_le (a b : list Z) :
  Datetime.lex_compare a b <> Gt <-> lex_le a b.
Proof.
  revert b. induction a as [|x a IH]; intros [|y b]; cbn [Datetime.lex_compare lex_le].
  - split; [trivial | discriminate].
  - split; [trivial | discriminate].
  - split; [congruence | contradiction].
  - destruct (Z.compare_spec x y) as [->|Hlt|Hgt].
    + rewrite IH. split; [tauto | intros [H|[_ H]]; [lia | exact H]].
    + split; [tauto | discriminate].
    + split; [congruence | intros [H|[H _]]; lia].
Qed.

Lemma datetime_le_iff (a b : datetime) : Datetime.le a b = true <-> dt_le a b.
Proof.
  unfold Datetime.le, dt_le. rewrite <- lex_compare_le.
  destruct (Datetime.lex_compare _ _); split; congruence.
Qed.

Section SelectionLemmas.
  Variable W : World.
  Variable sd : list (string * pyobj) -> M unit.

Lemma parse_bbox_keeps_state xml_url st :
    snd (_parse_bbox_from_xml W sd xml_url st) = st.
  Proof.
    destruct (files st !! Path.join (_XML_DIR W) (Path.basename xml_url)) eqn:E.
    - now rewrite (parse_bbox_cached W sd _ _ _ E).
    - now rewrite (parse_bbox_uncached W sd _ _ E).
  Qed.

Lemma overlaps_keeps_state bbox xml_url st :
    snd (_overlaps_bbox W sd bbox xml_url st) = st.
  Proof.
    unfold _overlaps_bbox, bind, lift.
    destruct (getitem_bbox bbox 0); [|reflexivity].
    destruct (getitem_bbox bbox 1); [|reflexivity].
    destruct (getitem_bbox bbox 2); [|reflexivity].
    destruct (getitem_bbox bbox 3); [|reflexivity].
    pose proof (parse_bbox_keeps_state xml_url st) as H.
    destruct (_parse_bbox_from_xml W sd xml_url st) as [[p|e] st']; simpl in *; now subst.
  Qed.

Lemma keeps_keeps_state s e bbox link fd st :
    snd (keeps W sd s e bbox link fd st) = st.
  Proof.
    unfold keeps. destruct fd as [t|]; [|reflexivity].
    destruct (_ && _); [apply overlaps_keeps_state | reflexivity].
  Qed.

  (** The loops of [download], one iteration unfolded. *)
Lemma select_files_cons s e bbox day h hrefs acc st :
    select_files W sd s e bbox day (h :: hrefs) acc st
    = match urljoin W day h with
      | Raise x => (Raise x, st)
      | Ok link =>
          match _parse_datetime_from_file_name h with
          | Raise x => (Raise x, st)
          | Ok fd =>
              match keeps W sd s e bbox link fd st with
              | (Raise x, st') => (Raise x, st')
              | (Ok keep, st') =>
                  select_files W sd s e bbox day hrefs
                    (if keep then acc ++ [link] else acc) st'
              end
          end
      end.
  Proof.
    cbn [select_files]. unfold bind, lift.
    destruct (urljoin W day h); [|reflexivity].
    destruct (_parse_datetime_from_file_name h); reflexivity.
  Qed.

Lemma select_files_step s e bbox day href hrefs acc link fd st :
    urljoin W day (Some href) = Ok link ->
    _parse_datetime_from_file_name (Some href) = Ok fd ->
    select_files W sd s e bbox day (Some href :: hrefs) acc st
    = match keeps W sd s e bbox link fd st with
      | (Raise x, st') => (Raise x, st')
      | (Ok keep, st') =>
          select_files W sd s e bbox day hrefs
            (if keep then acc ++ [link] else acc) st'
      end.
  Proof. intros Hl Hd. now rewrite select_files_cons, Hl, Hd. Qed.

Lemma select_days_cons s e bbox d days acc st :
    select_days W sd s e bbox (d :: days) acc st
    = match retrieve_links W d st with
      | (Raise x, st1) => (Raise x, st1)
      | (Ok hrefs, st1) =>
          match select_files W sd s e bbox d hrefs acc st1 with
          | (Raise x, st2) => (Raise x, st2)
          | (Ok acc', st2) => select_days W sd s e bbox days acc' st2
          end
      end.
  Proof.
    cbn [select_days]. unfold bind.
    destruct (retrieve_links W d st) as [[hrefs|x] st1]; reflexivity.
  Qed.

Lemma select_files_keeps_state s e bbox day hrefs acc st :
    snd (select_files W sd s e bbox day hrefs acc st) = st.
  Proof.
    revert acc st. induction hrefs as [|h hrefs IH]; intros acc st; [reflexivity|].
    rewrite select_files_cons.
    destruct (urljoin W day h) as [link|]; [|reflexivity].
    destruct (_parse_datetime_from_file_name h) as [fd|]; [|reflexivity].
    pose proof (keeps_keeps_state s e bbox link fd st) as H.
    destruct (keeps W sd s e bbox link fd st) as [[k|x] st']; simpl in H; subst st';
      [apply IH | reflexivity].
  Qed.

Lemma select_files_app s e bbox day h1 h2 acc st :
    select_files W sd s e bbox day (h1 ++ h2) acc st
    = match select_files W sd s e bbox day h1 acc st with
      | (Ok acc', st') => select_files W sd s e bbox day h2 acc' st'
      | (Raise x, st') => (Raise x, st')
      end.
  Proof.
    revert acc st. induction h1 as [|h h1 IH]; intros acc st; [reflexivity|].
    rewrite <- app_comm_cons, !select_files_cons.
    destruct (urljoin W day h) as [link|]; [|reflexivity].
    destruct (_parse_datetime_from_file_name h) as [fd|]; [|reflexivity].
    destruct (keeps W sd s e bbox link fd st) as [[k|x] st']; [apply IH | reflexivity].
  Qed.

Lemma select_days_app s e bbox d1 d2 acc st :
    select_days W sd s e bbox (d1 ++ d2) acc st
    = match select_days W sd s e bbox d1 acc st with
      | (Ok acc', st') => select_days W sd s e bbox d2 acc' st'
      | (Raise x, st') => (Raise x, st')
      end.
  Proof.
    revert acc st. induction d1 as [|d d1 IH]; intros acc st; [reflexivity|].
    rewrite <- app_comm_cons, !select_days_cons.
    destruct (retrieve_links W d st) as [[hs|x] st1]; [|reflexivity].
    destruct (select_files W sd s e bbox d hs acc st1) as [[l|x] st2];
      [apply IH | reflexivity].
  Qed.

Lemma retrieve_links_listed day st :
    listed st [day] (snd (retrieve_links W day st)).
  Proof.
    unfold retrieve_links, bind, send, lift. simpl.
    destruct (page_links W day); repeat split.
  Qed.

Lemma select_days_ok_listed s e bbox days acc st links st' :
    select_days W sd s e bbox days acc st = (Ok links, st') ->
    listed st days st'.
  Proof.
    revert acc st. induction days as [|d days IH]; intros acc st H.
    - injection H as _ <-. repeat split. simpl. now rewrite app_nil_r.
    - rewrite select_days_cons in H.
      pose proof (retrieve_links_listed d st) as (Hf & Ho & Hn).
      destruct (retrieve_links W d st) as [[hs|x] st1]; [|discriminate].
      pose proof (select_files_keeps_state s e bbox d hs acc st1) as Hs.
      destruct (select_files W sd s e bbox d hs acc st1) as [[l|x] st2]; [|discriminate].
      simpl in *. subst st2.
      destruct (IH _ _ H) as (Hf' & Ho' & Hn').
      repeat split; [congruence | congruence |].
      rewrite Hn', Hn. now rewrite <- app_assoc.
  Qed.

End SelectionLemmas.

(** C2, amended. What the temporal step does with one candidate is decided
    by what the filename parser does on its [href]. When the parser returns
    a timestamp [t], the link goes on to the spatial test exactly when
    [start_date <= t <= end_date], compared field by field down to the
    second with both bounds included; with a timestamp outside the window,
    or with the no-match value, the link is dropped with no effect. When
    the parser raises, [ValueError] on a name of the pattern whose digits
    are no date and [TypeError] on an anchor without [href], the link is
    not dropped: the exception ends the pass over the page, in the state the
    candidate was met in. So does an exception of [urljoin]. *)
Theorem temporal_step_keeps_drops_or_raises
    (W : World) (sd : list (string * pyobj) -> M unit)
    (start_date end_date : datetime) (bbox : list Q) (day_url : string)
    (href : option string) (rest : list (option string))
    (file_links : list string) (st : state) :
  (forall link t,
      urljoin W day_url href = Ok link ->
      _parse_datetime_from_file_name href = Ok (Some t) ->
      dt_le start_date t -> dt_le t end_date ->
      select_files W sd start_date end_date bbox day_url (href :: rest)
        file_links st
      = (let* keep := _overlaps_bbox W sd bbox (link +:+ ".xml") in
         select_files W sd start_date end_date bbox day_url rest
           (if keep then file_links ++ [link] else file_links)) st)
  /\ (forall link file_date,
         urljoin W day_url href = Ok link ->
         _parse_datetime_from_file_name href = Ok file_date ->
         (file_date = None
          \/ exists t, file_date = Some t
                       /\ ~ (dt_le start_date t /\ dt_le t end_date)) ->
         select_files W sd start_date end_date bbox day_url (href :: rest)
           file_links st
         = select_files W sd start_date end_date bbox day_url rest file_links st)
  /\ (forall link x,
         urljoin W day_url href = Ok link ->
         _parse_datetime_from_file_name href = Raise x ->
         select_files W sd start_date end_date bbox day_url (href :: rest)
           file_links st
         = (Raise x, st))
  /\ (forall x,
         urljoin W day_url href = Raise x ->
         select_files W sd start_date end_date bbox day_url (href :: rest)
           file_links st
         = (Raise x, st))
  /\ (href = None ->
      select_files W sd start_date end_date bbox day_url (href :: rest)
        file_links st
      = (Raise TypeError, st)).
Proof.
  rewrite select_files_cons.
  split; [|split; [|split; [|split]]].
  - intros link t -> -> Hs He.
    apply datetime_le_iff in Hs. apply datetime_le_iff in He.
    unfold keeps, bind. rewrite Hs, He. cbn [andb].
    now destruct (_overlaps_bbox W sd bbox (link +:+ ".xml") st) as [[k|x] st'].
  - intros link file_date -> -> Hout. unfold keeps, ret.
    destruct Hout as [-> | (t & -> & Hnot)]; [reflexivity|].
    destruct (Datetime.le start_date t) eqn:Hs; [|reflexivity].
    destruct (Datetime.le t end_date) eqn:He; [|reflexivity].
    exfalso. apply Hnot. now rewrite <- !datetime_le_iff.
  - now intros link x -> ->.
  - now intros x ->.
  - now intros ->.
Qed.

(** C7. When the metadata step raises for a candidate that passed the
    temporal test, [download] raises the same exception in the very state of
    that failure: the later candidates and days are not looked at, no file
    is written and the only requests sent are the listings up to that day. *)
Theorem metadata_failure_aborts_the_run
    (W : World) (start_date end_date : datetime) (bbox : list Q)
    (output_dir : string) (st : state)
    (days_before : list string) (day : string) (days_after : list string)
    (links0 : list string) (st1 : state)
    (hrefs_before : list (option string)) (href : string)
    (hrefs_after : list (option string)) (st2 : state)
    (links1 : list string) (st3 : state)
    (link : string) (t : datetime) (e : exn) (st4 : state) :
  let sd := download_frame W recursion_limit in
  _create_day_urls W start_date end_date = Ok (days_before ++ day :: days_after)%list ->
  select_days W sd start_date end_date bbox days_before [] st = (Ok links0, st1) ->
  retrieve_links W day st1 = (Ok (hrefs_before ++ Some href :: hrefs_after)%list, st2) ->
  select_files W sd start_date end_date bbox day hrefs_before links0 st2
  = (Ok links1, st3) ->
  urljoin W day (Some href) = Ok link ->
  _parse_datetime_from_file_name (Some href) = Ok (Some t) ->
  dt_le start_date t -> dt_le t end_date ->
  _overlaps_bbox W sd bbox (link +:+ ".xml") st3 = (Raise e, st4) ->
  download W start_date end_date bbox output_dir st = (Raise e, st4)
  /\ files st4 = files st
  /\ stdout st4 = stdout st
  /\ network st4 = (network st ++ map HttpGet (days_before ++ [day]))%list.
Proof.
  intros sd Hdays Hbefore Hpage Hfiles Hlink Hdate Hs He Hfail.
  assert (Hsel : select_days W sd start_date end_date bbox
                   (days_before ++ day :: days_after) [] st = (Raise e, st4)).
  { rewrite select_days_app, Hbefore. cbn [select_days].
    unfold bind at 1. rewrite Hpage. unfold bind at 1.
    rewrite select_files_app, Hfiles.
    rewrite (select_files_step W sd _ _ _ _ _ _ _ _ _ _ Hlink Hdate).
    apply datetime_le_iff in Hs. apply datetime_le_iff in He.
    unfold keeps. rewrite Hs, He. cbn [andb]. now rewrite Hfail. }
  split.
  - unfold download, download_method. fold sd.
    unfold bind at 1, lift at 1. rewrite Hdays.
    unfold bind at 1. now rewrite Hsel.
  - destruct (select_days_ok_listed W sd _ _ _ _ _ _ _ _ Hbefore) as (Hf1 & Ho1 & Hn1).
    pose proof (retrieve_links_listed W day st1) as (Hf2 & Ho2 & Hn2).
    rewrite Hpage in Hf2, Ho2, Hn2. simpl in Hf2, Ho2, Hn2.
    pose proof (select_files_keeps_state W sd start_date end_date bbox day
                  hrefs_before links0 st2) as E3.
    rewrite Hfiles in E3. simpl in E3. subst st3.
    pose proof (overlaps_keeps_state W sd bbox (link +:+ ".xml") st2) as E4.
    rewrite Hfail in E4. simpl in E4. subst st4.
    repeat split; [congruence | congruence |].
    rewrite Hn2, Hn1, map_app. simpl. now rewrite <- app_assoc.
Qed.

Module DatetimeFacts.
  Import Datetime.

Lemma days_in_month_bounds (y m : Z) : 28 <= days_in_month y m <= 31.
  Proof.
    unfold days_in_month.
    destruct (m =? 2); [destruct (is_leap y); lia|].
    destruct (_ || _); lia.
  Qed.

Lemma valid_fields (t : datetime) :
    valid t = true ->
    1 <= year t <= 9999 /\ 1 <= month t <= 12
    /\ 1 <= day t <= days_in_month (year t) (month t)
    /\ 0 <= hour t <= 23 /\ 0 <= minute t <= 59 /\ 0 <= second t <= 59
    /\ 0 <= microsecond t <= 999999.
  Proof.
    unfold valid, check_date_fields, check_time_fields, between, MINYEAR, MAXYEAR.
    rewrite !andb_true_iff, !Z.leb_le. lia.
  Qed.

Lemma fields_valid (t : datetime) :
    1 <= year t <= 9999 -> 1 <= month t <= 12 ->
    1 <= day t <= days_in_month (year t) (month t) ->
    0 <= hour t <= 23 -> 0 <= minute t <= 59 -> 0 <= second t <= 59 ->
    0 <= microsecond t <= 999999 ->
    valid t = true.
  Proof.
    unfold valid, check_date_fields, check_time_fields, between, MINYEAR, MAXYEAR.
    rewrite !andb_true_iff, !Z.leb_le. lia.
  Qed.

Lemma le_day_index (a b : datetime) :
    valid a = true -> valid b = true -> le a b = true ->
    day_index a <= day_index b.
  Proof.
    intros Ha Hb Hle. apply valid_fields in Ha, Hb.
    pose proof (days_in_month_bounds (year a) (month a)).
    pose proof (days_in_month_bounds (year b) (month b)).
    apply datetime_le_iff in Hle. unfold dt_le, key in Hle. simpl in Hle.
    unfold day_index. lia.
  Qed.

Lemma add_one_day_advances (a b : datetime) :
    valid a = true -> add_one_day a = Ok b ->
    valid b = true /\ day_index a < day_index b.
  Proof.
    intros Ha Hadd. apply valid_fields in Ha.
    pose proof (days_in_month_bounds (year a) (month a)).
    pose proof (days_in_month_bounds (year a) (month a + 1)).
    pose proof (days_in_month_bounds (year a + 1) 1).
    unfold add_one_day, MAXYEAR in Hadd. unfold day_index.
    destruct (Z.ltb_spec (day a) (days_in_month (year a) (month a))).
    { injection Hadd as <-. split; [apply fields_valid; simpl; lia | simpl; lia]. }
    destruct (Z.ltb_spec (month a) 12).
    { injection Hadd as <-. split; [apply fields_valid; simpl; lia | simpl; lia]. }
    destruct (Z.ltb_spec (year a) 9999); [|discriminate].
    injection Hadd as <-. split; [apply fields_valid; simpl; lia | simpl; lia].
  Qed.

End DatetimeFacts.

Module UrlFacts.
  Import Datetime Url.
  #[local] Arguments String.append !s1 s2 : simpl nomatch.

Lemma digit_char_cases (n : Z) :
    exists k : nat, (k < 10)%nat /\ digit_char n = ascii_of_nat (48 + k).
  Proof.
    unfold digit_char. exists (Z.to_nat (n mod 10)). split; [|reflexivity].
    pose proof (Z.mod_pos_bound n 10). lia.
  Qed.

Lemma digit_char_facts (n : Z) :
    is_alnum (digit_char n) = true /\ is_name_char (digit_char n) = true
    /\ Ascii.eqb (digit_char n) "/" = false.
  Proof.
    destruct (digit_char_cases n) as (k & Hk & ->).
    do 10 (destruct k as [|k]; [repeat split|]). lia.
  Qed.

Lemma strftime_plain (t : datetime) :
    plain_reference (strftime_Y_m_d t +:+ "/") = true.
  Proof.
    unfold strftime_Y_m_d, zero_padded.
    repeat match goal with
           | |- context [digit_char ?n] =>
               let c := fresh "c" in
               destruct (digit_char_facts n) as (? & ? & ?);
               set (c := digit_char n) in *; clearbody c
           end.
    cbn [String.append strip_zeros].
    repeat match goal with
           | |- context [if Ascii.eqb ?c "0" then _ else _] =>
               destruct (Ascii.eqb c "0")
           end.
    all: unfold plain_reference, split_slash, plain_segment.
    all: cbn [String.append].
    all: repeat (cbn [split_slash_from String.append];
            match goal with
            | H : Ascii.eqb ?c _ = false |- context [Ascii.eqb ?c _] => rewrite H
            | |- context [Ascii.eqb "." "/"] =>
                change (Ascii.eqb "." "/") with false
            | |- context [Ascii.eqb "/" "/"] =>
                change (Ascii.eqb "/" "/") with true
            end).
    all: cbn [split_slash_from String.append list_ascii_of_string forallb].
    all: repeat match goal with
                | H : is_alnum _ = true |- _ => rewrite H; clear H
                | H : is_name_char _ = true |- _ => rewrite H; clear H
                end.
    all: reflexivity.
  Qed.

Lemma day_url_of (W : World) (t : datetime) :
    urljoin W _BASE_CLOUD_URL (Some (strftime_Y_m_d t +:+ "/"))
    = Ok (_BASE_CLOUD_URL +:+ strftime_Y_m_d t +:+ "/").
  Proof.
    unfold urljoin. rewrite strftime_plain.
    replace (directory_base _BASE_CLOUD_URL) with true by (vm_compute; reflexivity).
    destruct (String.eqb_spec (strftime_Y_m_d t +:+ "/") "") as [E|_]; [|reflexivity].
    exfalso. pose proof (strftime_plain t) as P. rewrite E in P. discriminate P.
  Qed.

End UrlFacts.

(** The loop of [_create_day_urls] ends within its budget: on datetimes it
    returns the list of day URLs, or raises [OverflowError] when the step
    past 9999-12-31 is taken; it never stops for want of budget. *)
Lemma day_urls_loop_terminates (W : World) (end_date : datetime) :
  Datetime.valid end_date = true ->
  forall (budget : nat) (start_date : datetime) (day_urls : list string),
    Datetime.valid start_date = true ->
    (Z.max 0 (day_index end_date - day_index start_date + 1) < Z.of_nat budget) ->
    day_urls_loop W budget start_date end_date day_urls = Some (Raise OverflowError)
    \/ exists urls, day_urls_loop W budget start_date end_date day_urls
                    = Some (Ok urls).
Proof.
  intros Hend. induction budget as [|budget IH]; intros start_date day_urls Hv Hb.
  - lia.
  - cbn [day_urls_loop]. rewrite UrlFacts.day_url_of.
    destruct (Datetime.le start_date end_date) eqn:Hle; [|right; eauto].
    destruct (Datetime.add_one_day start_date) as [next|x] eqn:Hadd.
    + destruct (DatetimeFacts.add_one_day_advances _ _ Hv Hadd) as [Hv' Hlt].
      pose proof (DatetimeFacts.le_day_index _ _ Hv Hend Hle).
      apply IH; [exact Hv' | lia].
    + left. unfold Datetime.add_one_day in Hadd.
      repeat match type of Hadd with
             | (if ?c then _ else _) = _ => destruct c; try discriminate
             end.
      now injection Hadd as <-.
Qed.

Lemma create_day_urls_total (W : World) (start_date end_date : datetime) :
  Datetime.valid start_date = true -> Datetime.valid end_date = true ->
  _create_day_urls W start_date end_date = Raise OverflowError
  \/ exists urls, _create_day_urls W start_date end_date = Ok urls.
Proof.
  intros Hs He. unfold _create_day_urls.
  destruct (day_urls_loop_terminates W end_date He
              (loop_budget start_date end_date) start_date [] Hs) as [-> | [urls ->]];
    [unfold loop_budget; lia | now left | right; eauto].
Qed.

(** The dates of the test of [_create_day_urls]. *)
Lemma create_day_urls_test_range (W : World) :
  _create_day_urls W (Datetime.mk 2022 1 29 0 0 0 0) (Datetime.mk 2022 2 2 0 0 0 0)
  = Ok [ "https://e4ftl01.cr.usgs.gov/ECOSTRESS/ECO2CLD.001/2022.01.29/";
         "https://e4ftl01.cr.usgs.gov/ECOSTRESS/ECO2CLD.001/2022.01.30/";
         "https://e4ftl01.cr.usgs.gov/ECOSTRESS/ECO2CLD.001/2022.01.31/";
         "https://e4ftl01.cr.usgs.gov/ECOSTRESS/ECO2CLD.001/2022.02.01/";
         "https://e4ftl01.cr.usgs.gov/ECOSTRESS/ECO2CLD.001/2022.02.02/" ].
Proof. reflexivity. Qed.

(** C1, the code at a range whose start is later in its day than its end.
    The claim has one URL per calendar day through the date of [end_date];
    the loop compares whole datetimes, so from 2022-01-05 18:00 to
    2022-01-06 17:00 it makes the URL of 2022.01.05 alone. With the start at
    10:00 both days come out, as the test of [download] expects. *)
Theorem create_day_urls_drops_the_end_date (W : World) :
  let start_date := Datetime.mk 2022 1 5 18 0 0 0 in
  let end_date := Datetime.mk 2022 1 6 17 0 0 0 in
  Datetime.valid start_date = true /\ Datetime.valid end_date = true
  /\ Datetime.le start_date end_date = true
  /\ _create_day_urls W start_date end_date
     = Ok ["https://e4ftl01.cr.usgs.gov/ECOSTRESS/ECO2CLD.001/2022.01.05/"]
  /\ _create_day_urls W (Datetime.mk 2022 1 5 10 0 0 0) end_date
     = Ok [ "https://e4ftl01.cr.usgs.gov/ECOSTRESS/ECO2CLD.001/2022.01.05/";
            "https://e4ftl01.cr.usgs.gov/ECOSTRESS/ECO2CLD.001/2022.01.06/" ].
Proof. repeat split. Qed.

Module ReFacts.
  #[local] Arguments String.append !s1 s2 : simpl nomatch.

  (** [Matches r s t s' g g']: on [s] with groups [g], [r] matches the text
      [t], leaves [s'] and ends with groups [g']. *)
Definition Matches (r : regex) (s t s' : string) (g g' : groupdict) : Prop :=
    match_here r s g = Some (t, s', g').

Lemma cat_intro r1 r2 s t1 s1 t2 s2 g g1 g2 :
    Matches r1 s t1 s1 g g1 -> Matches r2 s1 t2 s2 g1 g2 ->
    Matches (Cat r1 r2) s (t1 +:+ t2) s2 g g2.
  Proof. unfold Matches. intros H1 H2. cbn [match_here]. now rewrite H1, H2. Qed.

Lemma cat_inv r1 r2 s t s2 g g2 :
    Matches (Cat r1 r2) s t s2 g g2 ->
    exists t1 s1 g1 t2,
      Matches r1 s t1 s1 g g1 /\ Matches r2 s1 t2 s2 g1 g2 /\ t = t1 +:+ t2.
  Proof.
    unfold Matches. cbn [match_here].
    destruct (match_here r1 s g) as [[[t1 s1] g1]|] eqn:E1; [|discriminate].
    destruct (match_here r2 s1 g1) as [[[t2 s2'] g2']|] eqn:E2; [|discriminate].
    intros [= <- <- <-]. now exists t1, s1, g1, t2.
  Qed.

Lemma chr_intro c s g : Matches (Chr c) (String c s) (String c "") s g g.
  Proof. unfold Matches. cbn [match_here]. now rewrite Ascii.eqb_refl. Qed.

Lemma chr_inv c s t s' g g' :
    Matches (Chr c) s t s' g g' -> s = String c s' /\ t = String c "" /\ g' = g.
  Proof.
    unfold Matches. cbn [match_here]. destruct s as [|x s0]; [discriminate|].
    destruct (Ascii.eqb_spec x c) as [->|_]; [|discriminate].
    now intros [= <- <- <-].
  Qed.

Lemma empty_intro s g : Matches Empty s "" s g g.
  Proof. reflexivity. Qed.

Lemma empty_inv s t s' g g' :
    Matches Empty s t s' g g' -> s' = s /\ t = "" /\ g' = g.
  Proof. unfold Matches. cbn [match_here]. now intros [= <- <- <-]. Qed.

Lemma dollar_intro s g :
    s = "" \/ s = newline -> Matches Dollar s "" s g g.
  Proof. unfold Matches. now intros [-> | ->]. Qed.

Lemma dollar_inv s t s' g g' :
    Matches Dollar s t s' g g' ->
    s' = s /\ t = "" /\ g' = g /\ (s = "" \/ s = newline).
  Proof.
    unfold Matches. cbn [match_here].
    destruct (String.eqb_spec s "") as [->|_].
    - intros [= <- <- <-]. auto.
    - destruct (String.eqb_spec s newline) as [->|_]; [|discriminate].
      intros [= <- <- <-]. auto.
  Qed.

Lemma literal_intro l s g : Matches (literal l) (l +:+ s) l s g g.
  Proof.
    unfold literal. induction l as [|c l IH]; [reflexivity|].
    cbn [list_ascii_of_string fold_right String.append].
    apply (cat_intro _ _ _ (String c "") (l +:+ s) l s g g g);
      [apply chr_intro | exact IH].
  Qed.

Lemma literal_inv l s t s' g g' :
    Matches (literal l) s t s' g g' -> s = l +:+ s' /\ t = l /\ g' = g.
  Proof.
    unfold literal. revert s t. induction l as [|c l IH]; intros s t H.
    - apply empty_inv in H as (-> & -> & ->). auto.
    - cbn [list_ascii_of_string fold_right] in H.
      apply cat_inv in H as (t1 & s1 & g1 & t2 & Hc & Hl & ->).
      apply chr_inv in Hc as (-> & -> & ->).
      apply IH in Hl as (-> & -> & ->). auto.
  Qed.

Lemma digitsb_cons n c ds :
    digitsb (S n) (String c ds) = is_digit c && digitsb n ds.
  Proof.
    unfold digitsb. cbn [String.length list_ascii_of_string forallb Nat.eqb].
    destruct (is_digit c), (String.length ds =? n)%nat; reflexivity.
  Qed.

Lemma repeat_match_succ n m s g :
    repeat_match (S n) m s g
    = match m s g with
      | Some (t1, s1, g1) =>
          match repeat_match n m s1 g1 with
          | Some (t2, s2, g2) => Some (t1 +:+ t2, s2, g2)
          | None => None
          end
      | None => None
      end.
  Proof. reflexivity. Qed.

Lemma match_digit s g :
    match_here Digit s g
    = match s with
      | String x s' => if is_digit x then Some (String x "", s', g) else None
      | EmptyString => None
      end.
  Proof. reflexivity. Qed.

Lemma repeat_digit_intro n ds s g :
    digitsb n ds = true ->
    repeat_match n (match_here Digit) (ds +:+ s) g = Some (ds, s, g).
  Proof.
    revert ds. induction n as [|n IH]; intros [|c ds] H; try discriminate H.
    - reflexivity.
    - rewrite digitsb_cons in H. apply andb_true_iff in H as [Hc Hds].
      rewrite repeat_match_succ, match_digit. cbn [String.append].
      rewrite Hc, (IH ds Hds). reflexivity.
  Qed.

Lemma repeat_digit_inv n s t s' g g' :
    repeat_match n (match_here Digit) s g = Some (t, s', g') ->
    digitsb n t = true /\ s = t +:+ s' /\ g' = g.
  Proof.
    revert s t. induction n as [|n IH]; intros s t H.
    - cbn [repeat_match] in H. injection H as <- <- <-. auto.
    - rewrite repeat_match_succ, match_digit in H.
      destruct s as [|c s0]; [discriminate|].
      destruct (is_digit c) eqn:Hc; [|discriminate].
      destruct (repeat_match n (match_here Digit) s0 g) as [[[t2 s2] g2]|] eqn:E;
        [|discriminate].
      injection H as <- <- <-.
      apply IH in E as (Hd & -> & ->).
      cbn [String.append]. rewrite digitsb_cons, Hc, Hd. auto.
  Qed.

Lemma match_field name n s g :
    match_here (Named name (Repeat n Digit)) s g
    = match repeat_match n (match_here Digit) s g with
      | Some (t, s', g') => Some (t, s', (g' ++ [(name, t)])%list)
      | None => None
      end.
  Proof. reflexivity. Qed.

Lemma field_intro name n ds s g :
    digitsb n ds = true ->
    Matches (Named name (Repeat n Digit)) (ds +:+ s) ds s g
      (g ++ [(name, ds)])%list.
  Proof.
    intros H. unfold Matches.
    now rewrite match_field, (repeat_digit_intro n ds s g H).
  Qed.

Lemma field_inv name n s t s' g g' :
    Matches (Named name (Repeat n Digit)) s t s' g g' ->
    digitsb n t = true /\ s = t +:+ s' /\ g' = (g ++ [(name, t)])%list.
  Proof.
    unfold Matches. rewrite match_field.
    destruct (repeat_match n (match_here Digit) s g) as [[[t0 s0] g0]|] eqn:E;
      [|discriminate].
    intros [= <- <- <-]. apply repeat_digit_inv in E as (? & ? & ->). auto.
  Qed.

Ltac match_steps :=
    first [ apply chr_intro
          | apply empty_intro
          | apply field_intro; assumption
          | apply dollar_intro; assumption
          | eapply cat_intro; [match_steps | match_steps] ].

Ltac match_inversion :=
    repeat match goal with
           | H : Matches (Cat _ _) _ _ _ _ _ |- _ =>
               apply cat_inv in H as (? & ? & ? & ? & ? & H & ?)
           | H : Matches (Chr _) _ _ _ _ _ |- _ =>
               apply chr_inv in H as (? & ? & ?)
           | H : Matches (Named _ (Repeat _ Digit)) _ _ _ _ _ |- _ =>
               apply field_inv in H as (? & ? & ?)
           | H : Matches Dollar _ _ _ _ _ |- _ =>
               apply dollar_inv in H as (? & ? & ? & ?)
           | H : Matches Empty _ _ _ _ _ |- _ =>
               apply empty_inv in H as (? & ? & ?)
           end.

Lemma well_formed_fields (f : FileNameFields) :
    well_formed f = true ->
    digitsb 5 (f_orbit f) = true /\ digitsb 3 (f_scene_id f) = true
    /\ digitsb 4 (f_year f) = true /\ digitsb 2 (f_month f) = true
    /\ digitsb 2 (f_day f) = true /\ digitsb 2 (f_hour f) = true
    /\ digitsb 2 (f_minute f) = true /\ digitsb 2 (f_second f) = true
    /\ digitsb 4 (f_build_id f) = true /\ digitsb 2 (f_version f) = true.
  Proof. unfold well_formed. rewrite !andb_true_iff. tauto. Qed.

Lemma file_name_of_tail (f : FileNameFields) (tail : string) :
    file_name_of f +:+ tail
    = "ECOSTRESS_L2_CLOUD_" +:+ f_orbit f +:+ "_" +:+ f_scene_id f +:+ "_"
      +:+ f_year f +:+ f_month f +:+ f_day f +:+ "T"
      +:+ f_hour f +:+ f_minute f +:+ f_second f +:+ "_"
      +:+ f_build_id f +:+ "_" +:+ f_version f +:+ ".h5" +:+ tail.
  Proof. unfold file_name_of. now rewrite !append_assoc. Qed.

  (** The pattern matches every filename of the convention, alone or
      followed by one newline, and captures its fields. *)
Lemma file_re_matches (f : FileNameFields) (tail : string) :
    well_formed f = true -> tail = "" \/ tail = newline ->
    exists t, Matches _file_re (file_name_of f +:+ tail) t tail [] (groups_of f).
  Proof.
    intros Hf Htail.
    apply well_formed_fields in Hf as (? & ? & ? & ? & ? & ? & ? & ? & ? & ?).
    eexists.
    rewrite file_name_of_tail.
    unfold _file_re, seq, literal.
    cbn [fold_right list_ascii_of_string String.append].
    unfold groups_of. match_steps.
  Qed.

  (** The pattern matches nothing else. *)
Lemma file_re_matches_only (s t s' : string) (g : groupdict) :
    match_here _file_re s [] = Some (t, s', g) ->
    exists f, well_formed f = true /\ s = file_name_of f +:+ s'
              /\ (s' = "" \/ s' = newline) /\ g = groups_of f.
  Proof.
    intros H. change (Matches _file_re s t s' [] g) in H.
    unfold _file_re, seq, literal in H.
    cbn [fold_right list_ascii_of_string] in H.
    match_inversion. subst.
    eexists (mkFields _ _ _ _ _ _ _ _ _ _).
    split; [|split; [|split]].
    2: { rewrite file_name_of_tail.
         cbn [f_orbit f_scene_id f_year f_month f_day f_hour
              f_minute f_second f_build_id f_version String.append].
         reflexivity. }
    - unfold well_formed.
      cbn [f_orbit f_scene_id f_year f_month f_day f_hour
           f_minute f_second f_build_id f_version].
      repeat match goal with H : digitsb _ _ = true |- _ => rewrite H; clear H end.
      reflexivity.
    - assumption.
    - reflexivity.
  Qed.

End ReFacts.

Lemma getitem_groups_of (f : FileNameFields) :
  getitem (groups_of f) "year" = Ok (f_year f)
  /\ getitem (groups_of f) "month" = Ok (f_month f)
  /\ getitem (groups_of f) "day" = Ok (f_day f)
  /\ getitem (groups_of f) "hour" = Ok (f_hour f)
  /\ getitem (groups_of f) "minute" = Ok (f_minute f)
  /\ getitem (groups_of f) "second" = Ok (f_second f).
Proof. repeat split. Qed.

Lemma parse_datetime_of_accepted (f : FileNameFields) (tail : string) :
  well_formed f = true -> tail = "" \/ tail = newline ->
  _parse_datetime_from_file_name (Some (file_name_of f +:+ tail))
  = if names_a_datetime f then Ok (Some (encoded_datetime f))
    else Raise ValueError.
Proof.
  intros Hf Htail.
  destruct (ReFacts.file_re_matches f tail Hf Htail) as [t Ht].
  unfold ReFacts.Matches in Ht.
  unfold _parse_datetime_from_file_name, re_match. rewrite Ht.
  cbn [result_bind].
  destruct (getitem_groups_of f) as (-> & -> & -> & -> & -> & ->).
  cbn [result_bind]. unfold Datetime.datetime_new, names_a_datetime, encoded_datetime.
  now destruct (_ && _).
Qed.

Lemma parse_datetime_of_other (s : string) :
  ~ accepted s -> _parse_datetime_from_file_name (Some s) = Ok None.
Proof.
  intros Hno. unfold _parse_datetime_from_file_name, re_match.
  destruct (match_here _file_re s []) as [[[t s'] g]|] eqn:E; [|reflexivity].
  exfalso. apply Hno.
  apply ReFacts.file_re_matches_only in E as (f & Hf & -> & Htail & _).
  now exists f, s'.
Qed.

Module UnicodeFacts.

Import Unicode UnicodeNames.

Section Pattern.

Variable decimal : N -> option Z.

(** [StrMatches r s t s' g g']: on [s] with groups [g], [r] matches the text
    [t], leaves [s'] and ends with groups [g']. *)
Definition StrMatches (r : regex) (s t s' : str) (g g' : groupdict) : Prop :=
  match_here decimal r s g = Some (t, s', g').

Lemma str_cat_intro r1 r2 s t1 s1 t2 s2 g g1 g2 :
  StrMatches r1 s t1 s1 g g1 -> StrMatches r2 s1 t2 s2 g1 g2 ->
  StrMatches (Cat r1 r2) s (t1 ++ t2)%list s2 g g2.
Proof. unfold StrMatches. intros H1 H2. cbn [match_here]. now rewrite H1, H2. Qed.

Lemma str_cat_inv r1 r2 s t s2 g g2 :
  StrMatches (Cat r1 r2) s t s2 g g2 ->
  exists t1 s1 g1 t2,
    StrMatches r1 s t1 s1 g g1 /\ StrMatches r2 s1 t2 s2 g1 g2
    /\ t = (t1 ++ t2)%list.
Proof.
  unfold StrMatches. cbn [match_here].
  destruct (match_here decimal r1 s g) as [[[t1 s1] g1]|] eqn:E1; [|discriminate].
  destruct (match_here decimal r2 s1 g1) as [[[t2 s2'] g2']|] eqn:E2;
    [|discriminate].
  intros [= <- <- <-]. now exists t1, s1, g1, t2.
Qed.

Lemma str_chr_intro c s g :
  StrMatches (Chr c) (N_of_ascii c :: s) [N_of_ascii c] s g g.
Proof. unfold StrMatches. cbn [match_here]. now rewrite N.eqb_refl. Qed.

Lemma str_chr_inv c s t s' g g' :
  StrMatches (Chr c) s t s' g g' ->
  s = N_of_ascii c :: s' /\ t = [N_of_ascii c] /\ g' = g.
Proof.
  unfold StrMatches. cbn [match_here]. destruct s as [|x s0]; [discriminate|].
  destruct (N.eqb_spec x (N_of_ascii c)) as [->|_]; [|discriminate].
  now intros [= <- <- <-].
Qed.

Lemma str_empty_intro s g : StrMatches Empty s [] s g g.
Proof. reflexivity. Qed.

Lemma str_empty_inv s t s' g g' :
  StrMatches Empty s t s' g g' -> s' = s /\ t = [] /\ g' = g.
Proof. unfold StrMatches. cbn [match_here]. now intros [= <- <- <-]. Qed.

Lemma str_dollar_intro s g :
  s = [] \/ s = newline -> StrMatches Dollar s [] s g g.
Proof. unfold StrMatches. now intros [-> | ->]. Qed.

Lemma str_dollar_inv s t s' g g' :
  StrMatches Dollar s t s' g g' ->
  s' = s /\ t = [] /\ g' = g /\ (s = [] \/ s = newline).
Proof.
  unfold StrMatches. cbn [match_here].
  destruct s as [|c [|c' s0]]; [| |discriminate].
  - intros [= <- <- <-]. auto.
  - destruct (N.eqb_spec c 10) as [->|_]; [|discriminate].
    intros [= <- <- <-]. unfold newline. auto.
Qed.

Lemma str_digitsb_cons n c ds :
  digitsb decimal (S n) (c :: ds) = is_decimal decimal c && digitsb decimal n ds.
Proof.
  unfold digitsb. cbn [length forallb Nat.eqb].
  destruct (is_decimal decimal c), (length ds =? n)%nat; reflexivity.
Qed.

Lemma str_repeat_match_succ n m s g :
  repeat_match (S n) m s g
  = match m s g with
    | Some (t1, s1, g1) =>
        match repeat_match n m s1 g1 with
        | Some (t2, s2, g2) => Some ((t1 ++ t2)%list, s2, g2)
        | None => None
        end
    | None => None
    end.
Proof. reflexivity. Qed.

Lemma str_match_digit s g :
  match_here decimal Digit s g
  = match s with
    | x :: s' => if is_decimal decimal x then Some ([x], s', g) else None
    | [] => None
    end.
Proof. reflexivity. Qed.

Lemma str_repeat_digit_intro n ds s g :
  digitsb decimal n ds = true ->
  repeat_match n (match_here decimal Digit) (ds ++ s)%list g = Some (ds, s, g).
Proof.
  revert ds. induction n as [|n IH]; intros [|c ds] H; try discriminate H.
  - reflexivity.
  - rewrite str_digitsb_cons in H. apply andb_true_iff in H as [Hc Hds].
    rewrite str_repeat_match_succ, str_match_digit. cbn [app].
    rewrite Hc, (IH ds Hds). reflexivity.
Qed.

Lemma str_repeat_digit_inv n s t s' g g' :
  repeat_match n (match_here decimal Digit) s g = Some (t, s', g') ->
  digitsb decimal n t = true /\ s = (t ++ s')%list /\ g' = g.
Proof.
  revert s t. induction n as [|n IH]; intros s t H.
  - cbn [repeat_match] in H. injection H as <- <- <-. auto.
  - rewrite str_repeat_match_succ, str_match_digit in H.
    destruct s as [|c s0]; [discriminate|].
    destruct (is_decimal decimal c) eqn:Hc; [|discriminate].
    destruct (repeat_match n (match_here decimal Digit) s0 g)
      as [[[t2 s2] g2]|] eqn:E; [|discriminate].
    injection H as <- <- <-.
    apply IH in E as (Hd & -> & ->).
    cbn [app]. rewrite str_digitsb_cons, Hc, Hd. auto.
Qed.

Lemma str_match_field name n s g :
  match_here decimal (Named name (Repeat n Digit)) s g
  = match repeat_match n (match_here decimal Digit) s g with
    | Some (t, s', g') => Some (t, s', (g' ++ [(name, t)])%list)
    | None => None
    end.
Proof. reflexivity. Qed.

Lemma str_field_intro name n ds s g :
  digitsb decimal n ds = true ->
  StrMatches (Named name (Repeat n Digit)) (ds ++ s)%list ds s g
    (g ++ [(name, ds)])%list.
Proof.
  intros H. unfold StrMatches.
  now rewrite str_match_field, (str_repeat_digit_intro n ds s g H).
Qed.

Lemma str_field_inv name n s t s' g g' :
  StrMatches (Named name (Repeat n Digit)) s t s' g g' ->
  digitsb decimal n t = true /\ s = (t ++ s')%list
  /\ g' = (g ++ [(name, t)])%list.
Proof.
  unfold StrMatches. rewrite str_match_field.
  destruct (repeat_match n (match_here decimal Digit) s g)
    as [[[t0 s0] g0]|] eqn:E; [|discriminate].
  intros [= <- <- <-]. apply str_repeat_digit_inv in E as (? & ? & ->). auto.
Qed.

Ltac str_match_steps :=
  first [ apply str_chr_intro
        | apply str_empty_intro
        | apply str_field_intro; assumption
        | apply str_dollar_intro; assumption
        | eapply str_cat_intro; [str_match_steps | str_match_steps] ].

Ltac str_match_inversion :=
  repeat match goal with
         | H : StrMatches (Cat _ _) _ _ _ _ _ |- _ =>
             apply str_cat_inv in H as (? & ? & ? & ? & ? & H & ?)
         | H : StrMatches (Chr _) _ _ _ _ _ |- _ =>
             apply str_chr_inv in H as (? & ? & ?)
         | H : StrMatches (Named _ (Repeat _ Digit)) _ _ _ _ _ |- _ =>
             apply str_field_inv in H as (? & ? & ?)
         | H : StrMatches Dollar _ _ _ _ _ |- _ =>
             apply str_dollar_inv in H as (? & ? & ? & ?)
         | H : StrMatches Empty _ _ _ _ _ |- _ =>
             apply str_empty_inv in H as (? & ? & ?)
         end.

Lemma str_well_formed_fields (f : Fields) :
  well_formed decimal f = true ->
  digitsb decimal 5 (orbit f) = true /\ digitsb decimal 3 (scene_id f) = true
  /\ digitsb decimal 4 (year f) = true /\ digitsb decimal 2 (month f) = true
  /\ digitsb decimal 2 (day f) = true /\ digitsb decimal 2 (hour f) = true
  /\ digitsb decimal 2 (minute f) = true /\ digitsb decimal 2 (second f) = true
  /\ digitsb decimal 4 (build_id f) = true
  /\ digitsb decimal 2 (version f) = true.
Proof. unfold well_formed. rewrite !andb_true_iff. tauto. Qed.

(** The filename with what follows it, the appends nested to the right and
    the literal parts spelled out. *)
Lemma str_file_name_of_tail (f : Fields) (tail : str) :
  (file_name_of f ++ tail)%list
  = (of_string "ECOSTRESS_L2_CLOUD_" ++ orbit f ++ of_string "_"
     ++ scene_id f ++ of_string "_" ++ year f ++ month f ++ day f
     ++ of_string "T" ++ hour f ++ minute f ++ second f ++ of_string "_"
     ++ build_id f ++ of_string "_" ++ version f ++ of_string ".h5"
     ++ tail)%list.
Proof. unfold file_name_of. now rewrite <- !app_assoc. Qed.

(** The pattern matches every filename of the convention, alone or followed
    by one newline, and captures its fields. *)
Lemma str_file_re_matches (f : Fields) (tail : str) :
  well_formed decimal f = true -> tail = [] \/ tail = newline ->
  exists t, StrMatches _file_re (file_name_of f ++ tail)%list t tail []
              (groups_of f).
Proof.
  intros Hf Htail.
  apply str_well_formed_fields in Hf as (? & ? & ? & ? & ? & ? & ? & ? & ? & ?).
  eexists.
  rewrite str_file_name_of_tail.
  unfold _file_re, seq, literal, of_string.
  cbn [fold_right list_ascii_of_string map app].
  unfold groups_of. str_match_steps.
Qed.

(** The pattern matches nothing else. *)
Lemma str_file_re_matches_only (s t s' : str) (g : groupdict) :
  match_here decimal _file_re s [] = Some (t, s', g) ->
  exists f, well_formed decimal f = true /\ s = (file_name_of f ++ s')%list
            /\ (s' = [] \/ s' = newline) /\ g = groups_of f.
Proof.
  intros H. change (StrMatches _file_re s t s' [] g) in H.
  unfold _file_re, seq, literal in H.
  cbn [fold_right list_ascii_of_string] in H.
  str_match_inversion. subst.
  eexists (mkFields _ _ _ _ _ _ _ _ _ _).
  split; [|split; [|split]].
  2: { rewrite str_file_name_of_tail. unfold of_string.
       cbn [orbit scene_id year month day hour minute second build_id version
            list_ascii_of_string map app].
       reflexivity. }
  - unfold well_formed.
    cbn [orbit scene_id year month day hour minute second build_id version].
    repeat match goal with
           | H : digitsb _ _ _ = true |- _ => rewrite H; clear H
           end.
    reflexivity.
  - assumption.
  - reflexivity.
Qed.

Lemma str_getitem_groups_of (f : Fields) :
  getitem (groups_of f) "year" = Ok (year f)
  /\ getitem (groups_of f) "month" = Ok (month f)
  /\ getitem (groups_of f) "day" = Ok (day f)
  /\ getitem (groups_of f) "hour" = Ok (hour f)
  /\ getitem (groups_of f) "minute" = Ok (minute f)
  /\ getitem (groups_of f) "second" = Ok (second f).
Proof. repeat split. Qed.

Lemma str_parse_of_accepted (f : Fields) (tail : str) :
  well_formed decimal f = true -> tail = [] \/ tail = newline ->
  Unicode._parse_datetime_from_file_name decimal
    (Some (file_name_of f ++ tail)%list)
  = if names_a_datetime decimal f then Ok (Some (encoded_datetime decimal f))
    else Raise ValueError.
Proof.
  intros Hf Htail.
  destruct (str_file_re_matches f tail Hf Htail) as [t Ht].
  unfold StrMatches in Ht.
  unfold Unicode._parse_datetime_from_file_name, re_match. rewrite Ht.
  cbn [result_bind].
  destruct (str_getitem_groups_of f) as (-> & -> & -> & -> & -> & ->).
  cbn [result_bind].
  unfold Datetime.datetime_new, names_a_datetime, encoded_datetime.
  now destruct (_ && _).
Qed.

Lemma str_parse_of_other (s : str) :
  ~ accepted decimal s ->
  Unicode._parse_datetime_from_file_name decimal (Some s) = Ok None.
Proof.
  intros Hno. unfold Unicode._parse_datetime_from_file_name, re_match.
  destruct (match_here decimal _file_re s []) as [[[t s'] g]|] eqn:E;
    [|reflexivity].
  exfalso. apply Hno.
  apply str_file_re_matches_only in E as (f & Hf & -> & Htail & _).
  now exists f, s'.
Qed.

Lemma str_not_accepted_of_no_match (s : str) :
  match_here decimal _file_re s [] = None -> ~ accepted decimal s.
Proof.
  intros Hnone (f & tail & Hf & Htail & ->).
  destruct (str_file_re_matches f tail Hf Htail) as [t Ht].
  unfold StrMatches in Ht. congruence.
Qed.

End Pattern.

End UnicodeFacts.

Module RestrictionFacts.

Import Unicode.

#[local] Arguments String.append !s1 s2 : simpl nomatch.

Lemma of_string_app (a b : string) :
  of_string (a +:+ b) = (of_string a ++ of_string b)%list.
Proof.
  unfold of_string. induction a as [|c a IH]; [reflexivity|].
  cbn [String.append list_ascii_of_string map app]. now rewrite IH.
Qed.

Lemma of_groups_snoc (g : Re.groupdict) (name t : string) :
  UnicodeNames.of_groups (g ++ [(name, t)])%list = (UnicodeNames.of_groups g ++ [(name, of_string t)])%list.
Proof. unfold UnicodeNames.of_groups. now rewrite map_app. Qed.

Lemma N_of_ascii_inj (x c : ascii) : N_of_ascii x = N_of_ascii c -> x = c.
Proof.
  intros H. rewrite <- (ascii_N_embedding x), <- (ascii_N_embedding c).
  now rewrite H.
Qed.

(** A result of the 8-bit matcher, as one of the matcher on [str]. *)
Definition of_match (o : option (string * string * Re.groupdict))
  : option (str * str * groupdict) :=
  match o with
  | Some (t, s', g') => Some (of_string t, of_string s', UnicodeNames.of_groups g')
  | None => None
  end.

Section Restriction.

Variable decimal : N -> option Z.
Hypothesis Hascii : UnicodeNames.ascii_digits_only decimal.

Lemma is_decimal_of_ascii (c : ascii) :
  is_decimal decimal (N_of_ascii c) = Re.is_digit c.
Proof. unfold is_decimal. rewrite Hascii. now destruct (Re.is_digit c). Qed.

Lemma repeat_match_of_string (m : Re.matcher) (m' : matcher) :
  (forall s g, m' (of_string s) (UnicodeNames.of_groups g) = of_match (m s g)) ->
  forall n s g,
    repeat_match n m' (of_string s) (UnicodeNames.of_groups g)
    = of_match (Re.repeat_match n m s g).
Proof.
  intros Hm. induction n as [|n IH]; intros s g; [reflexivity|].
  cbn [repeat_match Re.repeat_match]. rewrite Hm.
  destruct (m s g) as [[[t1 s1] g1]|]; [|reflexivity].
  cbn [of_match]. rewrite IH.
  destruct (Re.repeat_match n m s1 g1) as [[[t2 s2] g2]|]; [|reflexivity].
  cbn [of_match]. now rewrite of_string_app.
Qed.

(** On the strings of 8-bit characters the two matchers agree. *)
Lemma match_here_of_string (r : regex) :
  forall s g,
    match_here decimal r (of_string s) (UnicodeNames.of_groups g)
    = of_match (Re.match_here r s g).
Proof.
  induction r as [c| |r1 IH1 r2 IH2|n r IH|name r IH| |]; intros s g.
  - destruct s as [|x s]; [reflexivity|].
    cbn [match_here Re.match_here of_string list_ascii_of_string map].
    destruct (Ascii.eqb_spec x c) as [->|Hne].
    + now rewrite N.eqb_refl.
    + destruct (N.eqb_spec (N_of_ascii x) (N_of_ascii c)) as [E|_];
        [|reflexivity].
      now apply N_of_ascii_inj in E.
  - destruct s as [|x s]; [reflexivity|].
    cbn [match_here Re.match_here of_string list_ascii_of_string map].
    rewrite is_decimal_of_ascii. now destruct (Re.is_digit x).
  - cbn [match_here Re.match_here]. rewrite IH1.
    destruct (Re.match_here r1 s g) as [[[t1 s1] g1]|]; [|reflexivity].
    cbn [of_match]. rewrite IH2.
    destruct (Re.match_here r2 s1 g1) as [[[t2 s2] g2]|]; [|reflexivity].
    cbn [of_match]. now rewrite of_string_app.
  - cbn [match_here Re.match_here]. now apply repeat_match_of_string.
  - cbn [match_here Re.match_here]. rewrite IH.
    destruct (Re.match_here r s g) as [[[t s'] g']|]; [|reflexivity].
    cbn [of_match]. now rewrite of_groups_snoc.
  - cbn [match_here Re.match_here].
    destruct s as [|c [|c' s]]; [reflexivity | |].
    + cbn [of_string list_ascii_of_string map].
      destruct (String.eqb_spec (String c "") "") as [E|_]; [discriminate E|].
      destruct (String.eqb_spec (String c "") Re.newline) as [E|Hne].
      * injection E as ->. reflexivity.
      * destruct (N.eqb_spec (N_of_ascii c) 10) as [E|_]; [|reflexivity].
        exfalso. apply Hne. unfold Re.newline. f_equal.
        apply N_of_ascii_inj. now rewrite E.
    + cbn [of_string list_ascii_of_string map].
      destruct (String.eqb_spec (String c (String c' s)) "") as [E|_];
        [discriminate E|].
      destruct (String.eqb_spec (String c (String c' s)) Re.newline) as [E|_];
        [discriminate E | reflexivity].
  - reflexivity.
Qed.

Lemma int_acc_of_string (s : string) (acc : Z) :
  forallb Re.is_digit (list_ascii_of_string s) = true ->
  int_acc decimal acc (of_string s) = Re.int_acc acc s.
Proof.
  revert acc. induction s as [|c s IH]; intros acc H; [reflexivity|].
  cbn [list_ascii_of_string forallb] in H. apply andb_true_iff in H as [Hc Hs].
  cbn [of_string list_ascii_of_string map int_acc Re.int_acc].
  unfold digit_value. rewrite Hascii, Hc. exact (IH _ Hs).
Qed.

Lemma int_of_digits (n : nat) (s : string) :
  digitsb n s = true -> int decimal (of_string s) = Re.int s.
Proof.
  unfold digitsb. intros H. apply andb_true_iff in H as [_ H].
  now apply int_acc_of_string.
Qed.

End Restriction.

(** The ASCII and Arabic-Indic digits are such a table. *)
Lemma two_scripts_ascii : UnicodeNames.ascii_digits_only UnicodeNames.two_scripts.
Proof. intros [[] [] [] [] [] [] [] []]; reflexivity. Qed.

End RestrictionFacts.

(** [_parse_datetime_from_file_name] is the parser on [str], taken on the
    strings of 8-bit characters. *)
Lemma parse_datetime_of_8bit_string
    (decimal : N -> option Z) (file_name : option string) :
  UnicodeNames.ascii_digits_only decimal ->
  Unicode._parse_datetime_from_file_name decimal
    (option_map Unicode.of_string file_name)
  = _parse_datetime_from_file_name file_name.
Proof.
  intros Hascii. destruct file_name as [s|]; [|reflexivity].
  unfold Unicode._parse_datetime_from_file_name, _parse_datetime_from_file_name,
    re_match, Unicode.re_match.
  cbn [option_map result_bind].
  pose proof (RestrictionFacts.match_here_of_string decimal Hascii _file_re s [])
    as Hm.
  change (UnicodeNames.of_groups []) with (@nil (string * Unicode.str)) in Hm.
  rewrite Hm.
  destruct (match_here _file_re s []) as [[[t s'] g]|] eqn:E; [|reflexivity].
  apply ReFacts.file_re_matches_only in E as (f & Hf & _ & _ & ->).
  apply ReFacts.well_formed_fields in Hf
    as (_ & _ & Hy & Hmo & Hd & Hh & Hmi & Hs & _).
  cbn [RestrictionFacts.of_match UnicodeNames.of_groups groups_of map fst snd
       getitem Unicode.getitem String.eqb Ascii.eqb Bool.eqb result_bind].
  rewrite (RestrictionFacts.int_of_digits decimal Hascii _ _ Hy),
    (RestrictionFacts.int_of_digits decimal Hascii _ _ Hmo),
    (RestrictionFacts.int_of_digits decimal Hascii _ _ Hd),
    (RestrictionFacts.int_of_digits decimal Hascii _ _ Hh),
    (RestrictionFacts.int_of_digits decimal Hascii _ _ Hmi),
    (RestrictionFacts.int_of_digits decimal Hascii _ _ Hs).
  reflexivity.
Qed.

(** C3, amended. Take any [str], its digits being the characters [\d]
    matches: the decimal digits of every script. A filename of the
    convention (or one followed by a single newline, which [$] lets through)
    whose digit fields name a real date and time parses to the timestamp
    whose year, month, day, hour, minute and second are the numbers [int]
    reads in those fields; when the fields name no such date or time the
    constructor of [datetime] raises [ValueError]; every other string gives
    the no-match value [None]. *)
Theorem parse_datetime_from_file_name_spec (decimal : N -> option Z) :
  (forall f tail,
      UnicodeNames.well_formed decimal f = true ->
      tail = [] \/ tail = Unicode.newline ->
      UnicodeNames.names_a_datetime decimal f = true ->
      Unicode._parse_datetime_from_file_name decimal
        (Some (UnicodeNames.file_name_of f ++ tail)%list)
      = Ok (Some (UnicodeNames.encoded_datetime decimal f))
      /\ Datetime.year (UnicodeNames.encoded_datetime decimal f)
         = Unicode.int decimal (UnicodeNames.year f)
      /\ Datetime.month (UnicodeNames.encoded_datetime decimal f)
         = Unicode.int decimal (UnicodeNames.month f)
      /\ Datetime.day (UnicodeNames.encoded_datetime decimal f)
         = Unicode.int decimal (UnicodeNames.day f)
      /\ Datetime.hour (UnicodeNames.encoded_datetime decimal f)
         = Unicode.int decimal (UnicodeNames.hour f)
      /\ Datetime.minute (UnicodeNames.encoded_datetime decimal f)
         = Unicode.int decimal (UnicodeNames.minute f)
      /\ Datetime.second (UnicodeNames.encoded_datetime decimal f)
         = Unicode.int decimal (UnicodeNames.second f))
  /\ (forall f tail,
         UnicodeNames.well_formed decimal f = true ->
         tail = [] \/ tail = Unicode.newline ->
         UnicodeNames.names_a_datetime decimal f = false ->
         Unicode._parse_datetime_from_file_name decimal
           (Some (UnicodeNames.file_name_of f ++ tail)%list)
         = Raise ValueError)
  /\ (forall s, ~ UnicodeNames.accepted decimal s ->
                Unicode._parse_datetime_from_file_name decimal (Some s)
                = Ok None).
Proof.
  split; [|split].
  - intros f tail Hf Htail Hd.
    rewrite (UnicodeFacts.str_parse_of_accepted decimal f tail Hf Htail), Hd.
    repeat split.
  - intros f tail Hf Htail Hd.
    now rewrite (UnicodeFacts.str_parse_of_accepted decimal f tail Hf Htail), Hd.
  - apply UnicodeFacts.str_parse_of_other.
Qed.

(** C5. When the cached document has a [BoundingRectangle] whose four
    coordinate children read as west, north, east and south, the polygon
    [_parse_bbox_from_xml] returns has exactly the corners (west, north),
    (east, north), (east, south), (west, south), in that order. *)
Theorem parse_bbox_corners
    (W : World) (sd : list (string * pyobj) -> M unit) (xml_url : string)
    (st : state) (content : string) (root rect : Element)
    (tw tn te ts : string) (west north east south : Q) :
  files st !! Path.join (_XML_DIR W) (Path.basename xml_url) = Some content ->
  ET_fromstring W content = Ok root ->
  ET.find_descendant "BoundingRectangle" root = Some rect ->
  child_text rect "WestBoundingCoordinate" = Some tw -> float W tw = Ok west ->
  child_text rect "NorthBoundingCoordinate" = Some tn -> float W tn = Ok north ->
  child_text rect "EastBoundingCoordinate" = Some te -> float W te = Ok east ->
  child_text rect "SouthBoundingCoordinate" = Some ts -> float W ts = Ok south ->
  _parse_bbox_from_xml W sd xml_url st
  = (Ok (mkPolygon [(west, north); (east, north); (east, south); (west, south)]),
     st).
Proof.
  intros Hfile Hroot Hrect Hw Fw Hn Fn He Fe Hs Fs.
  rewrite (parse_bbox_cached W sd xml_url st content Hfile), Hroot.
  cbn [result_bind]. unfold bbox_of_root. rewrite Hrect.
  assert (Hfloat : forall name txt x,
             child_text rect name = Some txt -> float W txt = Ok x ->
             float_of_text W (Some rect) name = Ok x).
  { intros name txt x Hc Hf. unfold float_of_text. unfold child_text in Hc.
    destruct (ET.find_child name rect) as [c|]; [|discriminate].
    now rewrite Hc. }
  rewrite (Hfloat _ _ _ Hw Fw), (Hfloat _ _ _ Hn Fn),
          (Hfloat _ _ _ He Fe), (Hfloat _ _ _ Hs Fs).
  reflexivity.
Qed.

(** * The properties at the data of the tests *)

Import Fixtures.

Lemma follows_convention_match (s : string) :
  follows_convention s ->
  exists t g, match_here _file_re s [] = Some (t, "", g).
Proof.
  intros (f & Hf & ->).
  destruct (ReFacts.file_re_matches f "" Hf (or_introl eq_refl)) as [t Ht].
  unfold ReFacts.Matches in Ht. rewrite append_empty_r in Ht. eauto.
Qed.

Lemma temporal_step_witness :
  (* a candidate of the window goes on to the spatial test and is kept *)
  select_files world (fun _ => ret tt) start_date end_date bbox day_2022_01_05
    [Some file_19850] [] MoreFixtures.complete_disk
  = (Ok [day_2022_01_05 +:+ file_19850], MoreFixtures.complete_disk)
  (* a candidate earlier than the window is dropped *)
  /\ select_files world (fun _ => ret tt) start_date end_date bbox
       day_2022_01_05 [Some file_19843] [] empty_disk
     = select_files world (fun _ => ret tt) start_date end_date bbox
         day_2022_01_05 [] [] empty_disk
  (* a candidate that is no filename of the convention is dropped *)
  /\ select_files world (fun _ => ret tt) start_date end_date bbox
       day_2022_01_05 [Some (file_19850 +:+ ".xml")] [] empty_disk
     = select_files world (fun _ => ret tt) start_date end_date bbox
         day_2022_01_05 [] [] empty_disk
  (* a name with month 13 and an anchor without [href] end the pass *)
  /\ select_files world (fun _ => ret tt) start_date end_date bbox
       day_2022_01_05 [Some file_month_13; Some file_19850] [] empty_disk
     = (Raise ValueError, empty_disk)
  /\ select_files world (fun _ => ret tt) start_date end_date bbox
       day_2022_01_05 [None; Some file_19850] [] empty_disk
     = (Raise TypeError, empty_disk).
Proof.
  assert (Hkept : _parse_datetime_from_file_name (Some file_19850)
                  = Ok (Some (Datetime.mk 2022 1 5 12 27 19 0)))
    by (vm_compute; reflexivity).
  assert (Hearly : _parse_datetime_from_file_name (Some file_19843)
                   = Ok (Some (Datetime.mk 2022 1 5 1 34 9 0)))
    by (vm_compute; reflexivity).
  assert (Hother : _parse_datetime_from_file_name (Some (file_19850 +:+ ".xml"))
                   = Ok None)
    by (vm_compute; reflexivity).
  assert (Hbad : _parse_datetime_from_file_name (Some file_month_13)
                 = Raise ValueError)
    by (vm_compute; reflexivity).
  assert (Hlink_kept : urljoin world day_2022_01_05 (Some file_19850)
                       = Ok (day_2022_01_05 +:+ file_19850))
    by (vm_compute; reflexivity).
  assert (Hlink_early : urljoin world day_2022_01_05 (Some file_19843)
                        = Ok (day_2022_01_05 +:+ file_19843))
    by (vm_compute; reflexivity).
  assert (Hlink_other : urljoin world day_2022_01_05
                          (Some (file_19850 +:+ ".xml"))
                        = Ok (day_2022_01_05 +:+ file_19850 +:+ ".xml"))
    by (vm_compute; reflexivity).
  assert (Hlink_bad : urljoin world day_2022_01_05 (Some file_month_13)
                      = Ok (day_2022_01_05 +:+ file_month_13))
    by (vm_compute; reflexivity).
  assert (Hstart : dt_le start_date (Datetime.mk 2022 1 5 12 27 19 0))
    by (unfold dt_le; simpl; lia).
  assert (Hend : dt_le (Datetime.mk 2022 1 5 12 27 19 0) end_date)
    by (unfold dt_le; simpl; lia).
  split; [|split; [|split; [|split]]].
  - rewrite (proj1 (temporal_step_keeps_drops_or_raises world (fun _ => ret tt)
                      start_date end_date bbox day_2022_01_05 (Some file_19850)
                      [] [] MoreFixtures.complete_disk)
               (day_2022_01_05 +:+ file_19850) (Datetime.mk 2022 1 5 12 27 19 0)
               Hlink_kept Hkept Hstart Hend).
    vm_compute. reflexivity.
  - apply (proj1 (proj2 (temporal_step_keeps_drops_or_raises world
                           (fun _ => ret tt) start_date end_date bbox
                           day_2022_01_05 (Some file_19843) [] [] empty_disk))
             (day_2022_01_05 +:+ file_19843) _
             Hlink_early Hearly).
    right. exists (Datetime.mk 2022 1 5 1 34 9 0). split; [reflexivity|].
    intros [H _]. unfold dt_le in H. simpl in H. lia.
  - apply (proj1 (proj2 (temporal_step_keeps_drops_or_raises world
                           (fun _ => ret tt) start_date end_date bbox
                           day_2022_01_05 (Some (file_19850 +:+ ".xml")) [] []
                           empty_disk))
             (day_2022_01_05 +:+ file_19850 +:+ ".xml") _
             Hlink_other Hother).
    now left.
  - exact (proj1 (proj2 (proj2 (temporal_step_keeps_drops_or_raises world
                                  (fun _ => ret tt) start_date end_date bbox
                                  day_2022_01_05 (Some file_month_13)
                                  [Some file_19850] [] empty_disk)))
             (day_2022_01_05 +:+ file_month_13) ValueError
             Hlink_bad Hbad).
  - exact (proj2 (proj2 (proj2 (proj2 (temporal_step_keeps_drops_or_raises world
                                         (fun _ => ret tt) start_date end_date
                                         bbox day_2022_01_05 None
                                         [Some file_19850] [] empty_disk))))
             eq_refl).
Defined.

(** C2 as stated fails. A link whose name has the shape of the pattern and
    month 13 has no timestamp the parser can build, yet it is not discarded:
    the pass over the page raises [ValueError], where discarding the link
    would have returned the empty selection. *)
Lemma temporal_step_claim_fails :
  (forall t, _parse_datetime_from_file_name (Some file_month_13) <> Ok (Some t))
  /\ select_files world (download_frame world recursion_limit) start_date
       end_date bbox day_2022_01_05 [Some file_month_13] [] empty_disk
     = (Raise ValueError, empty_disk)
  /\ select_files world (download_frame world recursion_limit) start_date
       end_date bbox day_2022_01_05 [] [] empty_disk
     = (Ok [], empty_disk).
Proof.
  split; [|split].
  - intros t H. vm_compute in H. discriminate H.
  - vm_compute. reflexivity.
  - reflexivity.
Qed.

Lemma parse_datetime_witness :
  Unicode._parse_datetime_from_file_name UnicodeNames.two_scripts
    (Some (UnicodeNames.file_name_of fields_two_scripts ++ [])%list)
  = Ok (Some (Datetime.mk 2022 1 5 1 34 9 0))
  /\ Unicode._parse_datetime_from_file_name UnicodeNames.two_scripts
       (Some (UnicodeNames.file_name_of fields_month_13 ++ Unicode.newline)%list)
     = Raise ValueError
  /\ Unicode._parse_datetime_from_file_name UnicodeNames.two_scripts
       (Some (Unicode.of_string
                "ECOSTRESS_L4_WUE_25858_029_20230127T082948_0601_01.h5.xml"))
     = Ok None.
Proof.
  destruct (parse_datetime_from_file_name_spec UnicodeNames.two_scripts)
    as (Hgood & Hbad & Hother).
  split; [|split].
  - apply (Hgood fields_two_scripts []); [reflexivity | now left | reflexivity].
  - apply Hbad; [reflexivity | now right | reflexivity].
  - apply Hother. apply UnicodeFacts.str_not_accepted_of_no_match.
    vm_compute. reflexivity.
Defined.

(** C3 as stated fails twice. A filename of the convention with month 13
    makes the parser raise; and a string that is not of the convention, a
    filename followed by a newline, parses to a timestamp. *)
Lemma parse_datetime_claim_fails :
  (follows_convention "ECOSTRESS_L2_CLOUD_19843_018_20221305T013409_0601_01.h5"
   /\ _parse_datetime_from_file_name
        (Some "ECOSTRESS_L2_CLOUD_19843_018_20221305T013409_0601_01.h5")
      = Raise ValueError)
  /\ (~ follows_convention (file_19843 +:+ newline)
      /\ _parse_datetime_from_file_name (Some (file_19843 +:+ newline))
         = Ok (Some (Datetime.mk 2022 1 5 1 34 9 0))).
Proof.
  split; split.
  - exists (mkFields "19843" "018" "2022" "13" "05" "01" "34" "09" "0601" "01").
    split; reflexivity.
  - vm_compute. reflexivity.
  - intros H. apply follows_convention_match in H as (t & g & H).
    vm_compute in H. discriminate H.
  - vm_compute. reflexivity.
Qed.

Lemma parse_bbox_uncached_witness :
  _parse_bbox_from_xml world (fun _ => ret tt) xml_url empty_disk
  = (Raise TypeError, empty_disk).
Proof.
  apply (parse_bbox_uncached_raises world (fun _ => ret tt) xml_url empty_disk).
  vm_compute. reflexivity.
Defined.

Lemma parse_bbox_corners_witness :
  _parse_bbox_from_xml world (fun _ => ret tt) xml_url cached_disk
  = (Ok (mkPolygon [ (-122.778572, 38.030651); (-117.125183, 38.030651);
                     (-117.125183, 32.858040); (-122.778572, 32.858040) ]%Q),
     cached_disk).
Proof.
  apply (parse_bbox_corners world (fun _ => ret tt) xml_url cached_disk
           granule_xml granule bounding_rectangle
           "-122.778572" "38.030651" "-117.125183" "32.858040");
    vm_compute; reflexivity.
Defined.

Lemma intersects_witness :
  Shapely.intersects (rectangle 0 1 1 0) (rectangle 1 1 2 0) = true
  /\ Shapely.intersects (rectangle 1 1 1 1) (rectangle 1 1 2 0) = true.
Proof.
  destruct (intersects_is_symmetric_reflexive_and_closed 0 1 1 0 1 1 2 0)
    as (_ & _ & Hshare & Hpoint).
  assert (Ha : Shapely.in_region (rectangle 0 1 1 0) 1 1)
    by (unfold Shapely.in_region; simpl; unfold Qle; simpl; lia).
  assert (Hb : Shapely.in_region (rectangle 1 1 2 0) 1 1)
    by (unfold Shapely.in_region; simpl; unfold Qle; simpl; lia).
  split; [exact (Hshare 1%Q 1%Q Ha Hb) | exact (Hpoint 1%Q 1%Q Hb)].
Defined.

Lemma download_existing_witness :
  _download world ("https://example.com/data.txt", "data.txt")
    (mkState {[ "data.txt" := "kept" ]} [] [])
  = (Ok tt, mkState {[ "data.txt" := "kept" ]} [] ["Skipping data.txt"]).
Proof.
  assert (H : files (mkState {[ "data.txt" := "kept" ]} [] []) !! "data.txt"
              = Some "kept") by (vm_compute; reflexivity).
  exact (download_existing_path_is_skipped world "https://example.com/data.txt"
           "data.txt" (mkState {[ "data.txt" := "kept" ]} [] []) "kept" H).
Defined.

Lemma download_chunks_witness :
  _download world ("https://example.com/data.txt", "data.txt") empty_disk
  = (Ok tt, mkState (<["data.txt" := "data_chunk1data_chunk2"]> ∅)
              [UrlOpen "https://example.com/data.txt"] []).
Proof.
  assert (Hfree : files empty_disk !! "data.txt" = None)
    by (vm_compute; reflexivity).
  assert (Hchunks : Forall (fun c => c <> "") ["data_chunk1"; "data_chunk2"])
    by (repeat constructor; discriminate).
  exact (download_writes_the_chunks_in_order world "https://example.com/data.txt"
           "data.txt" empty_disk ["data_chunk1"; "data_chunk2"] []
           Hfree Hchunks eq_refl).
Defined.

Lemma download_empty_range_witness :
  _create_day_urls world end_date start_date = Ok []
  /\ download world end_date start_date bbox "/output/dir/" empty_disk
     = (Ok tt, empty_disk).
Proof.
  apply (download_of_empty_range world end_date start_date bbox "/output/dir/"
           empty_disk).
  vm_compute. reflexivity.
Defined.

Lemma metadata_failure_witness :
  download world start_date end_date bbox "/output/dir/" empty_disk
  = (Raise TypeError, mkState ∅ [HttpGet day_2022_01_05] [])
  /\ files (mkState ∅ [HttpGet day_2022_01_05] []) = files empty_disk
  /\ stdout (mkState ∅ [HttpGet day_2022_01_05] []) = stdout empty_disk
  /\ network (mkState ∅ [HttpGet day_2022_01_05] [])
     = (network empty_disk ++ map HttpGet ([] ++ [day_2022_01_05]))%list.
Proof.
  apply (metadata_failure_aborts_the_run world start_date end_date bbox
           "/output/dir/" empty_disk
           [] day_2022_01_05 [day_2022_01_06]
           [] empty_disk
           [Some file_19843] file_19850 []
           (mkState ∅ [HttpGet day_2022_01_05] [])
           [] (mkState ∅ [HttpGet day_2022_01_05] [])
           (day_2022_01_05 +:+ file_19850) (Datetime.mk 2022 1 5 12 27 19 0)
           TypeError (mkState ∅ [HttpGet day_2022_01_05] []));
    try (vm_compute; reflexivity);
    unfold dt_le; simpl; lia.
Defined.

(** * Further properties of the code *)

Module CalendarFacts.

Lemma monthrange_days_cases (year month : Z) :
  1 <= month <= 12 ->
  Calendar.monthrange_days year month = Ok (Datetime.days_in_month year month).
Proof.
  intros H. unfold Calendar.monthrange_days.
  replace ((1 <=? month) && (month <=? 12)) with true
    by (symmetry; apply andb_true_iff; split; apply Z.leb_le; lia).
  assert (Hm : month = 1 \/ month = 2 \/ month = 3 \/ month = 4 \/ month = 5
               \/ month = 6 \/ month = 7 \/ month = 8 \/ month = 9
               \/ month = 10 \/ month = 11 \/ month = 12) by lia.
  unfold Datetime.days_in_month, Datetime.is_leap, Calendar.isleap.
  repeat (destruct Hm as [-> | Hm]; [cbn; try reflexivity|]).
  all: try (subst; cbn; reflexivity).
  all: destruct ((year mod 4 =? 0) && _); reflexivity.
Qed.

End CalendarFacts.

(** X1. [_get_last_day_of_month] returns a number of days from 28 to 31 for
    a month from 1 to 12, whatever the year, and raises the [ValueError] of
    [calendar.monthrange] for any other month. *)
Theorem last_day_of_month_range (year month : Z) :
  (1 <= month <= 12 ->
   exists n, _get_last_day_of_month year month = Ok n /\ 28 <= n <= 31)
  /\ (~ 1 <= month <= 12 ->
      _get_last_day_of_month year month = Raise ValueError).
Proof.
  unfold _get_last_day_of_month. split.
  - intros H. rewrite (CalendarFacts.monthrange_days_cases year month H).
    exists (Datetime.days_in_month year month).
    split; [reflexivity | apply DatetimeFacts.days_in_month_bounds].
  - intros H. unfold Calendar.monthrange_days.
    destruct (Z.leb_spec 1 month), (Z.leb_spec month 12); try reflexivity. lia.
Qed.

Lemma last_day_of_month_range_witness :
  (exists n, _get_last_day_of_month 2024 2 = Ok n /\ 28 <= n <= 31)
  /\ _get_last_day_of_month 2024 13 = Raise ValueError.
Proof.
  split.
  - apply (proj1 (last_day_of_month_range 2024 2)). lia.
  - apply (proj2 (last_day_of_month_range 2024 13)). lia.
Defined.

(** X2. The number [_get_last_day_of_month] returns is the last day of the
    month for [datetime]: with a year from 1 to 9999, [datetime(year, month,
    d)] is accepted exactly for the days [d] from 1 to that number. *)
Theorem last_day_of_month_is_last (year month d n : Z) :
  1 <= year <= 9999 ->
  _get_last_day_of_month year month = Ok n ->
  (exists t, Datetime.datetime_new year month d 0 0 0 = Ok t) <-> 1 <= d <= n.
Proof.
  intros Hy Hn.
  assert (Hm : 1 <= month <= 12).
  { unfold _get_last_day_of_month, Calendar.monthrange_days in Hn.
    destruct (Z.leb_spec 1 month), (Z.leb_spec month 12);
      try lia; discriminate Hn. }
  unfold _get_last_day_of_month in Hn.
  rewrite (CalendarFacts.monthrange_days_cases year month Hm) in Hn.
  injection Hn as <-.
  unfold Datetime.datetime_new, Datetime.check_date_fields,
    Datetime.check_time_fields, Datetime.between, Datetime.MINYEAR,
    Datetime.MAXYEAR.
  split.
  - intros [t Ht].
    destruct (_ && _) eqn:E in Ht; [|discriminate].
    rewrite !andb_true_iff, !Z.leb_le in E. lia.
  - intros Hd. eexists.
    replace (_ && _) with true; [reflexivity|].
    symmetry. rewrite !andb_true_iff, !Z.leb_le. lia.
Qed.

Lemma last_day_of_month_is_last_witness :
  (exists t, Datetime.datetime_new 2023 2 28 0 0 0 = Ok t) <-> 1 <= 28 <= 28.
Proof.
  apply (last_day_of_month_is_last 2023 2 28 28); [lia | reflexivity].
Defined.

Section DownloadFacts.

Variable W : World.

Lemma read_loop_written dest reads st acc :
  files st !! dest = Some acc ->
  read_loop dest reads st
  = (Ok tt, mkState (<[dest := acc +:+ written reads]> (files st))
              (network st) (stdout st)).
Proof.
  revert st acc. induction reads as [|chunk reads IH]; intros st acc Hacc.
  - cbn [read_loop written]. unfold ret. rewrite append_empty_r.
    rewrite insert_id by exact Hacc. now destruct st.
  - cbn [read_loop written].
    destruct (String.eqb chunk "").
    + unfold ret. rewrite append_empty_r.
      rewrite insert_id by exact Hacc. now destruct st.
    + unfold bind at 1, fd_write at 1. rewrite Hacc. cbn [default].
      rewrite (IH _ (acc +:+ chunk)) by apply lookup_insert_eq.
      cbn [files network stdout].
      now rewrite insert_insert_eq, append_assoc.
Qed.

Lemma download_fresh link dest st reads :
  files st !! dest = None ->
  response_reads W link = Ok reads ->
  _download W (link, dest) st
  = (Ok tt, mkState (<[dest := written reads]> (files st))
              (network st ++ [UrlOpen link]) (stdout st)).
Proof.
  intros Hnone Hreads. unfold _download, bind, os_path_exists. cbn [fst snd].
  rewrite Hnone. rewrite bool_decide_eq_false_2 by (intros [? ?]; discriminate).
  unfold send, lift, open_wb. rewrite Hreads. cbn [files network stdout].
  rewrite (read_loop_written dest reads _ "") by apply lookup_insert_eq.
  cbn [files network stdout]. now rewrite insert_insert_eq.
Qed.

Lemma download_present link dest st content :
  files st !! dest = Some content ->
  _download W (link, dest) st = (Ok tt, printed st ["Skipping " +:+ dest]).
Proof.
  intros H. unfold _download, bind, os_path_exists. cbn [fst snd].
  rewrite H. rewrite bool_decide_eq_true_2 by eauto. reflexivity.
Qed.

Lemma download_all_app qs1 qs2 st :
  download_all W (qs1 ++ qs2) st
  = match download_all W qs1 st with
    | (Ok _, st') => download_all W qs2 st'
    | (Raise e, st') => (Raise e, st')
    end.
Proof.
  revert st. induction qs1 as [|q qs1 IH]; intros st; [reflexivity|].
  rewrite <- app_comm_cons. cbn [download_all]. unfold bind.
  destruct (_download W q st) as [[[]|e] st']; [apply IH | reflexivity].
Qed.

(** X3. Whatever the reads of the response are, a download to a path where
    nothing exists, once it has returned, has sent one request and has left
    in the file exactly the chunks read before the first empty one: all of
    them when the body ends without an empty read, and an empty file when
    the first read is empty. Nothing else has changed. *)
Theorem download_writes_until_first_empty_read link dest st reads st' :
  files st !! dest = None ->
  response_reads W link = Ok reads ->
  _download W (link, dest) st = (Ok tt, st') ->
  st' = mkState (<[dest := written reads]> (files st))
          (network st ++ [UrlOpen link]) (stdout st).
Proof.
  intros Hnone Hreads. rewrite (download_fresh link dest st reads Hnone Hreads).
  now intros [= <-].
Qed.

(** X4. A download is done once: running the same task again after it has
    succeeded sends no second request and leaves the file as the first run
    wrote it; the second run only prints that it skips the path. *)
Theorem download_again_is_skipped link dest st reads :
  files st !! dest = None ->
  response_reads W link = Ok reads ->
  (_download W (link, dest);; _download W (link, dest)) st
  = (Ok tt, mkState (<[dest := written reads]> (files st))
              (network st ++ [UrlOpen link])
              (stdout st ++ ["Skipping " +:+ dest])).
Proof.
  intros Hnone Hreads. unfold bind.
  rewrite (download_fresh link dest st reads Hnone Hreads).
  rewrite (download_present link dest _ (written reads))
    by apply lookup_insert_eq.
  reflexivity.
Qed.

(** X5. When the request of a download fails, the exception goes to the
    caller and no file is created at the local path: the file is opened only
    after the response is. *)
Theorem download_failure_creates_no_file link dest st e :
  files st !! dest = None ->
  response_reads W link = Raise e ->
  _download W (link, dest) st = (Raise e, sent st [UrlOpen link])
  /\ files (sent st [UrlOpen link]) !! dest = None.
Proof.
  intros Hnone Hreads. split; [|exact Hnone].
  unfold _download, bind, os_path_exists. cbn [fst snd].
  rewrite Hnone. rewrite bool_decide_eq_false_2 by (intros [? ?]; discriminate).
  unfold send, lift. now rewrite Hreads.
Qed.

Lemma download_all_present (qs : list (string * string)) st :
  Forall (fun q => is_Some (files st !! snd q)) qs ->
  download_all W qs st
  = (Ok tt, printed st (map (fun q => "Skipping " +:+ snd q) qs)).
Proof.
  revert st. induction qs as [|[link dest] qs IH]; intros st Hall.
  - unfold printed. cbn [download_all map]. unfold ret.
    rewrite app_nil_r. now destruct st.
  - inversion Hall as [|q qs' [content Hc] Hrest]; subst.
    cbn [download_all snd] in *. unfold bind.
    rewrite (download_present link dest st content Hc).
    rewrite IH by exact Hrest.
    unfold printed. cbn [files network stdout map snd].
    now rewrite <- app_assoc.
Qed.

(** X6. When every local path of a list of tasks exists, the second phase of
    [download] sends no request and changes no file: it prints one skip line
    per task, in the order of the tasks. *)
Theorem download_all_existing_is_all_skips (qs : list (string * string)) st :
  Forall (fun q => is_Some (files st !! snd q)) qs ->
  download_all W qs st
  = (Ok tt, printed st (map (fun q => "Skipping " +:+ snd q) qs)).
Proof. apply download_all_present. Qed.

(** X7. The tasks are not isolated from one another: when one download
    raises, the tasks after it are not run and the exception ends the
    second phase in the state of the failure. *)
Theorem download_all_stops_at_first_failure
    (before after : list (string * string)) (q : string * string)
    (st st1 st2 : state) (e : exn) :
  download_all W before st = (Ok tt, st1) ->
  _download W q st1 = (Raise e, st2) ->
  download_all W (before ++ q :: after) st = (Raise e, st2).
Proof.
  intros Hb Hq. rewrite download_all_app, Hb.
  cbn [download_all]. unfold bind. now rewrite Hq.
Qed.

End DownloadFacts.

Section SelectionFacts.

Variable W : World.
Variable sd : list (string * pyobj) -> M unit.

Lemma select_days_effects s e bbox days acc st :
  exists visited rest,
    days = (visited ++ rest)%list
    /\ listed st visited (snd (select_days W sd s e bbox days acc st))
    /\ (forall links, fst (select_days W sd s e bbox days acc st) = Ok links ->
                      rest = []).
Proof.
  revert acc st. induction days as [|d days IH]; intros acc st.
  - exists [], []. repeat split. cbn. now rewrite app_nil_r.
  - rewrite select_days_cons.
    pose proof (retrieve_links_listed W d st) as (Hf & Ho & Hn).
    destruct (retrieve_links W d st) as [[hs|x] st1]; cbn [snd] in Hf, Ho, Hn.
    + pose proof (select_files_keeps_state W sd s e bbox d hs acc st1) as Hs.
      destruct (select_files W sd s e bbox d hs acc st1) as [[l|x] st2];
        cbn [snd] in Hs; subst st2.
      * destruct (IH l st1) as (visited & rest & -> & (Hf' & Ho' & Hn') & Hrest).
        exists (d :: visited), rest. split; [reflexivity|]. split; [|exact Hrest].
        repeat split; [congruence | congruence |].
        rewrite Hn', Hn. cbn [map]. now rewrite <- app_assoc.
      * exists [d], days. split; [reflexivity|]. split; [|discriminate].
        repeat split; assumption.
    + exists [d], days. split; [reflexivity|]. split; [|discriminate].
      repeat split; assumption.
Qed.

(** X8. The selection phase of [download] reads only: whatever it returns
    or raises, it writes no file and prints nothing, and the requests it
    sends are listing requests for the day pages, in order and without a
    gap, from the first one on; for all of them when it returns. *)
Theorem selection_only_lists_day_pages s e bbox days acc st :
  exists visited rest,
    days = (visited ++ rest)%list
    /\ files (snd (select_days W sd s e bbox days acc st)) = files st
    /\ stdout (snd (select_days W sd s e bbox days acc st)) = stdout st
    /\ network (snd (select_days W sd s e bbox days acc st))
       = (network st ++ map HttpGet visited)%list
    /\ (forall links, fst (select_days W sd s e bbox days acc st) = Ok links ->
                      visited = days).
Proof.
  destruct (select_days_effects s e bbox days acc st)
    as (visited & rest & Hd & (Hf & Ho & Hn) & Hrest).
  exists visited, rest. repeat split; try assumption.
  intros links Hok. rewrite (Hrest links Hok) in Hd.
  now rewrite app_nil_r in Hd.
Qed.

(** X9. A bounding box with fewer than four numbers makes the spatial test
    raise [IndexError] before the metadata is looked at: no request, no
    write. *)
Theorem overlaps_short_bbox_raises (bbox : list Q) (xml_url : string) st :
  (length bbox < 4)%nat ->
  _overlaps_bbox W sd bbox xml_url st = (Raise IndexError, st).
Proof.
  intros Hlen. unfold _overlaps_bbox, bind, lift, getitem_bbox.
  destruct bbox as [|a [|b [|c [|d bbox]]]]; try reflexivity.
  cbn [length] in Hlen. lia.
Qed.

(** X10. A cached document that cannot be used stops the parse with the
    state untouched: the error of the XML parser is passed on as it is, and
    a document without a [BoundingRectangle] element raises
    [AttributeError]. *)
Theorem parse_bbox_of_unusable_document (xml_url content : string) st :
  files st !! Path.join (_XML_DIR W) (Path.basename xml_url) = Some content ->
  (forall e, ET_fromstring W content = Raise e ->
             _parse_bbox_from_xml W sd xml_url st = (Raise e, st))
  /\ (forall root, ET_fromstring W content = Ok root ->
                   ET.find_descendant "BoundingRectangle" root = None ->
                   _parse_bbox_from_xml W sd xml_url st
                   = (Raise AttributeError, st)).
Proof.
  intros Hfile. rewrite (parse_bbox_cached W sd xml_url st content Hfile).
  split.
  - intros e ->. reflexivity.
  - intros root -> Hnone. cbn [result_bind]. unfold bbox_of_root.
    now rewrite Hnone.
Qed.

(** X11. An anchor without [href] on a day page, the first or a later one,
    ends the run when the pass reaches it: the link is [None], the pattern
    match on it raises [TypeError], and [download] passes the exception on
    with nothing done but the listing requests of the day pages up to that
    one; no file is written. *)
Theorem download_stops_at_anchor_without_href
    (start_date end_date : datetime) (bbox : list Q) (output_dir : string)
    (st : state) (days_before : list string) (day : string)
    (days_after : list string) (links0 : list string) (st1 : state)
    (before after : list (option string)) (links : list string) (st2 : state) :
  _create_day_urls W start_date end_date
  = Ok (days_before ++ day :: days_after)%list ->
  select_days W (download_frame W recursion_limit) start_date end_date bbox
    days_before [] st = (Ok links0, st1) ->
  page_links W day = Ok (before ++ None :: after)%list ->
  select_files W (download_frame W recursion_limit) start_date end_date bbox
    day before links0 (sent st1 [HttpGet day]) = (Ok links, st2) ->
  download W start_date end_date bbox output_dir st
  = (Raise TypeError, sent st (map HttpGet (days_before ++ [day])))
  /\ files (sent st (map HttpGet (days_before ++ [day]))) = files st.
Proof.
  intros Hdays Hdays_before Hpage Hbefore. split; [|reflexivity].
  destruct (select_days_ok_listed W _ _ _ _ _ _ _ _ _ Hdays_before)
    as (Hf & Ho & Hn).
  pose proof (select_files_keeps_state W (download_frame W recursion_limit)
                start_date end_date bbox day before links0
                (sent st1 [HttpGet day])) as Hst.
  rewrite Hbefore in Hst. cbn [snd] in Hst. subst st2.
  unfold download, download_method, bind at 1, lift at 1. rewrite Hdays.
  unfold bind at 1. rewrite select_days_app, Hdays_before, select_days_cons.
  unfold retrieve_links, bind at 1, send, lift. rewrite Hpage.
  fold (sent st1 [HttpGet day]).
  rewrite select_files_app, Hbefore, select_files_cons.
  cbn [urljoin _parse_datetime_from_file_name re_match result_bind].
  unfold sent. cbn [files network stdout].
  rewrite map_app, app_assoc, <- Hn, Hf, Ho. reflexivity.
Qed.

End SelectionFacts.

Module ParseFacts.

#[local] Arguments String.append !s1 s2 : simpl nomatch.

Lemma datetime_new_valid (y m d h mi s : Z) (t : datetime) :
  Datetime.datetime_new y m d h mi s = Ok t ->
  Datetime.valid t = true /\ Datetime.microsecond t = 0.
Proof.
  unfold Datetime.datetime_new.
  destruct (_ && _) eqn:E; [|discriminate].
  intros [= <-]. split; [exact E | reflexivity].
Qed.

Lemma int_acc_snoc (a : Z) (s : string) (c : ascii) :
  int_acc a (s +:+ String c "") = 10 * int_acc a s + digit_value c.
Proof.
  revert a. induction s as [|x s IH]; intros a; [reflexivity|].
  cbn [String.append int_acc]. apply IH.
Qed.

Lemma digits_snoc (n : nat) (s : string) :
  digitsb (S n) s = true ->
  exists s' c, s = s' +:+ String c "" /\ digitsb n s' = true /\ is_digit c = true.
Proof.
  revert s. induction n as [|n IH]; intros [|x s] H; try discriminate H.
  - rewrite ReFacts.digitsb_cons in H. apply andb_true_iff in H as [Hx Hs].
    destruct s; [|discriminate Hs]. now exists "", x.
  - rewrite ReFacts.digitsb_cons in H. apply andb_true_iff in H as [Hx Hs].
    destruct (IH s Hs) as (s' & c & -> & Hs' & Hc).
    exists (String x s'), c. repeat split; [|exact Hc].
    now rewrite ReFacts.digitsb_cons, Hx, Hs'.
Qed.

Lemma digit_char_of_digit (c : ascii) (a : Z) :
  is_digit c = true -> Datetime.digit_char (10 * a + digit_value c) = c.
Proof.
  intros Hc. unfold Datetime.digit_char.
  assert (Hv : 0 <= digit_value c < 10).
  { unfold is_digit in Hc. apply andb_true_iff in Hc as [H1 H2].
    apply Nat.leb_le in H1, H2. unfold digit_value. lia. }
  replace ((10 * a + digit_value c) mod 10) with (digit_value c)
    by (rewrite Z.add_comm, Z.mul_comm, Z.mod_add by lia;
        now rewrite Z.mod_small).
  unfold digit_value in *.
  replace (48 + Z.to_nat (Z.of_nat (nat_of_ascii c) - 48))%nat
    with (nat_of_ascii c) by lia.
  apply ascii_nat_embedding.
Qed.

Lemma zero_padded_int (n : nat) (s : string) :
  digitsb n s = true -> Datetime.zero_padded n (int s) = s.
Proof.
  revert s. induction n as [|n IH]; intros s H.
  - destruct s; [reflexivity | discriminate H].
  - destruct (digits_snoc n s H) as (s' & c & -> & Hs' & Hc).
    unfold int. rewrite int_acc_snoc. fold (int s').
    cbn [Datetime.zero_padded].
    rewrite (digit_char_of_digit c (int s') Hc).
    replace ((10 * int s' + digit_value c) / 10) with (int s').
    + now rewrite (IH s' Hs').
    + unfold is_digit in Hc. apply andb_true_iff in Hc as [H1 H2].
      apply Nat.leb_le in H1, H2.
      assert (0 <= digit_value c < 10) by (unfold digit_value; lia).
      symmetry. rewrite Z.add_comm, Z.mul_comm, Z.div_add by lia.
      now rewrite Z.div_small.
Qed.

End ParseFacts.

(** X12. Every timestamp the filename parser returns, on any string, is a
    datetime whose fields are all in range (a real date and time of day),
    with microsecond 0. *)
Theorem parsed_timestamps_are_valid (s : string) (t : datetime) :
  _parse_datetime_from_file_name (Some s) = Ok (Some t) ->
  Datetime.valid t = true /\ Datetime.microsecond t = 0.
Proof.
  unfold _parse_datetime_from_file_name, re_match. cbn [result_bind].
  destruct (match_here _file_re s []) as [[[m rest] g]|]; [|discriminate].
  repeat match goal with
         | |- (let? _ := getitem ?g ?k in _) = _ -> _ =>
             destruct (getitem g k); cbn [result_bind]; [|discriminate]
         end.
  destruct (Datetime.datetime_new _ _ _ _ _ _) as [t'|] eqn:E;
    cbn [result_bind]; [|discriminate].
  intros [= <-]. exact (ParseFacts.datetime_new_valid _ _ _ _ _ _ _ E).
Qed.

Module DayLoopFacts.

Import Datetime.

Lemma le_of_date_and_time (t e : datetime) :
  lex_le (date_key t) (date_key e) -> lex_le (time_key t) (time_key e) ->
  Datetime.le t e = true.
Proof.
  intros Hd Ht. apply datetime_le_iff.
  unfold dt_le, key, date_key, time_key in *. cbn [lex_le] in *. lia.
Qed.

Lemma gt_of_later_date (t e : datetime) :
  ~ lex_le (date_key t) (date_key e) -> lex_le (time_key t) (time_key e) ->
  Datetime.le t e = false.
Proof.
  intros Hd Ht. destruct (Datetime.le t e) eqn:E; [|reflexivity].
  apply datetime_le_iff in E.
  unfold dt_le, key, date_key, time_key in *. cbn [lex_le] in *. lia.
Qed.

Lemma date_le_of_le (t e : datetime) :
  Datetime.le t e = true -> lex_le (date_key t) (date_key e).
Proof.
  intros E. apply datetime_le_iff in E.
  unfold dt_le, key, date_key in *. cbn [lex_le] in *. lia.
Qed.

Lemma add_one_day_time (t t' : datetime) :
  add_one_day t = Ok t' -> time_key t' = time_key t.
Proof.
  unfold add_one_day.
  repeat match goal with
         | |- (if ?c then _ else _) = _ -> _ => destruct c
         end; try discriminate; now intros [= <-].
Qed.

Lemma add_one_day_later_date (t t' : datetime) :
  valid t = true -> add_one_day t = Ok t' ->
  ~ lex_le (date_key t') (date_key t).
Proof.
  intros Hv Hadd. apply DatetimeFacts.valid_fields in Hv.
  pose proof (DatetimeFacts.days_in_month_bounds (year t) (month t)).
  unfold add_one_day, MAXYEAR in Hadd.
  destruct (Z.ltb_spec (day t) (days_in_month (year t) (month t))).
  { injection Hadd as <-. unfold date_key. cbn [lex_le year month day]. lia. }
  destruct (Z.ltb_spec (month t) 12).
  { injection Hadd as <-. unfold date_key. cbn [lex_le year month day]. lia. }
  destruct (Z.ltb_spec (year t) 9999); [|discriminate].
  injection Hadd as <-. unfold date_key. cbn [lex_le year month day]. lia.
Qed.

Lemma add_one_day_next_date (t t' e : datetime) :
  valid t = true -> valid e = true ->
  lex_le (date_key t) (date_key e) -> date_key t <> date_key e ->
  add_one_day t = Ok t' -> lex_le (date_key t') (date_key e).
Proof.
  intros Hv He Hle Hne Hadd.
  apply DatetimeFacts.valid_fields in Hv, He.
  unfold date_key in *. cbn [lex_le] in Hle.
  assert (Hcases : year t < year e
                   \/ (year t = year e /\ month t < month e)
                   \/ (year t = year e /\ month t = month e /\ day t < day e)).
  { destruct (Z.eq_dec (year t) (year e)) as [Ey|]; [|lia].
    destruct (Z.eq_dec (month t) (month e)) as [Em|]; [|lia].
    destruct (Z.eq_dec (day t) (day e)) as [Ed|]; [|lia].
    exfalso. apply Hne. now rewrite Ey, Em, Ed. }
  unfold add_one_day, MAXYEAR in Hadd.
  destruct (Z.ltb_spec (day t) (days_in_month (year t) (month t))) as [Hd|Hd].
  { injection Hadd as <-. cbn [lex_le year month day]. lia. }
  destruct (Z.ltb_spec (month t) 12) as [Hm|Hm].
  { injection Hadd as <-. cbn [lex_le year month day].
    destruct Hcases as [?|[[? ?]|(Ey & Em & ?)]]; [lia | lia |].
    rewrite Ey, Em in Hd. lia. }
  destruct (Z.ltb_spec (year t) 9999); [|discriminate].
  injection Hadd as <-. cbn [lex_le year month day].
  destruct Hcases as [?|[[? ?]|(Ey & Em & ?)]]; [lia | lia |].
  rewrite Ey, Em in Hd. lia.
Qed.

Lemma add_one_day_overflow (t : datetime) (x : exn) :
  valid t = true -> add_one_day t = Raise x ->
  x = OverflowError /\ is_last_date t = true.
Proof.
  intros Hv Hadd. apply DatetimeFacts.valid_fields in Hv.
  unfold add_one_day, MAXYEAR in Hadd.
  destruct (Z.ltb_spec (day t) (days_in_month (year t) (month t))) as [Hd|Hd];
    [discriminate|].
  destruct (Z.ltb_spec (month t) 12) as [Hm|Hm]; [discriminate|].
  destruct (Z.ltb_spec (year t) 9999) as [Hy|Hy]; [discriminate|].
  injection Hadd as <-. split; [reflexivity|].
  assert (Ey : year t = 9999) by lia. assert (Em : month t = 12) by lia.
  rewrite Ey, Em in Hd. change (days_in_month 9999 12) with 31 in Hd.
  rewrite Ey, Em in Hv. change (days_in_month 9999 12) with 31 in Hv.
  unfold is_last_date. rewrite !andb_true_iff, !Z.eqb_eq. lia.
Qed.

Lemma last_date_of_same_date (t e : datetime) :
  date_key t = date_key e -> is_last_date t = is_last_date e.
Proof. unfold date_key, is_last_date. now intros [= -> -> ->]. Qed.

Lemma day_url_of_same_date (t e : datetime) :
  date_key t = date_key e -> day_url_of_date t = day_url_of_date e.
Proof.
  unfold date_key, day_url_of_date, strftime_Y_m_d. now intros [= -> -> ->].
Qed.

Lemma date_key_dec (t e : datetime) :
  {date_key t = date_key e} + {date_key t <> date_key e}.
Proof. apply (Stdlib.Lists.List.list_eq_dec Z.eq_dec). Qed.

Lemma last_date_is_greatest (t e : datetime) :
  valid e = true -> is_last_date t = true ->
  lex_le (date_key t) (date_key e) -> date_key t = date_key e.
Proof.
  intros He Hl Hle. apply DatetimeFacts.valid_fields in He.
  unfold is_last_date in Hl. rewrite !andb_true_iff, !Z.eqb_eq in Hl.
  destruct Hl as [[Hy Hm] Hd].
  unfold date_key in *. cbn [lex_le] in Hle. rewrite Hy, Hm, Hd in *.
  assert (Ey : year e = 9999) by lia.
  assert (Em : month e = 12) by lia.
  rewrite Ey, Em in He. change (days_in_month 9999 12) with 31 in He.
  assert (Ed : day e = 31) by lia.
  now rewrite Ey, Em, Ed.
Qed.

End DayLoopFacts.

Section DayLoop.

Variable W : World.
Variable end_date : datetime.

Lemma day_urls_loop_shape (budget : nat) :
  forall (t : datetime) (acc urls : list string),
    day_urls_loop W budget t end_date acc = Some (Ok urls) ->
    exists n t',
      urls = (acc ++ map day_url_of_date (day_sequence n t))%list
      /\ length (day_sequence n t) = n
      /\ Forall (fun d => Datetime.le d end_date = true) (day_sequence n t)
      /\ days_later n t = Some t'
      /\ Datetime.le t' end_date = false.
Proof.
  induction budget as [|budget IH]; intros t acc urls H; [discriminate|].
  cbn [day_urls_loop] in H. rewrite UrlFacts.day_url_of in H.
  destruct (Datetime.le t end_date) eqn:Hle.
  - destruct (Datetime.add_one_day t) as [next|x] eqn:Hadd; [|discriminate].
    destruct (IH _ _ _ H) as (n & t' & -> & Hlen & Hall & Hlater & Hstop).
    exists (S n), t'. cbn [day_sequence days_later]. rewrite Hadd.
    cbn [map length]. rewrite Hlen.
    repeat split; try assumption.
    + now rewrite <- app_assoc.
    + constructor; assumption.
  - injection H as <-. exists O, t. cbn. rewrite app_nil_r. auto.
Qed.

Lemma day_urls_loop_reaches_end_date (Hend : Datetime.valid end_date = true)
    (budget : nat) :
  forall (t : datetime) (acc : list string),
    Datetime.valid t = true ->
    lex_le (time_key t) (time_key end_date) ->
    lex_le (date_key t) (date_key end_date) ->
    Z.max 0 (day_index end_date - day_index t + 1) < Z.of_nat budget ->
    if is_last_date end_date
    then day_urls_loop W budget t end_date acc = Some (Raise OverflowError)
    else exists n t_last,
        day_urls_loop W budget t end_date acc
        = Some (Ok (acc ++ map day_url_of_date (day_sequence (S n) t))%list)
        /\ length (day_sequence (S n) t) = S n
        /\ days_later n t = Some t_last
        /\ date_key t_last = date_key end_date.
Proof.
  induction budget as [|budget IH]; intros t acc Hv Htime Hdate Hb; [lia|].
  pose proof (DayLoopFacts.le_of_date_and_time t end_date Hdate Htime) as Hle.
  pose proof (DatetimeFacts.le_day_index t end_date Hv Hend Hle) as Hidx.
  cbn [day_urls_loop]. rewrite UrlFacts.day_url_of, Hle.
  fold (day_url_of_date t).
  destruct (DayLoopFacts.date_key_dec t end_date) as [Esame | Ediff].
  - (* the date of [end_date] is reached *)
    rewrite <- (DayLoopFacts.last_date_of_same_date t end_date Esame).
    destruct (Datetime.add_one_day t) as [next|x] eqn:Hadd.
    + assert (Hnl : is_last_date t = false).
      { destruct (is_last_date t) eqn:El; [|reflexivity].
        unfold is_last_date in El.
        rewrite !andb_true_iff, !Z.eqb_eq in El. destruct El as [[Ey Em] Ed].
        unfold Datetime.add_one_day, Datetime.MAXYEAR in Hadd.
        rewrite Ey, Em, Ed in Hadd.
        change (Datetime.days_in_month 9999 12) with 31 in Hadd.
        discriminate Hadd. }
      rewrite Hnl.
      assert (Hstop : Datetime.le next end_date = false).
      { apply DayLoopFacts.gt_of_later_date.
        - rewrite <- Esame.
          exact (DayLoopFacts.add_one_day_later_date t next Hv Hadd).
        - now rewrite (DayLoopFacts.add_one_day_time t next Hadd). }
      destruct budget as [|budget]; [unfold day_index in *; lia|].
      cbn [day_urls_loop]. rewrite Hstop.
      exists O, t. cbn [day_sequence days_later map length]. rewrite Hadd.
      repeat split. exact Esame.
    + destruct (DayLoopFacts.add_one_day_overflow t x Hv Hadd) as [-> ->].
      reflexivity.
  - (* an earlier date: one more day *)
    destruct (Datetime.add_one_day t) as [next|x] eqn:Hadd.
    + destruct (DatetimeFacts.add_one_day_advances t next Hv Hadd) as [Hv' Hlt].
      pose proof (DayLoopFacts.add_one_day_next_date t next end_date Hv Hend
                    Hdate Ediff Hadd) as Hdate'.
      assert (Htime' : lex_le (time_key next) (time_key end_date))
        by now rewrite (DayLoopFacts.add_one_day_time t next Hadd).
      specialize (IH next (acc ++ [day_url_of_date t])%list Hv' Htime' Hdate').
      destruct (is_last_date end_date).
      * apply IH. lia.
      * destruct IH as (n & t_last & -> & Hlen & Hlater & Hsame); [lia|].
        exists (S n), t_last.
        change (day_sequence (S (S n)) t)
          with (t :: match Datetime.add_one_day t with
                     | Ok t' => day_sequence (S n) t'
                     | Raise _ => []
                     end).
        rewrite Hadd. cbn [map length days_later]. rewrite Hadd, Hlen.
        repeat split; try assumption.
        now rewrite <- app_assoc.
    + exfalso.
      destruct (DayLoopFacts.add_one_day_overflow t x Hv Hadd) as [_ Hlast].
      apply Ediff.
      exact (DayLoopFacts.last_date_is_greatest t end_date Hend Hlast Hdate).
Qed.

End DayLoop.

(** X14. Whenever [_create_day_urls] returns, its list is the day URLs of
    [n] consecutive days that begin with the date of [start_date]; none of
    these days, taken at the time of day of [start_date], is later than
    [end_date], and the day after the last of them is. *)
Theorem create_day_urls_lists_consecutive_days
    (W : World) (start_date end_date : datetime) (urls : list string) :
  _create_day_urls W start_date end_date = Ok urls ->
  exists n t',
    urls = map day_url_of_date (day_sequence n start_date)
    /\ length urls = n
    /\ Forall (fun d => Datetime.le d end_date = true) (day_sequence n start_date)
    /\ days_later n start_date = Some t'
    /\ Datetime.le t' end_date = false.
Proof.
  unfold _create_day_urls.
  destruct (day_urls_loop W _ start_date end_date []) as [[l|x]|] eqn:E;
    try discriminate.
  intros [= <-].
  destruct (day_urls_loop_shape W end_date _ _ _ _ E)
    as (n & t' & -> & Hlen & Hall & Hlater & Hstop).
  exists n, t'. cbn [app]. rewrite length_map. auto.
Qed.

(** X15. When [start_date <= end_date] and the time of day of [start_date]
    is not later than that of [end_date], [_create_day_urls] covers the
    range: it returns the day URLs of the consecutive days from the date of
    [start_date] through the date of [end_date], both included, unless
    [end_date] falls on 9999-12-31, where the step past the last date makes
    it raise [OverflowError]. *)
Theorem create_day_urls_covers_the_range
    (W : World) (start_date end_date : datetime) :
  Datetime.valid start_date = true -> Datetime.valid end_date = true ->
  Datetime.le start_date end_date = true ->
  lex_le (time_key start_date) (time_key end_date) ->
  if is_last_date end_date
  then _create_day_urls W start_date end_date = Raise OverflowError
  else exists n t_last,
      _create_day_urls W start_date end_date
      = Ok (map day_url_of_date (day_sequence (S n) start_date))
      /\ length (day_sequence (S n) start_date) = S n
      /\ days_later n start_date = Some t_last
      /\ date_key t_last = date_key end_date.
Proof.
  intros Hs He Hle Htime.
  pose proof (day_urls_loop_reaches_end_date W end_date He
                (loop_budget start_date end_date) start_date [] Hs Htime
                (DayLoopFacts.date_le_of_le _ _ Hle)) as H.
  unfold _create_day_urls.
  destruct (is_last_date end_date).
  - rewrite H; [reflexivity | unfold loop_budget; lia].
  - destruct H as (n & t_last & -> & Hlen & Hlater & Hsame);
      [unfold loop_budget; lia|].
    exists n, t_last. auto.
Qed.

(** The range of one day: [_create_day_urls] from a datetime to itself
    returns the URL of its day page, 9999-12-31 apart. *)
Lemma create_day_urls_single_day (W : World) (t : datetime) :
  Datetime.valid t = true -> is_last_date t = false ->
  _create_day_urls W t t = Ok [day_url_of_date t].
Proof.
  intros Hv Hlast. unfold _create_day_urls, loop_budget.
  rewrite Z.sub_diag. change (S (Z.to_nat (0 + 1))) with 2%nat.
  assert (Hself : Datetime.le t t = true).
  { apply datetime_le_iff. unfold dt_le, Datetime.key. cbn [lex_le]. lia. }
  cbn [day_urls_loop]. rewrite Hself, UrlFacts.day_url_of.
  fold (day_url_of_date t).
  destruct (Datetime.add_one_day t) as [next|x] eqn:Hadd.
  - assert (Hstop : Datetime.le next t = false).
    { apply DayLoopFacts.gt_of_later_date.
      - exact (DayLoopFacts.add_one_day_later_date t next Hv Hadd).
      - rewrite (DayLoopFacts.add_one_day_time t next Hadd).
        unfold time_key. cbn [lex_le]. lia. }
    now rewrite Hstop.
  - destruct (DayLoopFacts.add_one_day_overflow t x Hv Hadd) as [_ E].
    congruence.
Qed.

(** X13. The date digits of a filename lead back to its day page: when a
    filename of the convention parses to a timestamp [t], other than on
    9999-12-31, [_create_day_urls] from [t] to [t] returns one URL, the base
    URL followed by the year of the name without its leading zeros, the MM
    and the DD of the name, dot-separated, and a slash. For a name whose
    year does not begin with 0 this is the base URL and its YYYY.MM.DD. *)
Theorem parsed_date_names_its_day_page
    (W : World) (f : FileNameFields) (tail : string) (t : datetime) :
  well_formed f = true -> tail = "" \/ tail = newline ->
  _parse_datetime_from_file_name (Some (file_name_of f +:+ tail)) = Ok (Some t) ->
  is_last_date t = false ->
  _create_day_urls W t t
  = Ok [_BASE_CLOUD_URL +:+ Datetime.strip_zeros (f_year f) +:+ "."
        +:+ f_month f +:+ "." +:+ f_day f +:+ "/"]
  /\ (forall c rest,
         f_year f = String c rest -> c <> "0"%char ->
         _create_day_urls W t t
         = Ok [_BASE_CLOUD_URL +:+ f_year f +:+ "." +:+ f_month f +:+ "."
               +:+ f_day f +:+ "/"]).
Proof.
  intros Hf Htail.
  rewrite (parse_datetime_of_accepted f tail Hf Htail).
  destruct (names_a_datetime f) eqn:Hnames; [|discriminate].
  intros [= <-] Hlast.
  apply ReFacts.well_formed_fields in Hf as (_ & _ & Hy & Hm & Hd & _).
  assert (E : _create_day_urls W (encoded_datetime f) (encoded_datetime f)
              = Ok [_BASE_CLOUD_URL +:+ Datetime.strip_zeros (f_year f) +:+ "."
                    +:+ f_month f +:+ "." +:+ f_day f +:+ "/"]).
  { rewrite (create_day_urls_single_day W (encoded_datetime f) Hnames Hlast).
    unfold day_url_of_date, Datetime.strftime_Y_m_d, encoded_datetime.
    cbn [Datetime.year Datetime.month Datetime.day].
    rewrite !ParseFacts.zero_padded_int by assumption.
    now rewrite !append_assoc. }
  split; [exact E|].
  intros c rest Eyear Hc. rewrite E, Eyear.
  replace (Datetime.strip_zeros (String c rest)) with (String c rest);
    [reflexivity|].
  destruct rest as [|c' rest]; [reflexivity|].
  cbn [Datetime.strip_zeros].
  destruct (Ascii.eqb_spec c "0"); [contradiction | reflexivity].
Qed.

Module PathFacts.

#[local] Arguments String.append !s1 s2 : simpl nomatch.

Lemma basename_from_free (name acc : string) :
  slash_free name = true -> Path.basename_from name acc = acc +:+ name.
Proof.
  revert acc. induction name as [|c name IH]; intros acc H.
  - cbn [Path.basename_from]. now rewrite append_empty_r.
  - unfold slash_free in H. cbn [list_ascii_of_string forallb] in H.
    apply andb_true_iff in H as [Hc Hrest].
    cbn [Path.basename_from]. destruct (Ascii.eqb c "/"); [discriminate Hc|].
    rewrite (IH _ Hrest), append_assoc. reflexivity.
Qed.

Lemma basename_from_after_slash (dir name acc : string) :
  slash_free name = true ->
  Path.basename_from (dir +:+ "/" +:+ name) acc = name.
Proof.
  intros H. revert acc. induction dir as [|c dir IH]; intros acc.
  - change (Path.basename_from name "" = name).
    now rewrite (basename_from_free name "" H).
  - change (Path.basename_from (String c dir +:+ "/" +:+ name) acc)
      with (if Ascii.eqb c "/"
            then Path.basename_from (dir +:+ "/" +:+ name) ""
            else Path.basename_from (dir +:+ "/" +:+ name) (acc +:+ String c "")).
    destruct (Ascii.eqb c "/"); apply IH.
Qed.

Lemma basename_after_slash (dir name : string) :
  slash_free name = true -> Path.basename (dir +:+ "/" +:+ name) = name.
Proof. apply basename_from_after_slash. Qed.

Lemma join_under_directory (out name : string) :
  Path.ends_with_slash out = true -> slash_free name = true ->
  Path.join out name = out +:+ name.
Proof.
  intros Hout Hname. unfold Path.join.
  assert (Hs : Path.starts_with_slash name = false).
  { destruct name as [|c name]; [reflexivity|].
    unfold slash_free in Hname. cbn [list_ascii_of_string forallb] in Hname.
    apply andb_true_iff in Hname as [Hc _]. cbn [Path.starts_with_slash].
    now destruct (Ascii.eqb c "/"). }
  rewrite Hs, Hout. now rewrite orb_true_r.
Qed.

End PathFacts.

(** X16. Every kept file is saved under its own name: for links that are a
    directory URL, a slash and a name without slash, the tasks of [download]
    pair each link with the output directory (given with its closing slash)
    followed by that name, one task per link, in the order of the links and
    with repeated links repeated. *)
Theorem file_requests_keep_the_file_names
    (output_dir dir : string) (names : list string) :
  Path.ends_with_slash output_dir = true ->
  Forall (fun name => slash_free name = true) names ->
  file_requests_of output_dir (map (fun name => dir +:+ "/" +:+ name) names)
  = map (fun name => (dir +:+ "/" +:+ name, output_dir +:+ name)) names.
Proof.
  intros Hout Hnames. unfold file_requests_of.
  induction Hnames as [|name names Hname _ IH]; [reflexivity|].
  cbn [map]. rewrite IH.
  rewrite (PathFacts.basename_after_slash dir name Hname).
  now rewrite (PathFacts.join_under_directory output_dir name Hout Hname).
Qed.

Section OverlapFacts.

Variable W : World.
Variable sd : list (string * pyobj) -> M unit.

Lemma bbox_of_root_rectangle (root rect : Element) (tw tn te ts : string)
    (west north east south : Q) :
  ET.find_descendant "BoundingRectangle" root = Some rect ->
  child_text rect "WestBoundingCoordinate" = Some tw -> float W tw = Ok west ->
  child_text rect "NorthBoundingCoordinate" = Some tn -> float W tn = Ok north ->
  child_text rect "EastBoundingCoordinate" = Some te -> float W te = Ok east ->
  child_text rect "SouthBoundingCoordinate" = Some ts -> float W ts = Ok south ->
  bbox_of_root W root = Ok (rectangle west north east south).
Proof.
  intros Hrect Hw Fw Hn Fn He Fe Hs Fs. unfold bbox_of_root. rewrite Hrect.
  assert (Hfloat : forall name txt x,
             child_text rect name = Some txt -> float W txt = Ok x ->
             float_of_text W (Some rect) name = Ok x).
  { intros name txt x Hc Hf. unfold float_of_text. unfold child_text in Hc.
    destruct (ET.find_child name rect) as [c|]; [|discriminate].
    now rewrite Hc. }
  rewrite (Hfloat _ _ _ Hw Fw), (Hfloat _ _ _ Hn Fn),
          (Hfloat _ _ _ He Fe), (Hfloat _ _ _ Hs Fs).
  reflexivity.
Qed.

Lemma rectangles_intersect_iff (w n e s w' n' e' s' : Q) :
  (w <= e)%Q -> (s <= n)%Q -> (w' <= e')%Q -> (s' <= n')%Q ->
  Shapely.intersects (rectangle w n e s) (rectangle w' n' e' s') = true
  <-> (w <= e' /\ w' <= e /\ s <= n' /\ s' <= n)%Q.
Proof.
  intros Hwe Hsn Hwe' Hsn'. split.
  - intros H. apply ShapelyFacts.shared_point_of_intersects in H
      as (x & y & Ha & Hb).
    apply (ShapelyFacts.in_region_rectangle w n e s x y Hwe Hsn) in Ha.
    apply (ShapelyFacts.in_region_rectangle w' n' e' s' x y Hwe' Hsn') in Hb.
    destruct Ha as (? & ? & ? & ?), Hb as (? & ? & ? & ?).
    repeat split; eauto using Qle_trans.
  - intros (H1 & H2 & H3 & H4).
    apply (ShapelyFacts.intersects_of_shared_point _ _
             (Shapely.Qmax_b w w') (Shapely.Qmax_b s s')).
    + apply (ShapelyFacts.in_region_rectangle w n e s _ _ Hwe Hsn).
      destruct (ShapelyFacts.Qmax_b_spec w w') as [[? ?] _],
               (ShapelyFacts.Qmax_b_spec s s') as [[? ?] _].
      repeat split; try assumption;
        apply ShapelyFacts.Qmax_b_lub; assumption.
    + apply (ShapelyFacts.in_region_rectangle w' n' e' s' _ _ Hwe' Hsn').
      destruct (ShapelyFacts.Qmax_b_spec w w') as [[? ?] _],
               (ShapelyFacts.Qmax_b_spec s s') as [[? ?] _].
      repeat split; try assumption;
        apply ShapelyFacts.Qmax_b_lub; assumption.
Qed.

(** X17. With the metadata document in the cache, [_overlaps_bbox] reads
    the target as [min_lon, min_lat, max_lon, max_lat] and answers without
    touching the state: for boxes given with west <= east and south <=
    north it answers true exactly when the two boxes overlap on both axes,
    bounds included (under the closed-region reading of [intersects]). *)
Theorem overlaps_bbox_compares_the_sides
    (xml_url content : string) (st : state) (root rect : Element)
    (tw tn te ts : string) (west north east south : Q)
    (min_lon min_lat max_lon max_lat : Q) :
  files st !! Path.join (_XML_DIR W) (Path.basename xml_url) = Some content ->
  ET_fromstring W content = Ok root ->
  ET.find_descendant "BoundingRectangle" root = Some rect ->
  child_text rect "WestBoundingCoordinate" = Some tw -> float W tw = Ok west ->
  child_text rect "NorthBoundingCoordinate" = Some tn -> float W tn = Ok north ->
  child_text rect "EastBoundingCoordinate" = Some te -> float W te = Ok east ->
  child_text rect "SouthBoundingCoordinate" = Some ts -> float W ts = Ok south ->
  (west <= east)%Q -> (south <= north)%Q ->
  (min_lon <= max_lon)%Q -> (min_lat <= max_lat)%Q ->
  exists b,
    _overlaps_bbox W sd [min_lon; min_lat; max_lon; max_lat] xml_url st
    = (Ok b, st)
    /\ (b = true <-> (west <= max_lon /\ min_lon <= east
                      /\ south <= max_lat /\ min_lat <= north)%Q).
Proof.
  intros Hfile Hroot Hrect Hw Fw Hn Fn He Fe Hs Fs Hwe Hsn Hlon Hlat.
  exists (Shapely.intersects (rectangle west north east south)
            (rectangle min_lon max_lat max_lon min_lat)).
  split.
  - unfold _overlaps_bbox, bind, lift, getitem_bbox. cbn [nth_error].
    rewrite (parse_bbox_cached W sd xml_url st content Hfile), Hroot.
    cbn [result_bind].
    rewrite (bbox_of_root_rectangle root rect tw tn te ts west north east south
               Hrect Hw Fw Hn Fn He Fe Hs Fs).
    reflexivity.
  - apply rectangles_intersect_iff; assumption.
Qed.

(** X18. A listing request that fails ends the run: [download] passes the
    exception on after that request, with no candidate of that day or of a
    later day examined and no file written. *)
Theorem download_stops_at_failed_listing
    (start_date end_date : datetime) (bbox : list Q) (output_dir : string)
    (st : state) (before : list string) (day : string) (after : list string)
    (links : list string) (st1 : state) (e : exn) :
  _create_day_urls W start_date end_date = Ok (before ++ day :: after)%list ->
  select_days W (download_frame W recursion_limit) start_date end_date bbox
    before [] st = (Ok links, st1) ->
  page_links W day = Raise e ->
  download W start_date end_date bbox output_dir st
  = (Raise e, sent st (map HttpGet (before ++ [day])))
  /\ files (sent st (map HttpGet (before ++ [day]))) = files st.
Proof.
  intros Hdays Hbefore Hpage. split; [|reflexivity].
  destruct (select_days_ok_listed W _ _ _ _ _ _ _ _ _ Hbefore)
    as (Hf & Ho & Hn).
  unfold download, download_method, bind at 1, lift at 1. rewrite Hdays.
  unfold bind at 1. rewrite select_days_app, Hbefore, select_days_cons.
  unfold retrieve_links, bind, send, lift. rewrite Hpage.
  unfold sent. rewrite map_app, app_assoc, <- Hn, Hf, Ho. reflexivity.
Qed.

(** X19. The spatial test never fetches and never writes: whatever the
    target box and the URL, [_overlaps_bbox] leaves the files, the requests
    and the output as they were, whether it answers or raises. *)
Theorem overlaps_bbox_changes_nothing (bbox : list Q) (xml_url : string) st :
  snd (_overlaps_bbox W sd bbox xml_url st) = st.
Proof. apply overlaps_keeps_state. Qed.

(** X20. A run over files that are all there already downloads nothing:
    when the selection returns and every local path of its tasks exists,
    [download] returns normally, its only requests are the listings of the
    day pages, no file changes, and one skip line per task is printed. *)
Theorem download_rerun_only_lists
    (start_date end_date : datetime) (bbox : list Q) (output_dir : string)
    (st : state) (days links : list string) (st1 : state) :
  _create_day_urls W start_date end_date = Ok days ->
  select_days W (download_frame W recursion_limit) start_date end_date bbox
    days [] st = (Ok links, st1) ->
  Forall (fun q => is_Some (files st !! snd q))
    (file_requests_of output_dir links) ->
  download W start_date end_date bbox output_dir st
  = (Ok tt,
     printed (sent st (map HttpGet days))
       (map (fun q => "Skipping " +:+ snd q) (file_requests_of output_dir links))).
Proof.
  intros Hdays Hsel Hall.
  destruct (select_days_ok_listed W _ _ _ _ _ _ _ _ _ Hsel) as (Hf & Ho & Hn).
  unfold download, download_method, bind at 1, lift at 1. rewrite Hdays.
  unfold bind at 1. rewrite Hsel.
  rewrite (download_all_present W (file_requests_of output_dir links) st1)
    by now rewrite Hf.
  unfold printed, sent. cbn [files network stdout]. now rewrite Hf, Ho, Hn.
Qed.

End OverlapFacts.

(** * The further properties at concrete data *)

Module ExtraWitnesses.

Import Fixtures MoreFixtures.

Lemma download_until_empty_witness :
  snd (_download odd_archive ("https://example.com/a.h5", "/out/a.h5") empty_disk)
  = mkState (<["/out/a.h5" := written [""; "never read"]]> (files empty_disk))
      (network empty_disk ++ [UrlOpen "https://example.com/a.h5"])
      (stdout empty_disk)
  /\ written [""; "never read"] = ""
  /\ written ["data_chunk1"; "data_chunk2"] = "data_chunk1data_chunk2".
Proof.
  assert (Hfree : files empty_disk !! "/out/a.h5" = None)
    by (vm_compute; reflexivity).
  assert (Hrun : _download odd_archive ("https://example.com/a.h5", "/out/a.h5")
                   empty_disk
                 = (Ok tt, snd (_download odd_archive
                                  ("https://example.com/a.h5", "/out/a.h5")
                                  empty_disk)))
    by (vm_compute; reflexivity).
  split; [|split; reflexivity].
  exact (download_writes_until_first_empty_read odd_archive
           "https://example.com/a.h5" "/out/a.h5" empty_disk
           [""; "never read"] _ Hfree eq_refl Hrun).
Defined.

Lemma download_again_witness :
  (_download world ("https://example.com/a.h5", "/out/a.h5");;
   _download world ("https://example.com/a.h5", "/out/a.h5")) empty_disk
  = (Ok tt, mkState (<["/out/a.h5" := "data_chunk1data_chunk2"]> ∅)
              [UrlOpen "https://example.com/a.h5"]
              ["Skipping /out/a.h5"]).
Proof.
  assert (Hfree : files empty_disk !! "/out/a.h5" = None)
    by (vm_compute; reflexivity).
  exact (download_again_is_skipped world "https://example.com/a.h5"
           "/out/a.h5" empty_disk ["data_chunk1"; "data_chunk2"; ""]
           Hfree eq_refl).
Defined.

Lemma download_failure_witness :
  _download offline ("https://example.com/a.h5", "/out/a.h5") empty_disk
  = (Raise (LibraryError "URLError"),
     sent empty_disk [UrlOpen "https://example.com/a.h5"])
  /\ files (sent empty_disk [UrlOpen "https://example.com/a.h5"]) !! "/out/a.h5"
     = None.
Proof.
  assert (Hfree : files empty_disk !! "/out/a.h5" = None)
    by (vm_compute; reflexivity).
  exact (download_failure_creates_no_file offline "https://example.com/a.h5"
           "/out/a.h5" empty_disk (LibraryError "URLError") Hfree eq_refl).
Defined.

Lemma download_all_existing_witness :
  download_all world [("https://x/a.h5", "/out/a.h5"); ("https://x/b.h5", "/out/b.h5")]
    two_files
  = (Ok tt, printed two_files ["Skipping /out/a.h5"; "Skipping /out/b.h5"]).
Proof.
  assert (H : Forall (fun q => is_Some (files two_files !! snd q))
                [("https://x/a.h5", "/out/a.h5"); ("https://x/b.h5", "/out/b.h5")]).
  { repeat constructor; cbn [snd]; [exists "A" | exists "B"];
      vm_compute; reflexivity. }
  exact (download_all_existing_is_all_skips world _ two_files H).
Defined.

Lemma download_all_failure_witness :
  download_all offline
    ([] ++ ("https://x/a.h5", "/out/a.h5") :: [("https://x/b.h5", "/out/b.h5")])
    empty_disk
  = (Raise (LibraryError "URLError"), sent empty_disk [UrlOpen "https://x/a.h5"]).
Proof.
  apply (download_all_stops_at_first_failure offline []
           [("https://x/b.h5", "/out/b.h5")] ("https://x/a.h5", "/out/a.h5")
           empty_disk empty_disk);
    vm_compute; reflexivity.
Defined.

Lemma overlaps_short_bbox_witness :
  _overlaps_bbox world (fun _ => ret tt) [-120; 35; -118]%Q xml_url cached_disk
  = (Raise IndexError, cached_disk).
Proof.
  apply (overlaps_short_bbox_raises world (fun _ => ret tt)
           [-120; 35; -118]%Q xml_url cached_disk).
  cbn [length]. lia.
Defined.

Lemma parse_bbox_unusable_witness :
  _parse_bbox_from_xml odd_archive (fun _ => ret tt) xml_url garbled_disk
  = (Raise (LibraryError "ParseError"), garbled_disk)
  /\ _parse_bbox_from_xml odd_archive (fun _ => ret tt) xml_url bare_disk
     = (Raise AttributeError, bare_disk).
Proof.
  assert (Hg : files garbled_disk
               !! Path.join (_XML_DIR odd_archive) (Path.basename xml_url)
               = Some "<Granule") by (vm_compute; reflexivity).
  assert (Hb : files bare_disk
               !! Path.join (_XML_DIR odd_archive) (Path.basename xml_url)
               = Some "<GranuleMetaDataFile/>") by (vm_compute; reflexivity).
  split.
  - exact (proj1 (parse_bbox_of_unusable_document odd_archive (fun _ => ret tt)
                    xml_url "<Granule" garbled_disk Hg)
             (LibraryError "ParseError") eq_refl).
  - exact (proj2 (parse_bbox_of_unusable_document odd_archive (fun _ => ret tt)
                    xml_url "<GranuleMetaDataFile/>" bare_disk Hb)
             bare_document eq_refl eq_refl).
Defined.

Lemma download_anchor_without_href_witness :
  (download odd_archive start_date end_date bbox "/output/dir/" empty_disk
   = (Raise TypeError, sent empty_disk (map HttpGet ([] ++ [day_2022_01_05])))
   /\ files (sent empty_disk (map HttpGet ([] ++ [day_2022_01_05])))
      = files empty_disk)
  /\ (download late_anchor_archive start_date end_date bbox "/output/dir/"
        empty_disk
      = (Raise TypeError,
         sent empty_disk (map HttpGet ([day_2022_01_05] ++ [day_2022_01_06])))
      /\ files (sent empty_disk
                  (map HttpGet ([day_2022_01_05] ++ [day_2022_01_06])))
         = files empty_disk).
Proof.
  split.
  - apply (download_stops_at_anchor_without_href odd_archive start_date
             end_date bbox "/output/dir/" empty_disk
             [] day_2022_01_05 [day_2022_01_06] [] empty_disk
             [Some file_19843] [Some file_19850] []
             (sent empty_disk [HttpGet day_2022_01_05]));
      vm_compute; reflexivity.
  - apply (download_stops_at_anchor_without_href late_anchor_archive start_date
             end_date bbox "/output/dir/" empty_disk
             [day_2022_01_05] day_2022_01_06 []
             [] (sent empty_disk [HttpGet day_2022_01_05])
             [Some file_19872] [Some file_19858] []
             (sent (sent empty_disk [HttpGet day_2022_01_05])
                [HttpGet day_2022_01_06]));
      vm_compute; reflexivity.
Defined.

Lemma parsed_timestamps_valid_witness :
  Datetime.valid (Datetime.mk 2022 1 5 1 34 9 0) = true
  /\ Datetime.microsecond (Datetime.mk 2022 1 5 1 34 9 0) = 0.
Proof.
  assert (H : _parse_datetime_from_file_name (Some file_19843)
              = Ok (Some (Datetime.mk 2022 1 5 1 34 9 0)))
    by (vm_compute; reflexivity).
  exact (parsed_timestamps_are_valid file_19843 _ H).
Defined.

Lemma parsed_date_day_page_witness :
  (_create_day_urls world (Datetime.mk 2022 1 5 1 34 9 0)
     (Datetime.mk 2022 1 5 1 34 9 0)
   = Ok [_BASE_CLOUD_URL +:+ "2022" +:+ "." +:+ "01" +:+ "." +:+ "05" +:+ "/"])
  /\ (_create_day_urls world (Datetime.mk 999 1 5 1 34 9 0)
        (Datetime.mk 999 1 5 1 34 9 0)
      = Ok [_BASE_CLOUD_URL +:+ "999" +:+ "." +:+ "01" +:+ "." +:+ "05" +:+ "/"]).
Proof.
  assert (H : _parse_datetime_from_file_name
                (Some (file_name_of fields_19843 +:+ ""))
              = Ok (Some (Datetime.mk 2022 1 5 1 34 9 0)))
    by (vm_compute; reflexivity).
  assert (H' : _parse_datetime_from_file_name
                 (Some (file_name_of fields_year_999 +:+ ""))
               = Ok (Some (Datetime.mk 999 1 5 1 34 9 0)))
    by (vm_compute; reflexivity).
  split.
  - exact (proj2 (parsed_date_names_its_day_page world fields_19843 ""
                    (Datetime.mk 2022 1 5 1 34 9 0) eq_refl (or_introl eq_refl)
                    H eq_refl)
             "2"%char "022" eq_refl ltac:(discriminate)).
  - exact (proj1 (parsed_date_names_its_day_page world fields_year_999 ""
                    (Datetime.mk 999 1 5 1 34 9 0) eq_refl (or_introl eq_refl)
                    H' eq_refl)).
Defined.

Lemma create_day_urls_consecutive_witness :
  exists n t',
    [day_2022_01_05; day_2022_01_06]
    = map day_url_of_date (day_sequence n start_date)
    /\ length [day_2022_01_05; day_2022_01_06] = n
    /\ Forall (fun d => Datetime.le d end_date = true) (day_sequence n start_date)
    /\ days_later n start_date = Some t'
    /\ Datetime.le t' end_date = false.
Proof.
  assert (H : _create_day_urls world start_date end_date
              = Ok [day_2022_01_05; day_2022_01_06])
    by (vm_compute; reflexivity).
  exact (create_day_urls_lists_consecutive_days world start_date end_date _ H).
Defined.

Lemma create_day_urls_covers_witness :
  exists n t_last,
    _create_day_urls world (Datetime.mk 2022 1 29 0 0 0 0)
      (Datetime.mk 2022 2 2 0 0 0 0)
    = Ok (map day_url_of_date (day_sequence (S n) (Datetime.mk 2022 1 29 0 0 0 0)))
    /\ length (day_sequence (S n) (Datetime.mk 2022 1 29 0 0 0 0)) = S n
    /\ days_later n (Datetime.mk 2022 1 29 0 0 0 0) = Some t_last
    /\ date_key t_last = date_key (Datetime.mk 2022 2 2 0 0 0 0).
Proof.
  assert (Ht : lex_le (time_key (Datetime.mk 2022 1 29 0 0 0 0))
                 (time_key (Datetime.mk 2022 2 2 0 0 0 0)))
    by (simpl; lia).
  exact (create_day_urls_covers_the_range world (Datetime.mk 2022 1 29 0 0 0 0)
           (Datetime.mk 2022 2 2 0 0 0 0) eq_refl eq_refl eq_refl Ht).
Defined.

Lemma file_requests_names_witness :
  file_requests_of "/output/dir/"
    (map (fun name => "https://e4ftl01.cr.usgs.gov/2022.01.06" +:+ "/" +:+ name)
       [file_19858; file_19858])
  = map (fun name => ("https://e4ftl01.cr.usgs.gov/2022.01.06" +:+ "/" +:+ name,
                      "/output/dir/" +:+ name))
      [file_19858; file_19858].
Proof.
  apply (file_requests_keep_the_file_names "/output/dir/"
           "https://e4ftl01.cr.usgs.gov/2022.01.06" [file_19858; file_19858]).
  - reflexivity.
  - repeat constructor.
Defined.

Lemma overlaps_bbox_sides_witness :
  exists b,
    _overlaps_bbox world (fun _ => ret tt) [-120; 35; -118; 36]%Q xml_url
      cached_disk = (Ok b, cached_disk)
    /\ (b = true <-> (-122.778572 <= -118 /\ -120 <= -117.125183
                      /\ 32.858040 <= 36 /\ 35 <= 38.030651)%Q).
Proof.
  assert (Hfile : files cached_disk
                  !! Path.join (_XML_DIR world) (Path.basename xml_url)
                  = Some granule_xml) by (vm_compute; reflexivity).
  apply (overlaps_bbox_compares_the_sides world (fun _ => ret tt) xml_url
           granule_xml cached_disk granule bounding_rectangle
           "-122.778572" "38.030651" "-117.125183" "32.858040"
           (-122.778572)%Q 38.030651%Q (-117.125183)%Q 32.858040%Q
           (-120)%Q 35%Q (-118)%Q 36%Q Hfile);
    try reflexivity; unfold Qle; simpl; lia.
Defined.

Lemma download_failed_listing_witness :
  download offline start_date end_date bbox "/output/dir/" empty_disk
  = (Raise (LibraryError "ConnectionError"),
     sent empty_disk (map HttpGet ([] ++ [day_2022_01_05])))
  /\ files (sent empty_disk (map HttpGet ([] ++ [day_2022_01_05])))
     = files empty_disk.
Proof.
  apply (download_stops_at_failed_listing offline start_date end_date bbox
           "/output/dir/" empty_disk [] day_2022_01_05 [day_2022_01_06]
           [] empty_disk (LibraryError "ConnectionError"));
    vm_compute; reflexivity.
Defined.

Lemma download_rerun_witness :
  download world start_date end_date bbox "/output/dir/" complete_disk
  = (Ok tt,
     printed (sent complete_disk (map HttpGet [day_2022_01_05; day_2022_01_06]))
       (map (fun q => "Skipping " +:+ snd q)
          (file_requests_of "/output/dir/"
             [day_2022_01_05 +:+ file_19850; day_2022_01_06 +:+ file_19858]))).
Proof.
  assert (Hall : Forall (fun q => is_Some (files complete_disk !! snd q))
                   (file_requests_of "/output/dir/"
                      [day_2022_01_05 +:+ file_19850;
                       day_2022_01_06 +:+ file_19858])).
  { repeat constructor; exists "data"; vm_compute; reflexivity. }
  assert (Hsel : select_days world (download_frame world recursion_limit)
                   start_date end_date bbox [day_2022_01_05; day_2022_01_06]
                   [] complete_disk
                 = (Ok [day_2022_01_05 +:+ file_19850;
                        day_2022_01_06 +:+ file_19858],
                    sent complete_disk
                      (map HttpGet [day_2022_01_05; day_2022_01_06])))
    by (vm_compute; reflexivity).
  exact (download_rerun_only_lists world start_date end_date bbox "/output/dir/"
           complete_disk [day_2022_01_05; day_2022_01_06] _ _ eq_refl Hsel Hall).
Defined.

End ExtraWitnesses.
